(** * registrar: program metadata cache, parser and course-key lookup

    A shallow embedding of [registrar/apps/common/data.py] (class
    [DiscoveryProgram] and the request helpers it calls), followed by the
    properties of the cache, the parser and the course-run lookup, and by a
    model of the permission resolver whose code lives outside the files
    embedded here. *)

From Stdlib Require Import ZArith Lia.
From stdpp Require Import base option list strings gmap.

Local Open Scope Z_scope.
Local Open Scope string_scope.

(** ** Python values

    What [response.json()] hands to the parser: the Python image of a JSON
    document.  A [dict] is an association list read by first match (a Python
    dict has no repeated key, so the reading is the one of the dict); numbers
    are the integers (the parser only tests values for truth and stores them). *)

#[warnings="-register-all"]
Inductive pyval : Type :=
| VNone
| VBool (b : bool)
| VInt (n : Z)
| VStr (s : string)
| VList (items : list pyval)
| VDict (fields : list (string * pyval)).

(** The exceptions that can cross the functions embedded below. *)
Inductive exn : Type :=
| Http404
| HTTPError (status : Z)
| ValidationError
| AttributeError
| TypeError
| ValueError
| Exception_ (msg : string).

(** Pure, fallible code: [inl e] is "raises e". *)
Definition res (A : Type) : Type := exn + A.

Definition rbind {A B} (m : res A) (k : A -> res B) : res B :=
  match m with
  | inl e => inl e
  | inr a => k a
  end.

Notation "x <-- m ;; k" := (rbind m (fun x => k))
  (at level 100, m at next level, right associativity).

(** [bool(v)] *)
Definition truthy (v : pyval) : bool :=
  match v with
  | VNone => false
  | VBool b => b
  | VInt n => negb (n =? 0)%Z
  | VStr s => negb (String.eqb s "")
  | VList items => match items with [] => false | _ => true end
  | VDict fields => match fields with [] => false | _ => true end
  end.

Fixpoint dict_lookup (k : string) (fields : list (string * pyval)) : option pyval :=
  match fields with
  | [] => None
  | (k', v) :: rest => if String.eqb k k' then Some v else dict_lookup k rest
  end.

(** [d.get(k, default)]: only a dict has the method. *)
Definition py_get (d : pyval) (k : string) (dflt : pyval) : res pyval :=
  match d with
  | VDict fields => inr (default dflt (dict_lookup k fields))
  | _ => inl AttributeError
  end.

(** [iter(v)] run to the end: a list gives its items, a str its characters,
    a dict its keys; nothing else is iterable. *)
Definition py_iter (v : pyval) : res (list pyval) :=
  match v with
  | VList items => inr items
  | VStr s => inr (map (fun c => VStr (String c EmptyString)) (String.list_ascii_of_string s))
  | VDict fields => inr (map (fun kv => VStr (fst kv)) fields)
  | _ => inl TypeError
  end.

(** [course_id == v] for a course id, which is a [str]. *)
Definition py_eq_str (course_id : string) (v : pyval) : bool :=
  match v with
  | VStr s => String.eqb course_id s
  | _ => false
  end.

(** ** Records of data.py *)

(** [DiscoveryCourseRun = namedtuple(..., ['key', 'external_key', 'title', 'marketing_url'])];
    each field holds whatever [course_run.get(...)] returned. *)
Record DiscoveryCourseRun : Type := {
  key : pyval;
  external_key : pyval;
  cr_title : pyval;
  cr_marketing_url : pyval;
}.

(** An instance of [DiscoveryProgram]: the attributes [from_json] sets through
    [__init__]'s keyword arguments, and [loaded]. *)
Record DiscoveryProgram : Type := {
  version : Z;
  loaded : Z;
  uuid : string;
  title : pyval;
  url : pyval;
  active_curriculum_uuid : pyval;
  course_runs : list DiscoveryCourseRun;
}.

(** The class a classmethod receives as [cls]: [DiscoveryProgram] itself has
    [class_version = 1]; the source bumps the number when the schema changes. *)
Record Class : Type := { class_version : Z }.

Definition DiscoveryProgram_cls : Class := {| class_version := 1 |}.

(** ** The world the code runs in

    [requests.Response]: the status code and what [.json()] gives ([None]
    when the body is no JSON document, where [.json()] raises ValueError). *)
Record Response : Type := {
  status_code : Z;
  json_body : option pyval;
}.

(** An authenticated REST client: [client.request(method, url)] answers with
    a response or raises. *)
Record Client : Type := {
  request : string -> string -> res Response;
}.

(** One entry of the cache backend (django.core.cache): the pickled value and
    the time it expires at ([None]: never). *)
Record CacheEntry : Type := {
  entry_value : DiscoveryProgram;
  entry_expires : option Z;
}.

(** - [cache]: the process-wide cache backend;
    - [clock]: the current time in seconds (calls are instantaneous, time
      passes between them);
    - [log]: messages written through [logger];
    - [fetches]: the program uuids [read_from_discovery] was invoked with, in
      order (a trace kept for the statements about the fetcher being invoked);
    - [oauth]: what building an [OAuthAPIClient] for a host and checking its
      authentication gives: an exception, or the client and whether
      [client.auth.token] is truthy. *)
Record World : Type := {
  cache : gmap string CacheEntry;
  clock : Z;
  log : list string;
  fetches : list string;
  oauth : string -> res (Client * bool);
}.

Definition set_cache (c : gmap string CacheEntry) (w : World) : World :=
  {| cache := c; clock := clock w; log := log w; fetches := fetches w; oauth := oauth w |}.

Definition add_log (msg : string) (w : World) : World :=
  {| cache := cache w; clock := clock w; log := log w ++ [msg]; fetches := fetches w;
     oauth := oauth w |}.

Definition add_fetch (program_uuid : string) (w : World) : World :=
  {| cache := cache w; clock := clock w; log := log w;
     fetches := fetches w ++ [program_uuid]; oauth := oauth w |}.

(** What the environment does between two calls: [d] seconds pass, and the
    authentication service and the remote data may change. *)
Definition later (d : Z) (oauth' : string -> res (Client * bool)) (w : World) : World :=
  {| cache := cache w; clock := clock w + d; log := log w; fetches := fetches w;
     oauth := oauth' |}.

(** Stateful code that may raise: the world is threaded through, and what was
    done before an exception stays done. *)
Definition M (A : Type) : Type := World -> res A * World.

Definition ret {A} (a : A) : M A := fun w => (inr a, w).

Definition raise {A} (e : exn) : M A := fun w => (inl e, w).

Definition bind {A B} (m : M A) (k : A -> M B) : M B :=
  fun w => match m w with
           | (inl e, w') => (inl e, w')
           | (inr a, w') => k a w'
           end.

Definition lift {A} (r : res A) : M A := fun w => (r, w).

(** [try: m except HTTPError as e: h e] *)
Definition try_except_HTTPError {A} (m : M A) (h : Z -> M A) : M A :=
  fun w => match m w with
           | (inl (HTTPError status), w') => h status w'
           | other => other
           end.

Notation "x <- m ;; k" := (bind m (fun x => k))
  (at level 100, m at next level, right associativity).

(** *** The cache backend

    get, set with a timeout, delete.  A value set at time [t] with timeout
    [Some d] expires at [t + d] and is gone for every get from then on; with
    timeout [None] it never expires. *)
Definition has_expired (now : Z) (e : CacheEntry) : bool :=
  match entry_expires e with
  | None => false
  | Some t => (t <=? now)%Z
  end.

Definition cache_lookup (k : string) (w : World) : option DiscoveryProgram :=
  match cache w !! k with
  | Some e => if has_expired (clock w) e then None else Some (entry_value e)
  | None => None
  end.

Definition cache_get (k : string) : M (option DiscoveryProgram) :=
  fun w => (inr (cache_lookup k w), w).

Definition cache_set (k : string) (value : DiscoveryProgram) (timeout : option Z) : M unit :=
  fun w => (inr tt,
            set_cache (<[k := {| entry_value := value;
                                 entry_expires := (fun d => clock w + d)%Z <$> timeout |}]>
                         (cache w)) w).

Definition cache_delete (k : string) : M unit :=
  fun w => (inr tt, set_cache (delete k (cache w)) w).

(** *** Strings *)

(** What [str.format] does to a template whose only braces are those of its
    replacement field [pat]: every occurrence of [pat] in [s] becomes [by_],
    and what was put in is not read again.  [pat] is not empty; the fuel is
    the length of [s]. *)
Fixpoint str_replace_from (fuel : nat) (pat by_ s : string) : string :=
  match fuel with
  | O => s
  | S fuel' =>
      if String.prefix pat s
      then by_ +:+ str_replace_from fuel' pat by_
                     (String.substring (String.length pat) (String.length s - String.length pat) s)
      else match s with
           | EmptyString => EmptyString
           | String c rest => String c (str_replace_from fuel' pat by_ rest)
           end
  end.

Definition str_replace (pat by_ s : string) : string :=
  str_replace_from (String.length s) pat by_ s.

(** [posixpath.join(a, b)] *)
Definition urljoin (a b : string) : string :=
  if String.prefix "/" b then b
  else if String.eqb a "" then b
  else if String.eqb (String.substring (String.length a - 1) 1 a) "/" then a +:+ b
  else a +:+ "/" +:+ b.

(** ** data.py *)

Section Data.

(** [settings.DISCOVERY_BASE_URL], [settings.LMS_BASE_URL] and the two
    constants of [registrar.apps.common.constants]: the key template, with
    its [{uuid}] field, and the timeout handed to [cache.set] ([None]: keep
    forever).  The templates hold no other replacement field. *)
Variable DISCOVERY_BASE_URL : string.
Variable LMS_BASE_URL : string.
Variable PROGRAM_CACHE_KEY_TPL : string.
Variable PROGRAM_CACHE_TIMEOUT : option Z.

(** [PROGRAM_CACHE_KEY_TPL.format(uuid=program_uuid)] *)
Definition program_cache_key (program_uuid : string) : string :=
  str_replace "{uuid}" program_uuid PROGRAM_CACHE_KEY_TPL.

(** [urljoin(settings.DISCOVERY_BASE_URL, 'api/v1/programs/{}/').format(program_uuid)] *)
Definition program_url (program_uuid : string) : string :=
  str_replace "{}" program_uuid (urljoin DISCOVERY_BASE_URL "api/v1/programs/{}/").

(** [_get_client(host_base_url)]: [raise 'No Auth Token'] raises a str, which
    Python answers with TypeError. *)
Definition _get_client (host_base_url : string) : M Client :=
  fun w => match oauth w host_base_url with
           | inl e => (inl e, w)
           | inr (client, has_token) =>
               if negb has_token then (inl TypeError, w) else (inr client, w)
           end.

Definition http_methods : list string := ["GET"; "POST"; "PUT"; "PATCH"; "DELETE"].

(** [response.raise_for_status()]: HTTPError for a 4xx or 5xx status,
    otherwise nothing. *)
Definition raise_for_status (response : Response) : M unit :=
  if ((400 <=? status_code response) && (status_code response <? 600))%Z
  then raise (HTTPError (status_code response))
  else ret tt.

(** [_make_request(method, url, client)], without keyword arguments (the call
    of [read_from_discovery]).  [None] is what the function returns when it
    falls off its end: a status outside 2xx that [raise_for_status] lets pass. *)
Definition _make_request (method url : string) (client : option Client) : M (option Response) :=
  if negb (bool_decide (method ∈ http_methods))
  then raise (Exception_ ("invalid http method: " +:+ method))
  else
    client <- match client with
              | None => _get_client LMS_BASE_URL
              | Some c => ret c
              end ;;
    response <- lift (request client method url) ;;
    if ((200 <=? status_code response) && (status_code response <? 300))%Z
    then ret (Some response)
    else _ <- raise_for_status response ;; ret None.

(** [r.json()] on what [_make_request] returned. *)
Definition response_json (r : option Response) : M pyval :=
  match r with
  | None => raise AttributeError
  | Some response =>
      match json_body response with
      | None => raise ValueError
      | Some data => ret data
      end
  end.

Definition HTTP_404_NOT_FOUND : Z := 404.

(** [DiscoveryProgram.read_from_discovery(program_uuid, client)] *)
Definition read_from_discovery (program_uuid : string) (client : option Client) : M pyval :=
  fun w =>
    let url := program_url program_uuid in
    try_except_HTTPError
      (r <- _make_request "GET" url client ;; response_json r)
      (fun status =>
         if (status =? HTTP_404_NOT_FOUND)%Z then raise Http404 else raise (HTTPError status))
      (add_fetch program_uuid w).

(** [DiscoveryProgram.__init__] with the keyword arguments [from_json] passes:
    [loaded] is the time of construction. *)
Definition DiscoveryProgram_init (version_ : Z) (uuid_ : string) (title_ url_ : pyval)
    (active_curriculum_uuid_ : pyval) (course_runs_ : list DiscoveryCourseRun)
  : M DiscoveryProgram :=
  fun w => (inr {| version := version_; loaded := clock w; uuid := uuid_; title := title_;
                   url := url_; active_curriculum_uuid := active_curriculum_uuid_;
                   course_runs := course_runs_ |}, w).

(** [logger.exception(msg)] *)
Definition logger_exception (msg : string) : M unit :=
  fun w => (inr tt, add_log msg w).

(** [next(c for c in curricula if c.get('is_active'))]: the generator stops at
    the first curriculum it yields; [None] is StopIteration. *)
Fixpoint next_active (curricula : list pyval) : res (option pyval) :=
  match curricula with
  | [] => inr None
  | c :: rest =>
      is_active <-- py_get c "is_active" VNone ;;
      if truthy is_active then inr (Some c) else next_active rest
  end.

(** One [DiscoveryCourseRun(...)] of the comprehension. *)
Definition make_course_run (course_run : pyval) : res DiscoveryCourseRun :=
  key_ <-- py_get course_run "key" VNone ;;
  external_key_ <-- py_get course_run "external_key" VNone ;;
  title_ <-- py_get course_run "title" VNone ;;
  marketing_url_ <-- py_get course_run "marketing_url" VNone ;;
  inr {| key := key_; external_key := external_key_; cr_title := title_;
         cr_marketing_url := marketing_url_ |}.

(** The inner loop: [for course_run in course.get("course_runs", [])]. *)
Fixpoint runs_of_course_runs (course_runs_ : list pyval) : res (list DiscoveryCourseRun) :=
  match course_runs_ with
  | [] => inr []
  | course_run :: rest =>
      r <-- make_course_run course_run ;;
      more <-- runs_of_course_runs rest ;;
      inr (r :: more)
  end.

(** The outer loop: [for course in curriculum.get("courses", [])]. *)
Fixpoint runs_of_courses (courses : list pyval) : res (list DiscoveryCourseRun) :=
  match courses with
  | [] => inr []
  | course :: rest =>
      runs_field <-- py_get course "course_runs" (VList []) ;;
      runs_iter <-- py_iter runs_field ;;
      runs <-- runs_of_course_runs runs_iter ;;
      more <-- runs_of_courses rest ;;
      inr (runs ++ more)%list
  end.

Definition no_active_curricula_msg (program_uuid : string) : string :=
  str_replace "{}" program_uuid "Discovery API returned no active curricula for program {}".

(** [DiscoveryProgram.from_json(program_uuid, program_data)] *)
Definition from_json (cls : Class) (program_uuid : string) (program_data : pyval)
  : M DiscoveryProgram :=
  program_title <- lift (py_get program_data "title" VNone) ;;
  program_url_ <- lift (py_get program_data "marketing_url" VNone) ;;
  curricula <- lift (py_get program_data "curricula" (VList [])) ;;
  curricula_iter <- lift (py_iter curricula) ;;
  found <- lift (next_active curricula_iter) ;;
  match found with
  | None =>
      _ <- logger_exception (no_active_curricula_msg program_uuid) ;;
      DiscoveryProgram_init (class_version cls) program_uuid program_title program_url_
        VNone []
  | Some curriculum =>
      active_curriculum_uuid_ <- lift (py_get curriculum "uuid" VNone) ;;
      courses <- lift (py_get curriculum "courses" (VList [])) ;;
      courses_iter <- lift (py_iter courses) ;;
      course_runs_ <- lift (runs_of_courses courses_iter) ;;
      DiscoveryProgram_init (class_version cls) program_uuid program_title program_url_
        active_curriculum_uuid_ course_runs_
  end.

(** [DiscoveryProgram.load_from_discovery(program_uuid, client)] *)
Definition load_from_discovery (cls : Class) (program_uuid : string) (client : option Client)
  : M DiscoveryProgram :=
  program_data <- read_from_discovery program_uuid client ;;
  from_json cls program_uuid program_data.

(** The branch of [get] taken when the cache gives nothing usable. *)
Definition load_and_store (cls : Class) (program_uuid : string) (client : option Client)
  : M DiscoveryProgram :=
  program <- load_from_discovery cls program_uuid client ;;
  _ <- cache_set (program_cache_key program_uuid) program PROGRAM_CACHE_TIMEOUT ;;
  ret program.

(** [DiscoveryProgram.get(program_uuid, client)]: an instance is truthy, so
    [program and program.version == cls.class_version] fails on [None] and on
    an instance of another version. *)
Definition get (cls : Class) (program_uuid : string) (client : option Client)
  : M DiscoveryProgram :=
  program <- cache_get (program_cache_key program_uuid) ;;
  match program with
  | Some p =>
      if (version p =? class_version cls)%Z then ret p
      else load_and_store cls program_uuid client
  | None => load_and_store cls program_uuid client
  end.

(** [self.find_course_run(course_id)]: the loop over [self.course_runs]. *)
Fixpoint find_in_course_runs (course_id : string) (runs : list DiscoveryCourseRun)
  : option DiscoveryCourseRun :=
  match runs with
  | [] => None
  | course_run :: rest =>
      if py_eq_str course_id (key course_run) || py_eq_str course_id (external_key course_run)
      then Some course_run
      else find_in_course_runs course_id rest
  end.

Definition find_course_run (self : DiscoveryProgram) (course_id : string)
  : option DiscoveryCourseRun :=
  find_in_course_runs course_id (course_runs self).

(** [self.get_external_course_key(course_id)]: a namedtuple of four fields is
    truthy, so [if course_run:] tests for [None]. *)
Definition get_external_course_key (self : DiscoveryProgram) (course_id : string) : pyval :=
  match find_course_run self course_id with
  | Some course_run => external_key course_run
  | None => VNone
  end.

(** [self.get_course_key(course_id)] *)
Definition get_course_key (self : DiscoveryProgram) (course_id : string) : pyval :=
  match find_course_run self course_id with
  | Some course_run => key course_run
  | None => VNone
  end.

End Data.

(** Modelled from the spec: [Invalidate(program_uuid)] of the metadata cache,
    which data.py does not define ("explicitly removes an entry ahead of TTL
    expiry"): the delete of the backing store on the program's key. *)
Definition Invalidate (PROGRAM_CACHE_KEY_TPL : string) (program_uuid : string) : M unit :=
  cache_delete (program_cache_key PROGRAM_CACHE_KEY_TPL program_uuid).

(** ** The payload format, as the statements below read it

    These definitions are total readings of a payload: what a field holds
    ([None] when absent, or when the value is no dict), and the array a field
    holds (empty when absent).  They are written from the format
    [curricula[].courses[].course_runs[]], not from the parser. *)

Definition is_dict (v : pyval) : bool :=
  match v with
  | VDict _ => true
  | _ => false
  end.

Definition field (name : string) (v : pyval) : pyval :=
  match v with
  | VDict fields =>
      match dict_lookup name fields with
      | Some x => x
      | None => VNone
      end
  | _ => VNone
  end.

Definition array_field (name : string) (v : pyval) : list pyval :=
  match v with
  | VDict fields =>
      match dict_lookup name fields with
      | Some (VList items) => items
      | _ => []
      end
  | _ => []
  end.

(** A dict whose field [name] is absent or an array. *)
Definition array_or_absent (name : string) (v : pyval) : bool :=
  match v with
  | VDict fields =>
      match dict_lookup name fields with
      | None => true
      | Some (VList _) => true
      | Some _ => false
      end
  | _ => false
  end.

(** [is_active] read as Python reads it in a condition; on a JSON boolean
    this is the boolean. *)
Definition is_active (curriculum : pyval) : bool := truthy (field "is_active" curriculum).

Definition inactive_curriculum (curriculum : pyval) : bool :=
  is_dict curriculum && negb (is_active curriculum).

Definition course_shaped (course : pyval) : bool :=
  array_or_absent "course_runs" course && forallb is_dict (array_field "course_runs" course).

Definition curriculum_shaped (curriculum : pyval) : bool :=
  array_or_absent "courses" curriculum
  && forallb course_shaped (array_field "courses" curriculum).

Definition payload_shaped (program_data : pyval) : bool :=
  array_or_absent "curricula" program_data
  && forallb curriculum_shaped (array_field "curricula" program_data).

(** The course-run record of one entry of a [course_runs] array. *)
Definition course_run_record (course_run : pyval) : DiscoveryCourseRun :=
  {| key := field "key" course_run;
     external_key := field "external_key" course_run;
     cr_title := field "title" course_run;
     cr_marketing_url := field "marketing_url" course_run |}.

(** Courses in the given order, course runs in the given order within each. *)
Definition flattened_course_runs (curriculum : pyval) : list DiscoveryCourseRun :=
  flat_map (fun course => map course_run_record (array_field "course_runs" course))
    (array_field "courses" curriculum).

(** The record a payload describes at time [now]. *)
Definition described_program (cls : Class) (program_uuid : string) (program_data : pyval)
    (now : Z) : DiscoveryProgram :=
  let chosen := List.find is_active (array_field "curricula" program_data) in
  {| version := class_version cls;
     loaded := now;
     uuid := program_uuid;
     title := field "title" program_data;
     url := field "marketing_url" program_data;
     active_curriculum_uuid :=
       match chosen with
       | Some curriculum => field "uuid" curriculum
       | None => VNone
       end;
     course_runs :=
       match chosen with
       | Some curriculum => flattened_course_runs curriculum
       | None => []
       end |}.

(** *** Dropping the fields the format does not name *)

Definition keep_fields (names : list string) (fields : list (string * pyval))
  : list (string * pyval) :=
  List.filter (fun kv => bool_decide (fst kv ∈ names)) fields.

Definition update_field (name : string) (f : pyval -> pyval) (fields : list (string * pyval))
  : list (string * pyval) :=
  map (fun kv => if String.eqb name (fst kv) then (fst kv, f (snd kv)) else kv) fields.

Definition on_items (f : pyval -> pyval) (v : pyval) : pyval :=
  match v with
  | VList items => VList (map f items)
  | _ => v
  end.

Definition prune_course_run (course_run : pyval) : pyval :=
  match course_run with
  | VDict fields => VDict (keep_fields ["key"; "external_key"; "title"; "marketing_url"] fields)
  | _ => course_run
  end.

Definition prune_course (course : pyval) : pyval :=
  match course with
  | VDict fields =>
      VDict (update_field "course_runs" (on_items prune_course_run)
               (keep_fields ["course_runs"] fields))
  | _ => course
  end.

Definition prune_curriculum (curriculum : pyval) : pyval :=
  match curriculum with
  | VDict fields =>
      VDict (update_field "courses" (on_items prune_course)
               (keep_fields ["is_active"; "uuid"; "courses"] fields))
  | _ => curriculum
  end.

Definition prune_payload (program_data : pyval) : pyval :=
  match program_data with
  | VDict fields =>
      VDict (update_field "curricula" (on_items prune_curriculum)
               (keep_fields ["title"; "marketing_url"; "curricula"] fields))
  | _ => program_data
  end.

(** *** Course-run lookup *)

(** [course_id] is the [key] or the [external_key] of the run. *)
Definition matches (course_id : string) (course_run : DiscoveryCourseRun) : Prop :=
  key course_run = VStr course_id \/ external_key course_run = VStr course_id.

(** The time elapsed is within the timeout of an entry just stored. *)
Definition within_ttl (PROGRAM_CACHE_TIMEOUT : option Z) (d : Z) : Prop :=
  match PROGRAM_CACHE_TIMEOUT with
  | None => True
  | Some t => (d < t)%Z
  end.

(** The cache gives nothing usable for [k] to a parser of version [v]. *)
Definition cache_miss (k : string) (v : Z) (w : World) : Prop :=
  match cache_lookup k w with
  | Some p => version p <> v
  | None => True
  end.

(** ** The permission resolvers

    The resolver code ([registrar/apps/core/utils.py] and [permissions.py]) is
    not among the files embedded above; only its tests are.  The definitions
    of this module follow sections 3, 4.1, 4.2, 4.3 and 6 of the
    specification. *)

Module Permissions.

(** Modelled from the spec: PermissionKind, the enumerated permission kinds
    (defined in permissions.py, which is missing). *)
Inductive PermissionKind : Type :=
| READ_METADATA
| READ_ENROLLMENTS
| WRITE_ENROLLMENTS
| READ_REPORTS.

#[global] Instance PermissionKind_eq_dec : EqDecision PermissionKind.
Proof. solve_decision. Defined.

#[global] Instance PermissionKind_countable : Countable PermissionKind.
Proof.
  refine (inj_countable'
            (fun k => match k with
                      | READ_METADATA => 0%nat
                      | READ_ENROLLMENTS => 1%nat
                      | WRITE_ENROLLMENTS => 2%nat
                      | READ_REPORTS => 3%nat
                      end)
            (fun n => match n with
                      | 0%nat => READ_METADATA
                      | 1%nat => READ_ENROLLMENTS
                      | 2%nat => WRITE_ENROLLMENTS
                      | _ => READ_REPORTS
                      end) _).
  intros []; reflexivity.
Defined.

(** Modelled from the spec: the error taxonomy of section 7 (the resolvers
    that raise them are missing). *)
Inductive Failure : Type :=
| NotFound
| TransportError
| ValidationError
| UnknownRole
| StoreError.

(** Modelled from the spec: GrantScope (section 3; missing with the store). *)
Inductive GrantScope : Type :=
| Global
| Organization (org_id : string)
| Program (program_id : string).

(** Modelled from the spec: CourseRun and ProgramMetadata of section 3, the
    record the metadata cache serves to the resolver (the resolver and the
    [program_type] it reads are missing from data.py). *)
Record CourseRun : Type := {
  run_key : string;
  run_external_key : option string;
  run_title : string;
  run_marketing_url : string;
}.

Record ProgramMetadata : Type := {
  schema_version : Z;
  loaded_at : Z;
  metadata_uuid : string;
  metadata_title : string;
  marketing_url : string;
  program_type : string;
  metadata_active_curriculum_uuid : option string;
  metadata_course_runs : list CourseRun;
}.

(** Modelled from the spec: PermissionCatalog (section 4.1; permissions.py is
    missing).  [RoleGrants] fails with UnknownRole on an unregistered name. *)
Record PermissionCatalog : Type := {
  registered : string -> option (gset PermissionKind);
}.

(** Modelled from the spec: [RoleGrants(role_name)] of section 4.1. *)
Definition RoleGrants (catalog : PermissionCatalog) (role_name : string)
  : Failure + gset PermissionKind :=
  match registered catalog role_name with
  | Some kinds => inr kinds
  | None => inl UnknownRole
  end.

(** Modelled from the spec: [IsEnrollmentScoped(kind)] of section 4.1, true
    for READ_ENROLLMENTS and WRITE_ENROLLMENTS and false otherwise. *)
Definition IsEnrollmentScoped (kind : PermissionKind) : bool :=
  match kind with
  | READ_ENROLLMENTS | WRITE_ENROLLMENTS => true
  | READ_METADATA | READ_REPORTS => false
  end.

(** Modelled from the spec: the collaborators of section 6, RoleGrantStore,
    ProgramDirectory and the metadata cache's [Get] as the resolver sees it
    (all missing from the embedded files). *)
Record RoleGrantStore : Type := {
  RolesOf : string -> GrantScope -> Failure + gset string;
  DirectPermissionsOf : string -> GrantScope -> Failure + gset PermissionKind;
}.

Record ProgramRef : Type := {
  program_id : string;
  program_uuid : string;
}.

Record Collaborators : Type := {
  catalog : PermissionCatalog;
  store : RoleGrantStore;
  ManagingOrganizationOf : ProgramRef -> string;
  MetadataGet : string -> Failure + ProgramMetadata;
}.

Definition fbind {A B} (m : Failure + A) (k : A -> Failure + B) : Failure + B :=
  match m with
  | inl e => inl e
  | inr a => k a
  end.

Notation "x <~ m ;; k" := (fbind m (fun x => k))
  (at level 100, m at next level, right associativity).

(** Modelled from the spec: the union of what every role of a list grants
    ("union in permissions granted by every role bound to the user"). *)
Fixpoint grants_of_roles (catalog : PermissionCatalog) (roles : list string)
  : Failure + gset PermissionKind :=
  match roles with
  | [] => inr ∅
  | role_name :: rest =>
      kinds <~ RoleGrants catalog role_name ;;
      more <~ grants_of_roles catalog rest ;;
      inr (kinds ∪ more)
  end.

(** Modelled from the spec: [PermissionResolver.Resolve(user, scope)] of
    section 4.2 (utils.py is missing): the permissions of the roles bound at
    Global scope, and for [Organization(org)] those of the roles bound at the
    organization and the kinds granted directly on it. *)
Definition PermissionResolver_Resolve (c : Collaborators) (user : string) (scope : GrantScope)
  : Failure + gset PermissionKind :=
  global_roles <~ RolesOf (store c) user Global ;;
  from_global <~ grants_of_roles (catalog c) (elements global_roles) ;;
  match scope with
  | Organization org =>
      org_roles <~ RolesOf (store c) user (Organization org) ;;
      from_org <~ grants_of_roles (catalog c) (elements org_roles) ;;
      direct <~ DirectPermissionsOf (store c) user (Organization org) ;;
      inr (from_global ∪ from_org ∪ direct)
  | _ => inr from_global
  end.

(** Modelled from the spec: steps 1 to 3 of section 4.3, the raw union of
    global, organization-scoped and program-direct grants. *)
Definition RawPermissions (c : Collaborators) (user : string) (program : ProgramRef)
  : Failure + gset PermissionKind :=
  let org := ManagingOrganizationOf c program in
  base <~ PermissionResolver_Resolve c user (Organization org) ;;
  direct <~ DirectPermissionsOf (store c) user (Program (program_id program)) ;;
  inr (base ∪ direct).

(** Modelled from the spec: the policy of step 5, by which only the type
    Masters is eligible for enrollment. *)
Definition eligible_for_enrollment (type : string) : bool := String.eqb type "Masters".

(** Modelled from the spec: [EffectivePermissionResolver.Resolve(user, program)]
    of section 4.3 (get_effective_user_program_api_permissions of utils.py,
    which is missing). *)
Definition Resolve (c : Collaborators) (user : string) (program : ProgramRef)
  : Failure + gset PermissionKind :=
  raw <~ RawPermissions c user program ;;
  metadata <~ MetadataGet c (program_uuid program) ;;
  if eligible_for_enrollment (program_type metadata)
  then inr raw
  else inr (filter (fun kind => IsEnrollmentScoped kind = false) raw).

End Permissions.

(** ** The request helpers of data.py

    [_get_all_paginated_responses], [_get_all_paginated_results] and
    [_do_batched_lms_write] make several requests through one client, pass a
    JSON body, and read the response an HTTPError was raised for.  This
    module models them, and [_make_request] with what they need of it. *)

Module Lms.

(** [len(items)] *)
Definition len {A} (items : list A) : Z := Z.of_nat (length items).

(** [range(start, stop, step)]: a step of zero raises ValueError. *)
Definition py_range (start stop step : Z) : res (list Z) :=
  if (step =? 0)%Z then inl ValueError
  else
    let count :=
      if (0 <? step)%Z then ((stop - start + step - 1) / step)%Z
      else ((start - stop - step - 1) / (- step))%Z in
    inr (map (fun i => (start + Z.of_nat i * step)%Z) (seq 0 (Z.to_nat count))).

(** A bound of a slice, as [items[i:j]] reads it: a negative bound counts
    from the end, and every bound is brought back into [0, len]. *)
Definition slice_bound (length_ i : Z) : Z :=
  if (i <? 0)%Z then Z.max 0 (i + length_) else Z.min i length_.

(** [items[i:j]] *)
Definition py_slice {A} (items : list A) (i j : Z) : list A :=
  let lo := slice_bound (len items) i in
  let hi := slice_bound (len items) j in
  take (Z.to_nat (hi - lo)) (drop (Z.to_nat lo) items).

(** What these functions raise: the exceptions of the first part, KeyError,
    and the HTTPError of [raise_for_status] with the response it was raised
    for, which their handlers read. *)
Inductive raised : Type :=
| HTTPErrorFor (response : Response)
| KeyError (k : string)
| Raised (e : exn).

(** What [except HTTPError as e] catches, with [e.response]: the HTTPError of
    [raise_for_status], which carries its response, and an HTTPError known by
    its status alone, whose response has that status and no JSON body. *)
Definition caught_HTTPError (x : raised) : option Response :=
  match x with
  | HTTPErrorFor response => Some response
  | Raised (HTTPError status) => Some {| status_code := status; json_body := None |}
  | _ => None
  end.

(** [d[k]] for a str [k]: a dict without the key raises KeyError, and
    nothing but a dict takes a str as index. *)
Definition py_getitem (d : pyval) (k : string) : raised + pyval :=
  match d with
  | VDict fields =>
      match dict_lookup k fields with
      | Some v => inr v
      | None => inl (KeyError k)
      end
  | _ => inl (Raised TypeError)
  end.

(** One call of [client.request(method, url, **kwargs)]; [req_json] is the
    keyword argument [json], when given. *)
Record Request : Type := {
  req_method : string;
  req_url : pyval;
  req_json : option (list pyval);
}.

(** A client that several requests go through: its answer may depend on the
    requests made before through it, which are given first. *)
Record Session : Type := {
  respond : list Request -> Request -> raised + Response;
}.

(** A client of the first part as a session: it answers by method and URL.
    A URL that is no str is refused by the requests library, with an
    exception that is a ValueError (MissingSchema, InvalidSchema or
    InvalidURL). *)
Definition session_of_client (c : Client) : Session :=
  {| respond := fun _ r =>
       match req_url r with
       | VStr u =>
           match request c (req_method r) u with
           | inl e => inl (Raised e)
           | inr response => inr response
           end
       | _ => inl (Raised ValueError)
       end |}.

(** Code that makes requests and may raise: the requests made so far are
    threaded through. *)
Definition T (A : Type) : Type := list Request -> (raised + A) * list Request.

Definition tret {A} (a : A) : T A := fun tr => (inr a, tr).

Definition traise {A} (e : raised) : T A := fun tr => (inl e, tr).

Definition tbind {A B} (m : T A) (k : A -> T B) : T B :=
  fun tr => match m tr with
            | (inl e, tr') => (inl e, tr')
            | (inr a, tr') => k a tr'
            end.

Notation "x <~~ m ;; k" := (tbind m (fun x => k))
  (at level 100, m at next level, right associativity).

(** [client.request(...)]: the request is made, whatever comes of it. *)
Definition send (client : Session) (r : Request) : T Response :=
  fun tr => (respond client tr r, (tr ++ [r])%list).

Section Helpers.

Variable LMS_BASE_URL : string.

(** The world is read for the authentication service only. *)
Variable w : World.

(** [_get_client(settings.LMS_BASE_URL)], as a session. *)
Definition default_client : T Session :=
  match fst (_get_client LMS_BASE_URL w) with
  | inl e => traise (Raised e)
  | inr c => tret (session_of_client c)
  end.

(** [_make_request(method, url, client, **kwargs)], with the keyword
    argument [json] when [json_] is given; the HTTPError of
    [raise_for_status] carries the response. *)
Definition _make_request (method : string) (url : pyval) (client : option Session)
    (json_ : option (list pyval)) : T (option Response) :=
  if negb (bool_decide (method ∈ http_methods))
  then traise (Raised (Exception_ ("invalid http method: " +:+ method)))
  else
    client <~~ match client with
               | None => default_client
               | Some c => tret c
               end ;;
    response <~~ send client {| req_method := method; req_url := url; req_json := json_ |} ;;
    if ((200 <=? status_code response) && (status_code response <? 300))%Z
    then tret (Some response)
    else if ((400 <=? status_code response) && (status_code response <? 600))%Z
         then traise (HTTPErrorFor response)
         else tret None.

(** [r.json()] on what [_make_request] returned or on [e.response]. *)
Definition json_of (r : option Response) : raised + pyval :=
  match r with
  | None => inl (Raised AttributeError)
  | Some response =>
      match json_body response with
      | None => inl (Raised ValueError)
      | Some data => inr data
      end
  end.

(** [d.get('next')] *)
Definition get_next (d : pyval) : raised + pyval :=
  match py_get d "next" VNone with
  | inl e => inl (Raised e)
  | inr v => inr v
  end.

(** The body of the loop of [_do_batched_lms_write], for the starts that
    [range] gives. *)
Fixpoint batch_loop (method : string) (url : pyval) (items : list pyval)
    (items_per_batch : Z) (client : Session) (starts : list Z)
    (responses : list (option Response)) : T (list (option Response)) :=
  match starts with
  | [] => tret responses
  | i :: rest =>
      fun tr =>
        let sub_items := py_slice items i (i + items_per_batch) in
        match _make_request method url (Some client) (Some sub_items) tr with
        | (inr response, tr') =>
            batch_loop method url items items_per_batch client rest
              (responses ++ [response])%list tr'
        | (inl e, tr') =>
            match caught_HTTPError e with
            | Some response =>
                batch_loop method url items items_per_batch client rest
                  (responses ++ [Some response])%list tr'
            | None => (inl e, tr')
            end
        end
  end.

(** [_do_batched_lms_write(method, url, items, items_per_batch, client)] *)
Definition _do_batched_lms_write (method : string) (url : pyval) (items : list pyval)
    (items_per_batch : Z) (client : option Session) : T (list (option Response)) :=
  client <~~ match client with
             | Some c => tret c
             | None => default_client
             end ;;
  match py_range 0 (len items) items_per_batch with
  | inl e => traise (Raised e)
  | inr starts => batch_loop method url items items_per_batch client starts []
  end.

(** The loop of [_get_all_paginated_results]; [None] when [fuel] iterations
    did not reach a falsy [next_url]. *)
Fixpoint results_loop (fuel : nat) (client : Session) (next_url : pyval)
    (results : list pyval) (tr : list Request)
  : option ((raised + list pyval) * list Request) :=
  match fuel with
  | O => None
  | S fuel' =>
      if negb (truthy next_url) then Some (inr results, tr)
      else
        match _make_request "GET" next_url (Some client) None tr with
        | (inl e, tr') => Some (inl e, tr')
        | (inr r, tr') =>
            match json_of r with
            | inl e => Some (inl e, tr')
            | inr response_data =>
                match py_getitem response_data "results" with
                | inl e => Some (inl e, tr')
                | inr page =>
                    match py_iter page with
                    | inl e => Some (inl (Raised e), tr')
                    | inr page_items =>
                        match get_next response_data with
                        | inl e => Some (inl e, tr')
                        | inr next =>
                            results_loop fuel' client next (results ++ page_items)%list tr'
                        end
                    end
                end
            end
        end
  end.

(** [_get_all_paginated_results(url, client)] *)
Definition _get_all_paginated_results (fuel : nat) (url : pyval) (client : option Session)
    (tr : list Request) : option ((raised + list pyval) * list Request) :=
  match (match client with
         | None => default_client
         | Some c => tret c
         end) tr with
  | (inl e, tr') => Some (inl e, tr')
  | (inr c, tr') => results_loop fuel c url [] tr'
  end.

(** The loop of [_get_all_paginated_responses]. *)
Fixpoint responses_loop (fuel : nat) (client : Session) (expected_error_codes : list Z)
    (next_url : pyval) (responses : list (option Response)) (tr : list Request)
  : option ((raised + list (option Response)) * list Request) :=
  match fuel with
  | O => None
  | S fuel' =>
      if negb (truthy next_url) then Some (inr responses, tr)
      else
        let '(outcome, tr') := _make_request "GET" next_url (Some client) None tr in
        let handled :=
          match outcome with
          | inr response => inr response
          | inl e =>
              match caught_HTTPError e with
              | Some response =>
                  if bool_decide (status_code response ∈ expected_error_codes)
                  then inr (Some response)
                  else inl e
              | None => inl e
              end
          end in
        match handled with
        | inl e => Some (inl e, tr')
        | inr response =>
            match json_of response with
            | inl e => Some (inl e, tr')
            | inr data =>
                match get_next data with
                | inl e => Some (inl e, tr')
                | inr next =>
                    responses_loop fuel' client expected_error_codes next
                      (responses ++ [response])%list tr'
                end
            end
        end
  end.

(** [_get_all_paginated_responses(url, client, expected_error_codes)]: no
    codes and an empty collection of codes are the same. *)
Definition _get_all_paginated_responses (fuel : nat) (url : pyval) (client : option Session)
    (expected_error_codes : option (list Z)) (tr : list Request)
  : option ((raised + list (option Response)) * list Request) :=
  match (match client with
         | None => default_client
         | Some c => tret c
         end) tr with
  | (inl e, tr') => Some (inl e, tr')
  | (inr c, tr') => responses_loop fuel c (default [] expected_error_codes) url [] tr'
  end.

End Helpers.

End Lms.

(** ** Sample data

    Concrete settings, payloads and worlds on which the statements below are
    instantiated. *)

Module Sample.

Definition DISCOVERY_BASE_URL : string := "https://discovery.example/".
Definition LMS_BASE_URL : string := "https://lms.example/".
Definition PROGRAM_CACHE_KEY_TPL : string := "program:{uuid}".
Definition PROGRAM_CACHE_TIMEOUT : option Z := Some 3600.

Definition run_a : pyval :=
  VDict [("key", VStr "course-v1:A+1"); ("title", VStr "A, first run"); ("seats", VInt 30)].

Definition run_b1 : pyval :=
  VDict [("key", VStr "course-v1:B+1"); ("external_key", VStr "ext-B-1")].

Definition run_b2 : pyval :=
  VDict [("external_key", VStr "ext-B-2"); ("marketing_url", VStr "https://b.example/2")].

(** A retired curriculum, then the active one: two courses, with one and two
    course runs. *)
Definition retired_curriculum : pyval :=
  VDict [("uuid", VStr "c-old"); ("is_active", VBool false);
         ("courses", VList [VDict [("course_runs", VList [run_b2])]])].

Definition active_curriculum : pyval :=
  VDict [("uuid", VStr "c-new"); ("is_active", VBool true);
         ("courses", VList [VDict [("key", VStr "A"); ("course_runs", VList [run_a])];
                            VDict [("course_runs", VList [run_b1; run_b2])]])].

Definition payload : pyval :=
  VDict [("title", VStr "Master of Examples"); ("type", VStr "Masters");
         ("curricula", VList [retired_curriculum; active_curriculum])].

(** A payload whose only curriculum is retired. *)
Definition retired_payload : pyval :=
  VDict [("title", VStr "Retired program"); ("curricula", VList [retired_curriculum])].

(** The payload the tests of the resolver put in the cache. *)
Definition payload_without_curricula : pyval :=
  VDict [("title", VStr "test-masters-program"); ("type", VStr "Masters");
         ("curricula", VList [])].

Definition no_service : string -> res (Client * bool) :=
  fun _ => inl (Exception_ "no authentication service").

(** A client whose every request is answered with [payload]. *)
Definition client : Client :=
  {| request := fun _ _ => inr {| status_code := 200; json_body := Some payload |} |}.

(** A client whose every request is answered with the given status and no
    JSON body. *)
Definition failing_client (status : Z) : Client :=
  {| request := fun _ _ => inr {| status_code := status; json_body := None |} |}.

(** A client answering with a document that is no program. *)
Definition garbled_client : Client :=
  {| request := fun _ _ =>
                  inr {| status_code := 200;
                         json_body := Some (VDict [("curricula", VInt 3)]) |} |}.

Definition world : World :=
  {| cache := ∅; clock := 1000; log := []; fetches := []; oauth := no_service |}.

Definition record_a : DiscoveryCourseRun :=
  {| key := VStr "course-v1:A+1"; external_key := VNone; cr_title := VStr "A, first run";
     cr_marketing_url := VNone |}.

Definition record_b1 : DiscoveryCourseRun :=
  {| key := VStr "course-v1:B+1"; external_key := VStr "ext-B-1"; cr_title := VNone;
     cr_marketing_url := VNone |}.

Definition record_b2 : DiscoveryCourseRun :=
  {| key := VNone; external_key := VStr "ext-B-2"; cr_title := VNone;
     cr_marketing_url := VStr "https://b.example/2" |}.

(** What parsing [payload] for program "p1" at time 1000 gives. *)
Definition program : DiscoveryProgram :=
  {| version := 1; loaded := 1000; uuid := "p1"; title := VStr "Master of Examples";
     url := VNone; active_curriculum_uuid := VStr "c-new";
     course_runs := [record_a; record_b1; record_b2] |}.

(** The class after a change of schema. *)
Definition bumped_cls : Class := {| class_version := 2 |}.

(** A world whose cache holds [program] under the key of "p1", stored at
    time 1000. *)
Definition warm_world : World :=
  {| cache := {[ "program:p1" := {| entry_value := program; entry_expires := Some 4600 |} ]};
     clock := 1000; log := []; fetches := ["p1"]; oauth := no_service |}.

(** The catalog, the bindings and the programs of the resolver's tests: the
    role of organization "org1" grants reading metadata and reading and
    writing enrollments; "user1" holds it; "user2" holds the three kinds
    directly on each program. *)
Definition read_write_role : string := "organization_read_write_enrollments".

Definition catalog : Permissions.PermissionCatalog :=
  {| Permissions.registered := fun role_name =>
       if String.eqb role_name read_write_role
       then Some {[Permissions.READ_METADATA; Permissions.READ_ENROLLMENTS;
                   Permissions.WRITE_ENROLLMENTS]}
       else None |}.

Definition store : Permissions.RoleGrantStore :=
  {| Permissions.RolesOf := fun user scope =>
       match scope with
       | Permissions.Organization org =>
           if String.eqb user "user1" && String.eqb org "org1"
           then inr {[read_write_role]} else inr ∅
       | _ => inr ∅
       end;
     Permissions.DirectPermissionsOf := fun user scope =>
       match scope with
       | Permissions.Program _ =>
           if String.eqb user "user2"
           then inr {[Permissions.READ_METADATA; Permissions.READ_ENROLLMENTS;
                      Permissions.WRITE_ENROLLMENTS]}
           else inr ∅
       | _ => inr ∅
       end |}.

Definition metadata (type : string) : Permissions.ProgramMetadata :=
  {| Permissions.schema_version := 1; Permissions.loaded_at := 1000;
     Permissions.metadata_uuid := "p"; Permissions.metadata_title := "test-program";
     Permissions.marketing_url := ""; Permissions.program_type := type;
     Permissions.metadata_active_curriculum_uuid := None;
     Permissions.metadata_course_runs := [] |}.

Definition collaborators : Permissions.Collaborators :=
  {| Permissions.catalog := catalog;
     Permissions.store := store;
     Permissions.ManagingOrganizationOf := fun _ => "org1";
     Permissions.MetadataGet := fun program_uuid =>
       if String.eqb program_uuid "masters-uuid" then inr (metadata "Masters")
       else if String.eqb program_uuid "micro-uuid" then inr (metadata "MicroMasters")
       else inl Permissions.NotFound |}.

Definition masters_program : Permissions.ProgramRef :=
  {| Permissions.program_id := "masters"; Permissions.program_uuid := "masters-uuid" |}.

Definition non_masters_program : Permissions.ProgramRef :=
  {| Permissions.program_id := "micro"; Permissions.program_uuid := "micro-uuid" |}.

End Sample.

(** ** More definitions for the statements below *)

(** The identifiers of course runs that are strings: keys and external keys,
    in the order of the course runs. *)
Definition str_of (v : pyval) : list string :=
  match v with
  | VStr s => [s]
  | _ => []
  end.

Definition identifiers (runs : list DiscoveryCourseRun) : list string :=
  flat_map (fun r => str_of (key r) ++ str_of (external_key r))%list runs.

(** Every entry of the cache sits under the key of the program it holds. *)
Definition cache_keyed (PROGRAM_CACHE_KEY_TPL : string) (w : World) : Prop :=
  forall k e,
    cache w !! k = Some e ->
    k = program_cache_key PROGRAM_CACHE_KEY_TPL (uuid (entry_value e)).

(** The character that opens a replacement field. *)
Definition open_brace : Ascii.ascii :=
  match "{" with
  | String c _ => c
  | EmptyString => Ascii.zero
  end.

(** The character that closes a replacement field. *)
Definition close_brace : Ascii.ascii :=
  match "}" with
  | String c _ => c
  | EmptyString => Ascii.zero
  end.

(** A string without a brace, opening or closing: [str.format] copies such a
    text as it is.  (An opening brace starts a replacement field; a closing
    brace outside a field is refused with ValueError when it stands alone,
    and two of them are copied as one.) *)
Fixpoint no_brace (s : string) : bool :=
  match s with
  | EmptyString => true
  | String c rest =>
      negb (Ascii.eqb c open_brace || Ascii.eqb c close_brace) && no_brace rest
  end.

(** A base URL as [urljoin] leaves it before a relative path: with one slash
    at its end, unless it is empty. *)
Definition with_slash (base : string) : string :=
  if String.eqb base "" then ""
  else if String.eqb (String.substring (String.length base - 1) 1 base) "/" then base
  else base +:+ "/".

(** *** Pages and batches *)

Definition get_request (url : pyval) : Lms.Request :=
  {| Lms.req_method := "GET"; Lms.req_url := url; Lms.req_json := None |}.

Definition write_request (method : string) (url : pyval) (batch : list pyval) : Lms.Request :=
  {| Lms.req_method := method; Lms.req_url := url; Lms.req_json := Some batch |}.

(** One page of a paginated endpoint: the URL it is asked at and the answer. *)
Record Page : Type := {
  page_url : pyval;
  page_response : Response;
}.

Definition page_document (p : Page) : pyval :=
  match json_body (page_response p) with
  | Some data => data
  | None => VNone
  end.

Definition page_results (p : Page) : list pyval := array_field "results" (page_document p).

Definition page_next (p : Page) : pyval := field "next" (page_document p).

Definition page_request (p : Page) : Lms.Request := get_request (page_url p).

Definition status_2xx (response : Response) : bool :=
  ((200 <=? status_code response) && (status_code response <? 300))%Z.

Definition status_4xx_5xx (response : Response) : bool :=
  ((400 <=? status_code response) && (status_code response <? 600))%Z.

(** A page of results: asked at a truthy URL, answered with a 2xx status and
    a JSON object whose [results] is an array. *)
Definition results_page (p : Page) : bool :=
  truthy (page_url p) && status_2xx (page_response p)
  && match page_document p with
     | VDict fields =>
         match dict_lookup "results" fields with
         | Some (VList _) => true
         | _ => false
         end
     | _ => false
     end.

(** A page the loop of responses accepts: asked at a truthy URL, answered with
    a JSON object, and with a 2xx status or an error status that is expected. *)
Definition accepted_page (expected_error_codes : list Z) (p : Page) : bool :=
  truthy (page_url p) && is_dict (page_document p)
  && (status_2xx (page_response p)
      || (status_4xx_5xx (page_response p)
          && bool_decide (status_code (page_response p) ∈ expected_error_codes))).

(** The pages follow one another from [first]: each is asked at the [next]
    of the one before, and the last one names [last] as its [next]. *)
Fixpoint chain (first : pyval) (pages : list Page) (last : pyval) : Prop :=
  match pages with
  | [] => last = first
  | p :: rest => page_url p = first /\ chain (page_next p) rest last
  end.

(** The client, after the requests [tr], answers the requests for the pages,
    made in order, with the responses of the pages. *)
Definition serves (client : Lms.Session) (tr : list Lms.Request) (pages : list Page) : Prop :=
  forall i p,
    pages !! i = Some p ->
    Lms.respond client (tr ++ map page_request (take i pages))%list (page_request p)
    = inr (page_response p).

(** The client never raises anything but an HTTPError. *)
Definition answers (client : Lms.Session) : Prop :=
  forall tr r,
    match Lms.respond client tr r with
    | inr _ => True
    | inl e => is_Some (Lms.caught_HTTPError e)
    end.

(** *** Sample pages and clients *)

Module LmsSample.

Definition first_url : string := "https://lms.example/api/enrollments/".
Definition second_url : string := "https://lms.example/api/enrollments/?cursor=2".

Definition first_page : Page :=
  {| page_url := VStr first_url;
     page_response :=
       {| status_code := 200;
          json_body := Some (VDict [("results", VList [VStr "alice"; VStr "bob"]);
                                    ("next", VStr second_url)]) |} |}.

Definition last_page : Page :=
  {| page_url := VStr second_url;
     page_response :=
       {| status_code := 200;
          json_body := Some (VDict [("next", VNone); ("results", VList [VStr "carol"])]) |} |}.

(** A first page answered with 404 whose body names the next page. *)
Definition missing_page : Page :=
  {| page_url := VStr first_url;
     page_response :=
       {| status_code := 404;
          json_body := Some (VDict [("detail", VStr "gone"); ("next", VStr second_url)]) |} |}.

(** A page that names itself as the next one. *)
Definition looping_page : Page :=
  {| page_url := VStr first_url;
     page_response :=
       {| status_code := 200;
          json_body := Some (VDict [("results", VList [VStr "alice"]);
                                    ("next", VStr first_url)]) |} |}.

(** A document without results. *)
Definition bare_response : Response :=
  {| status_code := 200; json_body := Some (VDict [("count", VInt 0)]) |}.

Definition refused : Lms.raised := Lms.Raised (Exception_ "unexpected request").

(** A client that answers the first URL with [first] and the second with
    [second], whatever came before. *)
Definition two_pages (first second : Response) : Lms.Session :=
  {| Lms.respond := fun _ r =>
       match Lms.req_url r with
       | VStr u =>
           if String.eqb u first_url then inr first
           else if String.eqb u second_url then inr second
           else inl refused
       | _ => inl refused
       end |}.


(** A client whose second request fails on the connection. *)
Definition connection_reset : Lms.raised := Lms.Raised (Exception_ "connection reset").

Definition flaky : Lms.Session :=
  {| Lms.respond := fun h _ =>
       if (length h =? 1)%nat then inl connection_reset
       else inr {| status_code := 201; json_body := None |} |}.

(** A client that accepts the first request, refuses the second with a 409
    and answers every later one with a 304. *)
Definition uneven : Lms.Session :=
  {| Lms.respond := fun h _ =>
       inr {| status_code := if (length h =? 0)%nat then 201
                             else if (length h =? 1)%nat then 409 else 304;
              json_body := None |} |}.

Definition items : list pyval := [VStr "a"; VStr "b"; VStr "c"; VStr "d"; VStr "e"].

Definition write_url : pyval := VStr "https://lms.example/api/enrollments/".

End LmsSample.

(** An outcome of [Lms._make_request] and one of [_make_request] are the
    same: the same value, or the same exception, an HTTPError of the first
    being known to the second by the status of its response. *)
Definition same_outcome {A} (new : Lms.raised + A) (old : res A) : Prop :=
  match new, old with
  | inr a, inr b => a = b
  | inl (Lms.HTTPErrorFor response), inl (HTTPError status) => status = status_code response
  | inl (Lms.Raised e), inl e' => e = e'
  | _, _ => False
  end.

(** * Properties *)

(** ** Strings and replacement fields *)

Lemma append_cons (c : Ascii.ascii) (s t : string) : String c s +:+ t = String c (s +:+ t).
Proof. reflexivity. Qed.

Lemma append_nil_l (s : string) : "" +:+ s = s.
Proof. reflexivity. Qed.

Lemma append_nil_r (s : string) : s +:+ "" = s.
Proof.
  induction s as [|c s IH]; [reflexivity|]. rewrite append_cons, IH. reflexivity.
Qed.

Lemma append_assoc (a b c : string) : (a +:+ b) +:+ c = a +:+ (b +:+ c).
Proof.
  induction a as [|x a IH]; [reflexivity|]. rewrite !append_cons, IH. reflexivity.
Qed.

Lemma length_append (a b : string) :
  String.length (a +:+ b) = (String.length a + String.length b)%nat.
Proof.
  induction a as [|x a IH]; [reflexivity|]. rewrite append_cons. simpl. rewrite IH.
  reflexivity.
Qed.

Lemma substring_whole (s : string) : String.substring 0 (String.length s) s = s.
Proof. induction s as [|c s IH]; simpl; [reflexivity|]. rewrite IH. reflexivity. Qed.

Lemma substring_drop (a b : string) :
  String.substring (String.length a) (String.length b) (a +:+ b) = b.
Proof.
  induction a as [|x a IH]; [apply substring_whole|]. rewrite append_cons. exact IH.
Qed.

Lemma prefix_append (a b : string) : String.prefix a (a +:+ b) = true.
Proof.
  induction a as [|x a IH]; [destruct b; reflexivity|].
  rewrite append_cons. simpl.
  destruct (Ascii.ascii_dec x x); [exact IH|contradiction].
Qed.

Lemma prefix_cons (a b : Ascii.ascii) (p s : string) :
  String.prefix (String a p) (String b s)
  = if Ascii.ascii_dec a b then String.prefix p s else false.
Proof. reflexivity. Qed.

Lemma str_replace_from_S (n : nat) (pat by_ s : string) :
  str_replace_from (S n) pat by_ s
  = if String.prefix pat s
    then by_ +:+ str_replace_from n pat by_
                   (String.substring (String.length pat)
                      (String.length s - String.length pat) s)
    else match s with
         | EmptyString => EmptyString
         | String c rest => String c (str_replace_from n pat by_ rest)
         end.
Proof. reflexivity. Qed.

Lemma no_brace_cons (x : Ascii.ascii) (s : string) :
  no_brace (String x s) = true -> x <> open_brace /\ x <> close_brace /\ no_brace s = true.
Proof.
  simpl no_brace. intros [Hx Hs]%andb_prop.
  apply negb_true_iff, orb_false_iff in Hx as [Hopen Hclose].
  split; [intros ->; rewrite Ascii.eqb_refl in Hopen; discriminate|].
  split; [intros ->; rewrite Ascii.eqb_refl in Hclose; discriminate|exact Hs].
Qed.

(** Replacement copies the characters before the first brace. *)
Lemma str_replace_from_no_brace (n : nat) (pat by_ s rest : string) :
  no_brace s = true ->
  str_replace_from (String.length s + n) (String open_brace pat) by_ (s +:+ rest)
  = s +:+ str_replace_from n (String open_brace pat) by_ rest.
Proof.
  induction s as [|x s IH]; [reflexivity|].
  intros (Hx & _ & Hs)%no_brace_cons.
  rewrite !append_cons. cbn [String.length Nat.add].
  rewrite str_replace_from_S, prefix_cons.
  destruct (Ascii.ascii_dec open_brace x) as [<-|Hne]; [contradiction|].
  rewrite IH by assumption. reflexivity.
Qed.

(** A string without a brace is left as it is. *)
Lemma str_replace_from_id (n : nat) (pat by_ s : string) :
  no_brace s = true -> str_replace_from n (String open_brace pat) by_ s = s.
Proof.
  revert s. induction n as [|n IH]; intros s; [reflexivity|].
  destruct s as [|x s]; [reflexivity|].
  intros (Hx & _ & Hs)%no_brace_cons.
  rewrite str_replace_from_S, prefix_cons.
  destruct (Ascii.ascii_dec open_brace x) as [<-|Hne]; [contradiction|].
  rewrite IH by assumption. reflexivity.
Qed.

(** A closing brace is a brace as much as an opening one. *)
Lemma no_brace_refuses_either_brace :
  no_brace "a{" = false /\ no_brace "a}" = false /\ no_brace "a" = true.
Proof. repeat split. Qed.

(** One field between two texts without braces is replaced, and nothing else
    is changed. *)
Lemma str_replace_field (field_ by_ before after : string) :
  no_brace before = true ->
  no_brace after = true ->
  str_replace (String open_brace field_) by_ (before +:+ String open_brace field_ +:+ after)
  = before +:+ by_ +:+ after.
Proof.
  intros Hb Ha. unfold str_replace.
  rewrite length_append.
  rewrite (str_replace_from_no_brace _ field_ by_ before _ Hb).
  f_equal.
  rewrite append_cons. cbn [String.length].
  rewrite str_replace_from_S, prefix_cons.
  destruct (Ascii.ascii_dec open_brace open_brace); [|contradiction].
  rewrite prefix_append.
  f_equal.
  rewrite <- append_cons.
  replace (String.length (String open_brace field_ +:+ after)
           - String.length (String open_brace field_))%nat
    with (String.length after) by (rewrite length_append; lia).
  rewrite substring_drop.
  apply str_replace_from_id, Ha.
Qed.

Lemma no_brace_append (a b : string) :
  no_brace a = true -> no_brace b = true -> no_brace (a +:+ b) = true.
Proof.
  intros Ha Hb. induction a as [|x a IH]; [exact Hb|].
  rewrite append_cons. simpl in *. apply andb_prop in Ha as [Hx Ha].
  rewrite Hx, IH by assumption. reflexivity.
Qed.

Lemma append_inj_l (a b c : string) : a +:+ c = b +:+ c -> a = b.
Proof.
  revert b. induction a as [|x a IH]; intros [|y b] H.
  - reflexivity.
  - exfalso. apply (f_equal String.length) in H.
    rewrite ?append_nil_l, ?append_cons in H. cbn [String.length] in H.
    rewrite length_append in H. lia.
  - exfalso. apply (f_equal String.length) in H.
    rewrite ?append_nil_l, ?append_cons in H. cbn [String.length] in H.
    rewrite length_append in H. lia.
  - rewrite !append_cons in H. injection H as -> H. f_equal. apply IH, H.
Qed.

(** ** Reading a payload *)

Lemma py_get_field (v : pyval) (name : string) :
  is_dict v = true -> py_get v name VNone = inr (field name v).
Proof.
  destruct v; simpl; try discriminate. intros _.
  destruct (dict_lookup name fields); reflexivity.
Qed.

Lemma py_get_array (v : pyval) (name : string) :
  array_or_absent name v = true ->
  py_get v name (VList []) = inr (VList (array_field name v)).
Proof.
  destruct v; simpl; try discriminate.
  destruct (dict_lookup name fields) as [[]|]; simpl; intros H; try discriminate; reflexivity.
Qed.

Lemma array_or_absent_dict (v : pyval) (name : string) :
  array_or_absent name v = true -> is_dict v = true.
Proof. destruct v; simpl; intros H; try discriminate; reflexivity. Qed.

Lemma make_course_run_dict (course_run : pyval) :
  is_dict course_run = true -> make_course_run course_run = inr (course_run_record course_run).
Proof.
  intros H. unfold make_course_run.
  rewrite !py_get_field by assumption. reflexivity.
Qed.

Lemma runs_of_course_runs_dicts (items : list pyval) :
  forallb is_dict items = true ->
  runs_of_course_runs items = inr (map course_run_record items).
Proof.
  induction items as [|r items IH]; simpl; [reflexivity|].
  intros [Hr Hrest]%andb_prop.
  rewrite make_course_run_dict by assumption. simpl.
  rewrite IH by assumption. reflexivity.
Qed.

Lemma runs_of_courses_shaped (courses : list pyval) :
  forallb course_shaped courses = true ->
  runs_of_courses courses
  = inr (flat_map (fun course => map course_run_record (array_field "course_runs" course))
           courses).
Proof.
  induction courses as [|course courses IH]; simpl; [reflexivity|].
  intros [[Harr Hruns]%andb_prop Hrest]%andb_prop.
  rewrite py_get_array by assumption. simpl.
  rewrite runs_of_course_runs_dicts by assumption. simpl.
  rewrite IH by assumption. reflexivity.
Qed.

Lemma next_active_skip (before rest : list pyval) :
  forallb inactive_curriculum before = true ->
  next_active (before ++ rest) = next_active rest.
Proof.
  induction before as [|c before IH]; simpl; [reflexivity|].
  intros [[Hd Hin]%andb_prop Hrest]%andb_prop.
  rewrite py_get_field by assumption. simpl.
  unfold is_active in Hin. apply negb_true_iff in Hin. rewrite Hin. auto.
Qed.

Lemma next_active_none (curricula : list pyval) :
  forallb inactive_curriculum curricula = true -> next_active curricula = inr None.
Proof.
  intros H. rewrite <- (app_nil_r curricula). rewrite next_active_skip by assumption.
  reflexivity.
Qed.

Lemma next_active_here (c : pyval) (rest : list pyval) :
  is_dict c = true -> is_active c = true -> next_active (c :: rest) = inr (Some c).
Proof.
  intros Hd Ha. simpl. rewrite py_get_field by assumption. simpl.
  unfold is_active in Ha. rewrite Ha. reflexivity.
Qed.

Lemma next_active_find (curricula : list pyval) :
  forallb is_dict curricula = true ->
  next_active curricula = inr (List.find is_active curricula).
Proof.
  induction curricula as [|c curricula IH]; simpl; [reflexivity|].
  intros [Hd Hrest]%andb_prop.
  rewrite py_get_field by assumption. simpl.
  unfold is_active at 1. destruct (truthy (field "is_active" c)); auto.
Qed.

(** ** Running monadic code *)

Lemma bind_lift_inr {A B} (a : A) (k : A -> M B) (w : World) :
  bind (lift (inr a)) k w = k a w.
Proof. reflexivity. Qed.

Lemma bind_lift_inl {A B} (e : exn) (k : A -> M B) (w : World) :
  bind (lift (inl e)) k w = (inl e, w).
Proof. reflexivity. Qed.

Lemma bind_ok {A B} (m : M A) (k : A -> M B) (w w' : World) (a : A) :
  m w = (inr a, w') -> bind m k w = k a w'.
Proof. intros H. unfold bind. rewrite H. reflexivity. Qed.

Lemma bind_err {A B} (m : M A) (k : A -> M B) (w w' : World) (e : exn) :
  m w = (inl e, w') -> bind m k w = (inl e, w').
Proof. intros H. unfold bind. rewrite H. reflexivity. Qed.

(** One step of a [bind] whose first action is pure and has been computed. *)
Ltac mstep := rewrite bind_lift_inr; cbv beta.

(** ** The parser *)

(** On a payload whose arrays have the shape of the format, the parser
    returns the record the payload describes, and logs exactly when no
    curriculum is active. *)
Lemma from_json_shaped (cls : Class) (program_uuid : string) (program_data : pyval)
    (w : World) :
  payload_shaped program_data = true ->
  from_json cls program_uuid program_data w
  = (inr (described_program cls program_uuid program_data (clock w)),
     match List.find is_active (array_field "curricula" program_data) with
     | Some _ => w
     | None => add_log (no_active_curricula_msg program_uuid) w
     end).
Proof.
  intros [Harr Hcs]%andb_prop.
  pose proof (array_or_absent_dict _ _ Harr) as Hd.
  unfold from_json.
  rewrite py_get_field by assumption; mstep.
  rewrite py_get_field by assumption; mstep.
  rewrite py_get_array by assumption; mstep.
  simpl py_iter; mstep.
  assert (Hdicts : forallb is_dict (array_field "curricula" program_data) = true).
  { clear -Hcs. induction (array_field "curricula" program_data) as [|c cs IH];
      simpl in *; [reflexivity|].
    apply andb_prop in Hcs as [Hc Hcs]. rewrite (IH Hcs), andb_true_r.
    apply andb_prop in Hc as [Hc _]. eapply array_or_absent_dict, Hc. }
  rewrite next_active_find by assumption; mstep.
  unfold described_program.
  destruct (List.find is_active (array_field "curricula" program_data)) as [c|] eqn:Hfind.
  - apply find_some in Hfind as [Hin Hact].
    rewrite forallb_forall in Hcs. specialize (Hcs c Hin).
    apply andb_prop in Hcs as [Hcourses Hshaped].
    rewrite py_get_field by (eapply array_or_absent_dict, Hcourses); mstep.
    rewrite py_get_array by assumption; mstep.
    simpl py_iter; mstep.
    rewrite runs_of_courses_shaped by assumption; mstep.
    reflexivity.
  - reflexivity.
Qed.

(** The diagnostic of the parser is its text followed by the uuid, whatever
    the uuid holds. *)
Lemma no_active_curricula_msg_text (program_uuid : string) :
  no_active_curricula_msg program_uuid
  = "Discovery API returned no active curricula for program " +:+ program_uuid.
Proof.
  unfold no_active_curricula_msg.
  pose proof (str_replace_field "}" program_uuid
                "Discovery API returned no active curricula for program " ""
                eq_refl eq_refl) as H.
  rewrite !append_nil_r in H. exact H.
Qed.

(** C6: a payload whose curricula array (absent: empty) holds no active
    curriculum does not make the parser fail: the parser returns a record
    with [active_curriculum_uuid = None] and no course run, and it logs one
    diagnostic: the log of the world it leaves is the log it found followed
    by one message, which names the program; the cache, the clock and the
    requests made are as they were. *)
Theorem from_json_no_active_curriculum (cls : Class) (program_uuid : string)
    (program_data : pyval) (w : World) :
  array_or_absent "curricula" program_data = true ->
  forallb inactive_curriculum (array_field "curricula" program_data) = true ->
  from_json cls program_uuid program_data w
  = (inr {| version := class_version cls;
            loaded := clock w;
            uuid := program_uuid;
            title := field "title" program_data;
            url := field "marketing_url" program_data;
            active_curriculum_uuid := VNone;
            course_runs := [] |},
     add_log (no_active_curricula_msg program_uuid) w)
  /\ log (snd (from_json cls program_uuid program_data w))
     = (log w
        ++ ["Discovery API returned no active curricula for program " +:+ program_uuid])%list
  /\ cache (snd (from_json cls program_uuid program_data w)) = cache w
  /\ clock (snd (from_json cls program_uuid program_data w)) = clock w
  /\ fetches (snd (from_json cls program_uuid program_data w)) = fetches w.
Proof.
  intros Harr Hinactive.
  pose proof (array_or_absent_dict _ _ Harr) as Hd.
  assert (Hrun : from_json cls program_uuid program_data w
                 = (inr {| version := class_version cls;
                           loaded := clock w;
                           uuid := program_uuid;
                           title := field "title" program_data;
                           url := field "marketing_url" program_data;
                           active_curriculum_uuid := VNone;
                           course_runs := [] |},
                    add_log (no_active_curricula_msg program_uuid) w)).
  { unfold from_json.
    rewrite py_get_field by assumption; mstep.
    rewrite py_get_field by assumption; mstep.
    rewrite py_get_array by assumption; mstep.
    simpl py_iter; mstep.
    rewrite next_active_none by assumption; mstep.
    reflexivity. }
  split; [exact Hrun|].
  rewrite Hrun. cbn [snd add_log log cache clock fetches].
  rewrite no_active_curricula_msg_text.
  repeat split.
Qed.

(** C7: when the curricula array holds an active curriculum, the parser takes
    the first one in payload order (whatever follows it), sets
    [active_curriculum_uuid] to its uuid, and returns as [course_runs] the
    course runs of its courses, courses in the given order and course runs in
    the given order within each course. *)
Theorem from_json_first_active_curriculum (cls : Class) (program_uuid : string)
    (program_data : pyval) (before : list pyval) (curriculum : pyval) (after : list pyval)
    (w : World) :
  array_or_absent "curricula" program_data = true ->
  array_field "curricula" program_data = (before ++ curriculum :: after)%list ->
  forallb inactive_curriculum before = true ->
  is_active curriculum = true ->
  curriculum_shaped curriculum = true ->
  from_json cls program_uuid program_data w
  = (inr {| version := class_version cls;
            loaded := clock w;
            uuid := program_uuid;
            title := field "title" program_data;
            url := field "marketing_url" program_data;
            active_curriculum_uuid := field "uuid" curriculum;
            course_runs := flattened_course_runs curriculum |},
     w).
Proof.
  intros Harr Hsplit Hbefore Hactive [Hcourses Hshaped]%andb_prop.
  pose proof (array_or_absent_dict _ _ Harr) as Hd.
  pose proof (array_or_absent_dict _ _ Hcourses) as Hdc.
  unfold from_json.
  rewrite py_get_field by assumption; mstep.
  rewrite py_get_field by assumption; mstep.
  rewrite py_get_array by assumption; mstep.
  simpl py_iter; mstep.
  rewrite Hsplit, next_active_skip by assumption.
  rewrite next_active_here by assumption; mstep.
  rewrite py_get_field by assumption; mstep.
  rewrite py_get_array by assumption; mstep.
  simpl py_iter; mstep.
  rewrite runs_of_courses_shaped by assumption; mstep.
  reflexivity.
Qed.

(** ** Fields the format does not name *)

Lemma dict_lookup_keep (names : list string) (name : string) (fields : list (string * pyval)) :
  name ∈ names -> dict_lookup name (keep_fields names fields) = dict_lookup name fields.
Proof.
  intros Hin. induction fields as [|[k v] fields IH]; simpl; [reflexivity|].
  destruct (String.eqb_spec name k) as [->|Hne].
  - rewrite bool_decide_eq_true_2 by assumption. simpl. rewrite String.eqb_refl. reflexivity.
  - destruct (bool_decide (k ∈ names)); simpl; [|exact IH].
    destruct (String.eqb_spec name k); [contradiction|exact IH].
Qed.

Lemma dict_lookup_update_same (name : string) (f : pyval -> pyval)
    (fields : list (string * pyval)) :
  dict_lookup name (update_field name f fields) = f <$> dict_lookup name fields.
Proof.
  induction fields as [|[k v] fields IH]; simpl; [reflexivity|].
  destruct (String.eqb_spec name k) as [->|Hne]; simpl.
  - rewrite String.eqb_refl. reflexivity.
  - destruct (String.eqb_spec name k); [contradiction|exact IH].
Qed.

Lemma dict_lookup_update_other (name name' : string) (f : pyval -> pyval)
    (fields : list (string * pyval)) :
  name <> name' ->
  dict_lookup name' (update_field name f fields) = dict_lookup name' fields.
Proof.
  intros Hne. induction fields as [|[k v] fields IH]; simpl; [reflexivity|].
  destruct (String.eqb_spec name k) as [->|Hk]; simpl.
  - destruct (String.eqb_spec name' k); [congruence|exact IH].
  - destruct (String.eqb_spec name' k); [reflexivity|exact IH].
Qed.

Lemma make_course_run_prune (course_run : pyval) :
  make_course_run (prune_course_run course_run) = make_course_run course_run.
Proof.
  destruct course_run; try reflexivity.
  unfold make_course_run, prune_course_run, py_get.
  rewrite !dict_lookup_keep by set_solver. reflexivity.
Qed.

Lemma runs_of_course_runs_prune (items : list pyval) :
  runs_of_course_runs (map prune_course_run items) = runs_of_course_runs items.
Proof.
  induction items as [|r items IH]; simpl; [reflexivity|].
  rewrite make_course_run_prune, IH. reflexivity.
Qed.

Lemma runs_of_courses_prune (courses : list pyval) :
  runs_of_courses (map prune_course courses) = runs_of_courses courses.
Proof.
  induction courses as [|course courses IH]; simpl; [reflexivity|].
  rewrite IH. destruct course; try reflexivity.
  unfold prune_course, py_get.
  rewrite dict_lookup_update_same, dict_lookup_keep by set_solver.
  destruct (dict_lookup "course_runs" fields) as [[]|]; try reflexivity.
  simpl. rewrite runs_of_course_runs_prune. reflexivity.
Qed.

Lemma next_active_prune (curricula : list pyval) :
  next_active (map prune_curriculum curricula)
  = (c <-- next_active curricula ;; inr (prune_curriculum <$> c)).
Proof.
  induction curricula as [|c curricula IH]; simpl; [reflexivity|].
  destruct c; try reflexivity.
  unfold prune_curriculum at 1, py_get.
  rewrite (dict_lookup_update_other "courses" "is_active") by discriminate.
  rewrite dict_lookup_keep by set_solver.
  simpl. destruct (truthy _); [reflexivity|exact IH].
Qed.

(** The parser reads a payload only through the fields the format names. *)
Lemma from_json_prune (cls : Class) (program_uuid : string) (program_data : pyval)
    (w : World) :
  from_json cls program_uuid (prune_payload program_data) w
  = from_json cls program_uuid program_data w.
Proof.
  destruct program_data; try reflexivity.
  unfold from_json, prune_payload, py_get.
  rewrite (dict_lookup_update_other "curricula" "title") by discriminate.
  rewrite (dict_lookup_update_other "curricula" "marketing_url") by discriminate.
  rewrite dict_lookup_update_same, !dict_lookup_keep by set_solver.
  unfold bind, lift; cbv beta iota.
  destruct (dict_lookup "curricula" fields) as [curricula|]; [|reflexivity].
  destruct curricula; try reflexivity.
  simpl.
  rewrite next_active_prune.
  destruct (next_active items) as [e|[c|]]; try reflexivity.
  simpl.
  destruct c; try reflexivity.
  unfold prune_curriculum.
  rewrite (dict_lookup_update_other "courses" "uuid") by discriminate.
  rewrite dict_lookup_update_same, !dict_lookup_keep by set_solver.
  destruct (dict_lookup "courses" fields0) as [courses|]; [|reflexivity].
  destruct courses; try reflexivity.
  simpl.
  rewrite runs_of_courses_prune. reflexivity.
Qed.

(** ** What one call changes in the world *)

Ltac destruct_scrutinee x :=
  lazymatch x with
  | context [match ?y with _ => _ end] => destruct_scrutinee y
  | _ => destruct x eqn:?
  end.

(** Case analysis on every [match] of a hypothesis, innermost first. *)
Ltac destruct_matches H :=
  repeat match type of H with
         | context [match ?x with _ => _ end] =>
             destruct_scrutinee x; cbv beta iota in H; try discriminate H
         end.

(** A successful parse builds an instance of the parser's own version, at the
    time of the call, and touches nothing but the log. *)
Lemma from_json_ok (cls : Class) (program_uuid : string) (program_data : pyval)
    (w w' : World) (p : DiscoveryProgram) :
  from_json cls program_uuid program_data w = (inr p, w') ->
  version p = class_version cls /\ uuid p = program_uuid /\ loaded p = clock w
  /\ cache w' = cache w /\ clock w' = clock w /\ fetches w' = fetches w
  /\ oauth w' = oauth w.
Proof.
  unfold from_json, bind, lift, logger_exception, DiscoveryProgram_init.
  intros H. destruct_matches H; inversion H; subst; simpl; auto 10.
Qed.

(** A failed parse leaves the world as it was. *)
Lemma from_json_err (cls : Class) (program_uuid : string) (program_data : pyval)
    (w w' : World) (e : exn) :
  from_json cls program_uuid program_data w = (inl e, w') -> w' = w.
Proof.
  unfold from_json, bind, lift, logger_exception, DiscoveryProgram_init.
  intros H. destruct_matches H; inversion H; subst; reflexivity.
Qed.

(** ** The cache *)

Section Cache.

Variable DISCOVERY_BASE_URL : string.
Variable LMS_BASE_URL : string.
Variable PROGRAM_CACHE_KEY_TPL : string.
Variable PROGRAM_CACHE_TIMEOUT : option Z.

Lemma load_from_discovery_unfold (cls : Class) (program_uuid : string)
    (client : option Client) :
  load_from_discovery DISCOVERY_BASE_URL LMS_BASE_URL cls program_uuid client
  = (program_data <- read_from_discovery DISCOVERY_BASE_URL LMS_BASE_URL program_uuid client ;;
     from_json cls program_uuid program_data).
Proof. reflexivity. Qed.

Lemma load_and_store_unfold (cls : Class) (program_uuid : string) (client : option Client) :
  load_and_store DISCOVERY_BASE_URL LMS_BASE_URL PROGRAM_CACHE_KEY_TPL PROGRAM_CACHE_TIMEOUT
    cls program_uuid client
  = (program <- load_from_discovery DISCOVERY_BASE_URL LMS_BASE_URL cls program_uuid client ;;
     _ <- cache_set (program_cache_key PROGRAM_CACHE_KEY_TPL program_uuid) program
            PROGRAM_CACHE_TIMEOUT ;;
     ret program).
Proof. reflexivity. Qed.

Lemma get_unfold (cls : Class) (program_uuid : string) (client : option Client) (w : World) :
  get DISCOVERY_BASE_URL LMS_BASE_URL PROGRAM_CACHE_KEY_TPL PROGRAM_CACHE_TIMEOUT
    cls program_uuid client w
  = match cache_lookup (program_cache_key PROGRAM_CACHE_KEY_TPL program_uuid) w with
    | Some p =>
        if (version p =? class_version cls)%Z then (inr p, w)
        else load_and_store DISCOVERY_BASE_URL LMS_BASE_URL PROGRAM_CACHE_KEY_TPL
               PROGRAM_CACHE_TIMEOUT cls program_uuid client w
    | None =>
        load_and_store DISCOVERY_BASE_URL LMS_BASE_URL PROGRAM_CACHE_KEY_TPL
          PROGRAM_CACHE_TIMEOUT cls program_uuid client w
    end.
Proof.
  unfold get, bind, cache_get.
  destruct (cache_lookup _ w) as [p|]; [|reflexivity].
  destruct (version p =? class_version cls)%Z; reflexivity.
Qed.

Lemma _make_request_world (method url : string) (client : option Client) (w w' : World)
    (r : res (option Response)) :
  _make_request LMS_BASE_URL method url client w = (r, w') -> w' = w.
Proof.
  unfold _make_request, _get_client, raise_for_status, bind, lift, raise, ret.
  destruct client as [c|].
  - intros H. destruct_matches H; inversion H; subst; reflexivity.
  - intros H. destruct (oauth w LMS_BASE_URL) as [e|[c []]];
      destruct_matches H; inversion H; subst; reflexivity.
Qed.

(** The fetcher records its invocation and changes nothing else. *)
Lemma read_from_discovery_world (program_uuid : string) (client : option Client)
    (w w' : World) (r : res pyval) :
  read_from_discovery DISCOVERY_BASE_URL LMS_BASE_URL program_uuid client w = (r, w') ->
  w' = add_fetch program_uuid w.
Proof.
  unfold read_from_discovery, try_except_HTTPError, response_json, bind, raise, ret.
  intros H.
  destruct (_make_request _ _ _ _ _) as [r0 w0] eqn:Hreq.
  apply _make_request_world in Hreq. subst w0.
  destruct_matches H; inversion H; subst; reflexivity.
Qed.

Local Abbreviation program_cache_key := (program_cache_key PROGRAM_CACHE_KEY_TPL).
Local Abbreviation read_from_discovery := (read_from_discovery DISCOVERY_BASE_URL LMS_BASE_URL).
Local Abbreviation load_from_discovery := (load_from_discovery DISCOVERY_BASE_URL LMS_BASE_URL).
Local Abbreviation load_and_store :=
  (load_and_store DISCOVERY_BASE_URL LMS_BASE_URL PROGRAM_CACHE_KEY_TPL PROGRAM_CACHE_TIMEOUT).
Local Abbreviation get :=
  (get DISCOVERY_BASE_URL LMS_BASE_URL PROGRAM_CACHE_KEY_TPL PROGRAM_CACHE_TIMEOUT).
Local Abbreviation Invalidate := (Invalidate PROGRAM_CACHE_KEY_TPL).

(** The entry [cache.set] writes for [p] at time [now]. *)
Local Abbreviation stored p now :=
  {| entry_value := p; entry_expires := (fun d => now + d)%Z <$> PROGRAM_CACHE_TIMEOUT |}.

Lemma load_from_discovery_ok (cls : Class) (program_uuid : string) (client : option Client)
    (w w' : World) (p : DiscoveryProgram) :
  load_from_discovery cls program_uuid client w = (inr p, w') ->
  exists data,
    read_from_discovery program_uuid client w = (inr data, add_fetch program_uuid w)
    /\ from_json cls program_uuid data (add_fetch program_uuid w) = (inr p, w').
Proof.
  rewrite load_from_discovery_unfold. unfold bind. intros H.
  destruct (read_from_discovery program_uuid client w) as [[e|data] w1] eqn:Hread;
    [discriminate|].
  pose proof (read_from_discovery_world _ _ _ _ _ Hread) as ->.
  exists data. split; [reflexivity|exact H].
Qed.

Lemma load_from_discovery_err (cls : Class) (program_uuid : string) (client : option Client)
    (w w' : World) (e : exn) :
  load_from_discovery cls program_uuid client w = (inl e, w') ->
  w' = add_fetch program_uuid w
  /\ (read_from_discovery program_uuid client w = (inl e, w')
      \/ exists data,
           read_from_discovery program_uuid client w = (inr data, w')
           /\ from_json cls program_uuid data w' = (inl e, w')).
Proof.
  rewrite load_from_discovery_unfold. unfold bind. intros H.
  destruct (read_from_discovery program_uuid client w) as [[e0|data] w1] eqn:Hread.
  - pose proof (read_from_discovery_world _ _ _ _ _ Hread) as ->.
    inversion H; subst. auto.
  - pose proof (read_from_discovery_world _ _ _ _ _ Hread) as ->.
    pose proof (from_json_err _ _ _ _ _ _ H) as ->. eauto.
Qed.

(** Every run of the loader invokes the fetcher exactly once. *)
Lemma load_from_discovery_fetches (cls : Class) (program_uuid : string)
    (client : option Client) (w : World) :
  fetches (snd (load_from_discovery cls program_uuid client w))
  = (fetches w ++ [program_uuid])%list
  /\ cache (snd (load_from_discovery cls program_uuid client w)) = cache w
  /\ clock (snd (load_from_discovery cls program_uuid client w)) = clock w.
Proof.
  destruct (load_from_discovery cls program_uuid client w) as [[e|p] w'] eqn:H.
  - apply load_from_discovery_err in H as [-> _]. auto.
  - apply load_from_discovery_ok in H as (data & _ & Hparse).
    apply from_json_ok in Hparse as (_ & _ & _ & Hc & Hk & Hf & _).
    simpl. rewrite Hc, Hk, Hf. auto.
Qed.

Lemma load_and_store_run (cls : Class) (program_uuid : string) (client : option Client)
    (w : World) :
  load_and_store cls program_uuid client w
  = match load_from_discovery cls program_uuid client w with
    | (inl e, w1) => (inl e, w1)
    | (inr p, w1) =>
        (inr p, set_cache (<[program_cache_key program_uuid := stored p (clock w1)]> (cache w1)) w1)
    end.
Proof.
  rewrite load_and_store_unfold. unfold bind, cache_set, ret.
  destruct (load_from_discovery cls program_uuid client w) as [[e|p] w1]; reflexivity.
Qed.

Lemma load_and_store_fetches (cls : Class) (program_uuid : string) (client : option Client)
    (w : World) :
  fetches (snd (load_and_store cls program_uuid client w))
  = (fetches w ++ [program_uuid])%list.
Proof.
  rewrite load_and_store_run.
  pose proof (load_from_discovery_fetches cls program_uuid client w) as (Hf & _ & _).
  destruct (load_from_discovery cls program_uuid client w) as [[e|p] w1]; exact Hf.
Qed.

Lemma get_hit (cls : Class) (program_uuid : string) (client : option Client) (w : World)
    (p : DiscoveryProgram) :
  cache_lookup (program_cache_key program_uuid) w = Some p ->
  version p = class_version cls ->
  get cls program_uuid client w = (inr p, w).
Proof.
  intros Hlook Hv. rewrite get_unfold, Hlook.
  apply Z.eqb_eq in Hv. rewrite Hv. reflexivity.
Qed.

Lemma get_miss (cls : Class) (program_uuid : string) (client : option Client) (w : World) :
  cache_miss (program_cache_key program_uuid) (class_version cls) w ->
  get cls program_uuid client w = load_and_store cls program_uuid client w.
Proof.
  unfold cache_miss. intros Hmiss. rewrite get_unfold.
  destruct (cache_lookup _ w) as [p|]; [|reflexivity].
  apply Z.eqb_neq in Hmiss. rewrite Hmiss. reflexivity.
Qed.

(** A call adds at most its own invocation of the fetcher to the trace. *)
Lemma get_fetches (cls : Class) (program_uuid : string) (client : option Client) (w : World) :
  fetches (snd (get cls program_uuid client w)) = fetches w
  \/ fetches (snd (get cls program_uuid client w)) = (fetches w ++ [program_uuid])%list.
Proof.
  rewrite get_unfold.
  destruct (cache_lookup _ w) as [p|].
  - destruct (version p =? class_version cls)%Z; [left; reflexivity|].
    right. apply load_and_store_fetches.
  - right. apply load_and_store_fetches.
Qed.

(** After a call that returned [p], the entry under the key, if any, holds an
    instance of the calling parser's version; after a miss it is the entry
    just stored. *)
Lemma get_ok_entry (cls : Class) (program_uuid : string) (client : option Client)
    (w w1 : World) (p : DiscoveryProgram) :
  get cls program_uuid client w = (inr p, w1) ->
  version p = class_version cls
  /\ exists e, cache w1 !! program_cache_key program_uuid = Some e /\ entry_value e = p
               /\ (cache_miss (program_cache_key program_uuid) (class_version cls) w ->
                   e = stored p (clock w) /\ clock w1 = clock w).
Proof.
  rewrite get_unfold. unfold cache_miss.
  destruct (cache_lookup _ w) as [q|] eqn:Hlook.
  - destruct (version q =? class_version cls)%Z eqn:Hv.
    + intros [= -> ->]. apply Z.eqb_eq in Hv. split; [exact Hv|].
      unfold cache_lookup in Hlook.
      destruct (cache w1 !! _) as [e|]; [|discriminate].
      destruct (has_expired _ e); [discriminate|]. injection Hlook as <-.
      exists e. split; [reflexivity|]. split; [reflexivity|].
      intros Hne. congruence.
    + rewrite load_and_store_run.
      destruct (load_from_discovery cls program_uuid client w) as [[e|q'] w0] eqn:Hload;
        [discriminate|].
      intros [= -> <-].
      apply load_from_discovery_ok in Hload as (data & _ & Hparse).
      apply from_json_ok in Hparse as (Hver & _ & _ & _ & Hk & _).
      split; [exact Hver|]. eexists. simpl. rewrite lookup_insert_eq.
      simpl in Hk. rewrite Hk. auto.
  - rewrite load_and_store_run.
    destruct (load_from_discovery cls program_uuid client w) as [[e|q'] w0] eqn:Hload;
      [discriminate|].
    intros [= -> <-].
    apply load_from_discovery_ok in Hload as (data & _ & Hparse).
    apply from_json_ok in Hparse as (Hver & _ & _ & _ & Hk & _).
    split; [exact Hver|]. eexists. simpl. rewrite lookup_insert_eq.
    simpl in Hk. rewrite Hk. auto.
Qed.

(** An entry just stored is served for as long as the timeout has not run out. *)
Lemma cache_lookup_stored (k : string) (p : DiscoveryProgram) (now d : Z)
    (oauth' : string -> res (Client * bool)) (w1 : World) :
  cache w1 !! k = Some (stored p now) ->
  clock w1 = now ->
  within_ttl PROGRAM_CACHE_TIMEOUT d ->
  cache_lookup k (later d oauth' w1) = Some p.
Proof.
  intros Hentry Hclock Hd. unfold cache_lookup, later, has_expired. simpl.
  rewrite Hentry. simpl. unfold within_ttl in Hd.
  destruct PROGRAM_CACHE_TIMEOUT as [t|]; simpl; [|reflexivity].
  destruct (Z.leb_spec (now + t) (clock w1 + d)); [lia|reflexivity].
Qed.

(** After a miss that returned [p], the next call within the timeout is a hit
    on [p], whoever the client and whatever the remote service then are. *)
Lemma get_after_miss_hits (cls : Class) (program_uuid : string) (client client' : option Client)
    (w w1 : World) (p : DiscoveryProgram) (d : Z) (oauth' : string -> res (Client * bool)) :
  cache_miss (program_cache_key program_uuid) (class_version cls) w ->
  get cls program_uuid client w = (inr p, w1) ->
  within_ttl PROGRAM_CACHE_TIMEOUT d ->
  cache_lookup (program_cache_key program_uuid) (later d oauth' w1) = Some p
  /\ get cls program_uuid client' (later d oauth' w1) = (inr p, later d oauth' w1).
Proof.
  intros Hmiss Hget Hd.
  apply get_ok_entry in Hget as (Hver & e & Hentry & _ & Hstored).
  destruct (Hstored Hmiss) as [-> Hclock].
  assert (Hlook : cache_lookup (program_cache_key program_uuid) (later d oauth' w1) = Some p)
    by (eapply cache_lookup_stored; eauto).
  split; [exact Hlook|]. apply get_hit; assumption.
Qed.

(** C2: [get] looks the key up in the cache.  An entry that is present and of
    the parser's version is returned as it is, with no call of the fetcher
    and no change of the world; otherwise the fetcher is invoked, its answer
    is parsed, the instance is stored under the key with the fixed timeout,
    and that instance is returned.  A call that returned and a second call
    within the timeout invoke the fetcher at most once between them. *)
Theorem get_serves_cache_or_fetches (cls : Class) (program_uuid : string)
    (client : option Client) (w : World) :
  (forall p,
      cache_lookup (program_cache_key program_uuid) w = Some p ->
      version p = class_version cls ->
      get cls program_uuid client w = (inr p, w))
  /\ (cache_miss (program_cache_key program_uuid) (class_version cls) w ->
      fetches (snd (get cls program_uuid client w)) = (fetches w ++ [program_uuid])%list
      /\ forall data w1 p w2,
          read_from_discovery program_uuid client w = (inr data, w1) ->
          from_json cls program_uuid data w1 = (inr p, w2) ->
          get cls program_uuid client w
          = (inr p,
             set_cache (<[program_cache_key program_uuid := stored p (clock w)]> (cache w)) w2))
  /\ (forall p w1 d oauth' client',
         get cls program_uuid client w = (inr p, w1) ->
         within_ttl PROGRAM_CACHE_TIMEOUT d ->
         (length (fetches (snd (get cls program_uuid client' (later d oauth' w1))))
          <= length (fetches w) + 1)%nat).
Proof.
  split; [|split].
  - intros p Hlook Hv. apply get_hit; assumption.
  - intros Hmiss. rewrite get_miss by assumption. split.
    + apply load_and_store_fetches.
    + intros data w1 p w2 Hread Hparse.
      rewrite load_and_store_run, load_from_discovery_unfold. unfold bind.
      rewrite Hread, Hparse.
      pose proof (read_from_discovery_world _ _ _ _ _ Hread) as ->.
      apply from_json_ok in Hparse as (_ & _ & _ & Hc & Hk & _).
      simpl in Hc, Hk. rewrite Hc, Hk. reflexivity.
  - intros p w1 d oauth' client' Hget Hd.
    destruct (cache_lookup (program_cache_key program_uuid) w) as [q|] eqn:Hlook.
    + destruct (Z.eq_dec (version q) (class_version cls)) as [Hv|Hv].
      * rewrite (get_hit _ _ _ _ _ Hlook Hv) in Hget. injection Hget as <- <-.
        destruct (get_fetches cls program_uuid client' (later d oauth' w)) as [-> | ->];
          simpl; rewrite ?length_app; simpl; lia.
      * assert (Hmiss : cache_miss (program_cache_key program_uuid) (class_version cls) w)
          by (unfold cache_miss; rewrite Hlook; exact Hv).
        pose proof (load_and_store_fetches cls program_uuid client w) as Hf.
        rewrite <- get_miss, Hget in Hf by assumption. simpl in Hf.
        destruct (get_after_miss_hits _ _ _ client' _ _ _ d oauth' Hmiss Hget Hd) as [_ ->].
        simpl. rewrite Hf, length_app. simpl. lia.
    + assert (Hmiss : cache_miss (program_cache_key program_uuid) (class_version cls) w)
        by (unfold cache_miss; rewrite Hlook; exact I).
      pose proof (load_and_store_fetches cls program_uuid client w) as Hf.
      rewrite <- get_miss, Hget in Hf by assumption. simpl in Hf.
      destruct (get_after_miss_hits _ _ _ client' _ _ _ d oauth' Hmiss Hget Hd) as [_ ->].
      simpl. rewrite Hf, length_app. simpl. lia.
Qed.

(** C3: a call of [get] that fails leaves the cache as it was.  On a miss,
    an exception of the fetcher (Http404 for an absent program, HTTPError or
    any other for the rest) and an exception of the parser both come out of
    [get] unchanged, and nothing is written. *)
Theorem get_failure_leaves_cache (cls : Class) (program_uuid : string)
    (client : option Client) (w : World) :
  (forall e w',
      get cls program_uuid client w = (inl e, w') ->
      cache w' = cache w
      /\ cache_miss (program_cache_key program_uuid) (class_version cls) w
      /\ load_from_discovery cls program_uuid client w = (inl e, w'))
  /\ (cache_miss (program_cache_key program_uuid) (class_version cls) w ->
      (forall e w1,
          read_from_discovery program_uuid client w = (inl e, w1) ->
          get cls program_uuid client w = (inl e, w1) /\ cache w1 = cache w)
      /\ (forall data w1 e w2,
             read_from_discovery program_uuid client w = (inr data, w1) ->
             from_json cls program_uuid data w1 = (inl e, w2) ->
             get cls program_uuid client w = (inl e, w2) /\ cache w2 = cache w)).
Proof.
  split.
  - intros e w' Hget.
    assert (Hmiss : cache_miss (program_cache_key program_uuid) (class_version cls) w).
    { unfold cache_miss. rewrite get_unfold in Hget.
      destruct (cache_lookup _ w) as [q|]; [|exact I].
      destruct (Z.eqb_spec (version q) (class_version cls)); [discriminate|assumption]. }
    rewrite get_miss, load_and_store_run in Hget by assumption.
    destruct (load_from_discovery cls program_uuid client w) as [[e0|q] w0] eqn:Hload;
      [|discriminate].
    injection Hget as -> ->.
    apply load_from_discovery_err in Hload as Hw. destruct Hw as [-> _].
    auto.
  - intros Hmiss. split.
    + intros e w1 Hread.
      rewrite get_miss, load_and_store_run, load_from_discovery_unfold by assumption.
      unfold bind. rewrite Hread.
      apply read_from_discovery_world in Hread as ->. auto.
    + intros data w1 e w2 Hread Hparse.
      rewrite get_miss, load_and_store_run, load_from_discovery_unfold by assumption.
      unfold bind. rewrite Hread, Hparse.
      apply from_json_err in Hparse as ->.
      apply read_from_discovery_world in Hread as ->. auto.
Qed.

(** C4: [Invalidate] removes the entry of the key, whatever time was left to
    it, and touches no other entry; the [get] that follows invokes the fetcher
    again.  So does a [get] by a parser whose version differs from the one an
    entry was stored with: the old entry is not served. *)
Theorem get_after_invalidate_or_version_bump (cls : Class) (program_uuid : string)
    (client : option Client) (w : World) :
  (exists w1,
      Invalidate program_uuid w = (inr tt, w1)
      /\ cache w1 = delete (program_cache_key program_uuid) (cache w)
      /\ (forall d oauth', cache_lookup (program_cache_key program_uuid) (later d oauth' w1) = None)
      /\ get cls program_uuid client w1 = load_and_store cls program_uuid client w1
      /\ fetches (snd (get cls program_uuid client w1)) = (fetches w ++ [program_uuid])%list)
  /\ (forall cls_old client_old w0 p d oauth',
         get cls_old program_uuid client_old w0 = (inr p, w) ->
         class_version cls <> class_version cls_old ->
         get cls program_uuid client (later d oauth' w)
         = load_and_store cls program_uuid client (later d oauth' w)
         /\ fetches (snd (get cls program_uuid client (later d oauth' w)))
            = (fetches w ++ [program_uuid])%list).
Proof.
  split.
  - eexists. split; [reflexivity|]. split; [reflexivity|].
    assert (Hgone : forall d oauth',
               cache_lookup (program_cache_key program_uuid)
                 (later d oauth' (set_cache (delete (program_cache_key program_uuid) (cache w)) w))
               = None).
    { intros d oauth'. unfold cache_lookup. simpl. rewrite lookup_delete_eq. reflexivity. }
    split; [exact Hgone|].
    assert (Hmiss : cache_miss (program_cache_key program_uuid) (class_version cls)
                      (set_cache (delete (program_cache_key program_uuid) (cache w)) w)).
    { unfold cache_miss, cache_lookup. simpl. rewrite lookup_delete_eq. exact I. }
    rewrite get_miss by exact Hmiss. split; [reflexivity|].
    rewrite load_and_store_fetches. reflexivity.
  - intros cls_old client_old w0 p d oauth' Hget Hbump.
    apply get_ok_entry in Hget as (Hver & e & Hentry & Hval & _).
    assert (Hmiss : cache_miss (program_cache_key program_uuid) (class_version cls)
                      (later d oauth' w)).
    { unfold cache_miss, cache_lookup. simpl. rewrite Hentry.
      destruct (has_expired _ e); [exact I|]. rewrite Hval, Hver. congruence. }
    rewrite get_miss by exact Hmiss. split; [reflexivity|].
    rewrite load_and_store_fetches. reflexivity.
Qed.

(** C10: every instance the parser returns, with or without an active
    curriculum, carries the parser's [class_version]; so the entry a miss of
    [get] stores passes the version test, and the next [get] within the
    timeout is a hit that returns it. *)
Theorem parsed_version_is_current (cls : Class) (program_uuid : string)
    (client : option Client) (w : World) :
  (forall data w0 p w',
      from_json cls program_uuid data w0 = (inr p, w') -> version p = class_version cls)
  /\ (forall p w1 d oauth' client',
         cache_miss (program_cache_key program_uuid) (class_version cls) w ->
         get cls program_uuid client w = (inr p, w1) ->
         within_ttl PROGRAM_CACHE_TIMEOUT d ->
         version p = class_version cls
         /\ cache w1 !! program_cache_key program_uuid = Some (stored p (clock w))
         /\ cache_lookup (program_cache_key program_uuid) (later d oauth' w1) = Some p
         /\ get cls program_uuid client' (later d oauth' w1) = (inr p, later d oauth' w1)).
Proof.
  split.
  - intros data w0 p w' Hparse. apply from_json_ok in Hparse as [Hv _]. exact Hv.
  - intros p w1 d oauth' client' Hmiss Hget Hd.
    pose proof (get_after_miss_hits _ _ _ client' _ _ _ d oauth' Hmiss Hget Hd) as [Hlook Hhit].
    apply get_ok_entry in Hget as (Hver & e & Hentry & _ & Hstored).
    destruct (Hstored Hmiss) as [-> _]. auto.
Qed.

End Cache.

(** ** The parser and missing, ill-typed or unknown fields *)

(** C5, as stated, fails on the code: with every field missing the parser
    returns an instance instead of raising ValidationError; a title of the
    wrong type is stored as it is, not left out; and curricula of the wrong
    type raise TypeError. *)
Lemma from_json_requires_no_field :
  from_json DiscoveryProgram_cls "p1" (VDict []) Sample.world
  = (inr {| version := 1; loaded := 1000; uuid := "p1"; title := VNone; url := VNone;
            active_curriculum_uuid := VNone; course_runs := [] |},
     add_log "Discovery API returned no active curricula for program p1" Sample.world)
  /\ fst (from_json DiscoveryProgram_cls "p1" (VDict [("title", VInt 5)]) Sample.world)
     = inr {| version := 1; loaded := 1000; uuid := "p1"; title := VInt 5; url := VNone;
              active_curriculum_uuid := VNone; course_runs := [] |}
  /\ fst (from_json DiscoveryProgram_cls "p1" (VDict [("curricula", VInt 3)]) Sample.world)
     = inl TypeError.
Proof. repeat split; reflexivity. Qed.

(** C5, amended: no field is required.  On every payload that is a dict whose
    [curricula], [courses] and [course_runs], where present, are arrays of
    dicts, the parser returns the record the payload describes: absent scalar
    fields read as [None], absent arrays as empty, present scalar fields as
    given whatever their type.  On every payload, the fields the format does
    not name change nothing: the parser does the same on the payload
    stripped of them. *)
Theorem from_json_accepts_shaped_payload (cls : Class) (program_uuid : string)
    (program_data : pyval) (w : World) :
  payload_shaped program_data = true ->
  fst (from_json cls program_uuid program_data w)
  = inr (described_program cls program_uuid program_data (clock w))
  /\ (forall name, dict_lookup name
                     match program_data with VDict fields => fields | _ => [] end = None ->
                   field name program_data = VNone /\ array_field name program_data = [])
  /\ (forall any w', from_json cls program_uuid (prune_payload any) w'
                     = from_json cls program_uuid any w').
Proof.
  intros Hshaped. split; [|split].
  - rewrite from_json_shaped by assumption. reflexivity.
  - intros name Habsent. destruct program_data; try (split; reflexivity).
    unfold field, array_field. rewrite Habsent. split; reflexivity.
  - intros any w'. apply from_json_prune.
Qed.

(** Whatever the payload, well formed or not, the parser does on it what it
    does on the payload stripped of every field other than [title],
    [marketing_url], [curricula], and below them [is_active], [uuid],
    [courses], [course_runs], [key], [external_key], [title] and
    [marketing_url]. *)
Theorem from_json_reads_named_fields_only (cls : Class) (program_uuid : string)
    (program_data : pyval) (w : World) :
  from_json cls program_uuid (prune_payload program_data) w
  = from_json cls program_uuid program_data w.
Proof. apply from_json_prune. Qed.

(** ** Course-run lookup *)

Lemma py_eq_str_true (course_id : string) (v : pyval) :
  py_eq_str course_id v = true <-> v = VStr course_id.
Proof.
  destruct v; simpl; try (split; [discriminate|intros [=]]).
  rewrite String.eqb_eq. split; [intros ->; reflexivity|intros [= ->]; reflexivity].
Qed.

Lemma matches_test (course_id : string) (course_run : DiscoveryCourseRun) :
  py_eq_str course_id (key course_run) || py_eq_str course_id (external_key course_run) = true
  <-> matches course_id course_run.
Proof.
  unfold matches. rewrite orb_true_iff, !py_eq_str_true. reflexivity.
Qed.

Lemma find_in_course_runs_some (course_id : string) (runs : list DiscoveryCourseRun)
    (course_run : DiscoveryCourseRun) :
  find_in_course_runs course_id runs = Some course_run ->
  exists before after,
    runs = (before ++ course_run :: after)%list
    /\ matches course_id course_run
    /\ Forall (fun r => ~ matches course_id r) before.
Proof.
  induction runs as [|r runs IH]; simpl; [discriminate|].
  destruct (py_eq_str course_id (key r) || py_eq_str course_id (external_key r)) eqn:Htest.
  - intros [= ->]. exists [], runs. repeat split; [|constructor].
    apply matches_test, Htest.
  - intros Hfind. destruct (IH Hfind) as (before & after & -> & Hm & Hbefore).
    exists (r :: before), after. repeat split; [exact Hm|].
    constructor; [|exact Hbefore].
    rewrite <- matches_test, Htest. discriminate.
Qed.

Lemma find_in_course_runs_none (course_id : string) (runs : list DiscoveryCourseRun) :
  find_in_course_runs course_id runs = None
  <-> Forall (fun r => ~ matches course_id r) runs.
Proof.
  induction runs as [|r runs IH]; simpl; [split; [constructor|reflexivity]|].
  destruct (py_eq_str course_id (key r) || py_eq_str course_id (external_key r)) eqn:Htest.
  - split; [discriminate|]. intros Hall. inversion Hall as [|? ? Hr _]; subst.
    exfalso. apply Hr, matches_test, Htest.
  - rewrite IH. split.
    + intros Hall. constructor; [|exact Hall]. rewrite <- matches_test, Htest. discriminate.
    + intros Hall. inversion Hall; assumption.
Qed.

(** C8: [find_course_run] returns the first course run, in the order of
    [course_runs], whose [key] or whose [external_key] is the course id, and
    [None] exactly when no course run has the course id in either field. *)
Theorem find_course_run_first_match (self : DiscoveryProgram) (course_id : string) :
  (forall course_run,
      find_course_run self course_id = Some course_run ->
      exists before after,
        course_runs self = (before ++ course_run :: after)%list
        /\ matches course_id course_run
        /\ Forall (fun r => ~ matches course_id r) before)
  /\ (forall before course_run after,
         course_runs self = (before ++ course_run :: after)%list ->
         matches course_id course_run ->
         Forall (fun r => ~ matches course_id r) before ->
         find_course_run self course_id = Some course_run)
  /\ (find_course_run self course_id = None
      <-> Forall (fun r => ~ matches course_id r) (course_runs self)).
Proof.
  unfold find_course_run. split; [|split].
  - intros course_run. apply find_in_course_runs_some.
  - intros before course_run after -> Hm Hbefore.
    induction Hbefore as [|r before Hr _ IH]; simpl.
    + apply matches_test in Hm. rewrite Hm. reflexivity.
    + destruct (py_eq_str course_id (key r) || py_eq_str course_id (external_key r)) eqn:Htest;
        [|exact IH].
      exfalso. apply Hr, matches_test, Htest.
  - apply find_in_course_runs_none.
Qed.

(** C9, as stated, fails on the code: a course run found by its key whose
    external key is null makes [get_external_course_key] return [None], the
    value that stands for "not found"; and a course run found by its external
    key whose key is null does the same to [get_course_key]. *)
Lemma course_key_none_although_found :
  find_course_run Sample.program "course-v1:A+1" = Some Sample.record_a
  /\ get_external_course_key Sample.program "course-v1:A+1" = VNone
  /\ find_course_run Sample.program "ext-B-2" = Some Sample.record_b2
  /\ get_course_key Sample.program "ext-B-2" = VNone.
Proof. repeat split; reflexivity. Qed.

(** C9, amended: when [find_course_run] finds no course run, both functions
    return [None]; when it finds one, they return its [key] and its
    [external_key] field, which may itself be [None].  So a result other than
    [None] is the field of the first matching course run, and a result of
    [None] means that no course run matched or that the field is null. *)
Theorem course_keys_project_found_run (self : DiscoveryProgram) (course_id : string) :
  (find_course_run self course_id = None ->
   get_course_key self course_id = VNone /\ get_external_course_key self course_id = VNone)
  /\ (forall course_run,
         find_course_run self course_id = Some course_run ->
         get_course_key self course_id = key course_run
         /\ get_external_course_key self course_id = external_key course_run)
  /\ (get_course_key self course_id = VNone
      <-> find_course_run self course_id = None
          \/ exists course_run,
               find_course_run self course_id = Some course_run /\ key course_run = VNone)
  /\ (get_external_course_key self course_id = VNone
      <-> find_course_run self course_id = None
          \/ exists course_run,
               find_course_run self course_id = Some course_run
               /\ external_key course_run = VNone).
Proof.
  unfold get_course_key, get_external_course_key.
  destruct (find_course_run self course_id) as [r|].
  - split; [discriminate|]. split; [intros course_run [= ->]; split; reflexivity|].
    split; (split; [intros H; right; eauto|]);
      (intros [H|(course_run & [= ->] & H)]; [discriminate|exact H]).
  - split; [intros _; split; reflexivity|]. split; [discriminate|].
    split; (split; [intros _; left; reflexivity|reflexivity]).
Qed.

(** ** The eligibility filter *)

Module PermissionProperties.

Import Permissions.

Lemma eligible_for_enrollment_masters (type : string) :
  eligible_for_enrollment type = true <-> type = "Masters".
Proof. unfold eligible_for_enrollment. apply String.eqb_eq. Qed.

(** C1: when the raw union of grants and the metadata are available,
    [Resolve] returns a set.  For a program of type "Masters" the set is the
    raw union, so every enrollment-scoped kind of the raw union is in it; for
    any other type the set is the raw union without the enrollment-scoped
    kinds, so READ_ENROLLMENTS and WRITE_ENROLLMENTS are not in it, whatever
    was granted. *)
Theorem Resolve_eligibility_filter (c : Collaborators) (user : string) (program : ProgramRef)
    (raw : gset PermissionKind) (metadata : ProgramMetadata) :
  RawPermissions c user program = inr raw ->
  MetadataGet c (program_uuid program) = inr metadata ->
  exists result,
    Resolve c user program = inr result
    /\ (program_type metadata = "Masters" ->
        result = raw
        /\ forall kind, IsEnrollmentScoped kind = true -> kind ∈ raw -> kind ∈ result)
    /\ (program_type metadata <> "Masters" ->
        (READ_ENROLLMENTS ∉ result)
        /\ (WRITE_ENROLLMENTS ∉ result)
        /\ forall kind, kind ∈ result <-> kind ∈ raw /\ IsEnrollmentScoped kind = false).
Proof.
  intros Hraw Hmeta. unfold Resolve. rewrite Hraw. simpl. rewrite Hmeta. simpl.
  destruct (eligible_for_enrollment (program_type metadata)) eqn:Htype.
  - exists raw. split; [reflexivity|]. split.
    + intros _. split; [reflexivity|]. intros kind _ Hin. exact Hin.
    + intros Hne. apply eligible_for_enrollment_masters in Htype. contradiction.
  - eexists. split; [reflexivity|]. split.
    + intros Hm. apply eligible_for_enrollment_masters in Hm. congruence.
    + intros _. split; [|split].
      * intros [Hf _]%elem_of_filter. discriminate.
      * intros [Hf _]%elem_of_filter. discriminate.
      * intros kind. rewrite elem_of_filter. tauto.
Qed.

(** The two scenarios of the specification, which are those of the tests
    [test_masters_perms_via_org_and_global_perms] and
    [test_non_masters_perms_via_org_and_global_perms]. *)
Example Resolve_masters_program :
  Resolve Sample.collaborators "user1" Sample.masters_program
  = inr {[READ_METADATA; READ_ENROLLMENTS; WRITE_ENROLLMENTS]}.
Proof. vm_compute. reflexivity. Qed.

Example Resolve_non_masters_program :
  Resolve Sample.collaborators "user1" Sample.non_masters_program = inr {[READ_METADATA]}.
Proof. vm_compute. reflexivity. Qed.

(** The same through program-scoped grants
    ([test_masters_perms_via_program_perms],
    [test_non_masters_perms_via_program_perms]). *)
Example Resolve_program_grants :
  Resolve Sample.collaborators "user2" Sample.masters_program
  = inr {[READ_METADATA; READ_ENROLLMENTS; WRITE_ENROLLMENTS]}
  /\ Resolve Sample.collaborators "user2" Sample.non_masters_program = inr {[READ_METADATA]}.
Proof. split; vm_compute; reflexivity. Qed.

(** A failure of the metadata cache is the failure of the call. *)
Lemma Resolve_metadata_failure (c : Collaborators) (user : string) (program : ProgramRef)
    (raw : gset PermissionKind) (e : Failure) :
  RawPermissions c user program = inr raw ->
  MetadataGet c (program_uuid program) = inl e ->
  Resolve c user program = inl e.
Proof. intros Hraw Hmeta. unfold Resolve. rewrite Hraw. simpl. rewrite Hmeta. reflexivity. Qed.

Lemma Resolve_eligibility_filter_witness :
  exists result,
    Resolve Sample.collaborators "user1" Sample.non_masters_program = inr result
    /\ (program_type (Sample.metadata "MicroMasters") = "Masters" ->
        result = {[READ_METADATA; READ_ENROLLMENTS; WRITE_ENROLLMENTS]}
        /\ forall kind,
            IsEnrollmentScoped kind = true ->
            kind ∈ ({[READ_METADATA; READ_ENROLLMENTS; WRITE_ENROLLMENTS]} : gset PermissionKind) ->
            kind ∈ result)
    /\ (program_type (Sample.metadata "MicroMasters") <> "Masters" ->
        (READ_ENROLLMENTS ∉ result)
        /\ (WRITE_ENROLLMENTS ∉ result)
        /\ forall kind,
            kind ∈ result
            <-> kind ∈ ({[READ_METADATA; READ_ENROLLMENTS; WRITE_ENROLLMENTS]} : gset PermissionKind)
                /\ IsEnrollmentScoped kind = false).
Proof.
  apply (Resolve_eligibility_filter Sample.collaborators "user1" Sample.non_masters_program
           {[READ_METADATA; READ_ENROLLMENTS; WRITE_ENROLLMENTS]}
           (Sample.metadata "MicroMasters")).
  - vm_compute. reflexivity.
  - reflexivity.
Defined.

End PermissionProperties.

(** ** The statements on the sample data *)

Local Abbreviation sample_get :=
  (get Sample.DISCOVERY_BASE_URL Sample.LMS_BASE_URL Sample.PROGRAM_CACHE_KEY_TPL
     Sample.PROGRAM_CACHE_TIMEOUT).

Local Abbreviation sample_load_and_store :=
  (load_and_store Sample.DISCOVERY_BASE_URL Sample.LMS_BASE_URL Sample.PROGRAM_CACHE_KEY_TPL
     Sample.PROGRAM_CACHE_TIMEOUT).

Local Abbreviation sample_read :=
  (read_from_discovery Sample.DISCOVERY_BASE_URL Sample.LMS_BASE_URL).

Local Abbreviation sample_key := (program_cache_key Sample.PROGRAM_CACHE_KEY_TPL).

(** A retired curriculum alone: no failure, no course run, and one diagnostic
    in a log that was empty. *)
Lemma from_json_no_active_curriculum_witness :
  array_or_absent "curricula" Sample.retired_payload = true
  /\ forallb inactive_curriculum (array_field "curricula" Sample.retired_payload) = true
  /\ log Sample.world = []
  /\ from_json DiscoveryProgram_cls "p1" Sample.retired_payload Sample.world
     = (inr {| version := 1; loaded := 1000; uuid := "p1"; title := VStr "Retired program";
               url := VNone; active_curriculum_uuid := VNone; course_runs := [] |},
        add_log "Discovery API returned no active curricula for program p1" Sample.world)
  /\ log (snd (from_json DiscoveryProgram_cls "p1" Sample.retired_payload Sample.world))
     = ["Discovery API returned no active curricula for program p1"]
  /\ cache (snd (from_json DiscoveryProgram_cls "p1" Sample.retired_payload Sample.world))
     = cache Sample.world
  /\ clock (snd (from_json DiscoveryProgram_cls "p1" Sample.retired_payload Sample.world))
     = clock Sample.world
  /\ fetches (snd (from_json DiscoveryProgram_cls "p1" Sample.retired_payload Sample.world))
     = fetches Sample.world.
Proof.
  split; [reflexivity|]. split; [reflexivity|]. split; [reflexivity|].
  exact (from_json_no_active_curriculum DiscoveryProgram_cls "p1" Sample.retired_payload
           Sample.world eq_refl eq_refl).
Defined.

(** One active curriculum after a retired one, with two courses of one and
    two course runs: three course runs, in the order of the payload. *)
Lemma from_json_first_active_curriculum_witness :
  array_field "curricula" Sample.payload
  = ([Sample.retired_curriculum] ++ Sample.active_curriculum :: [])%list
  /\ forallb inactive_curriculum [Sample.retired_curriculum] = true
  /\ is_active Sample.active_curriculum = true
  /\ curriculum_shaped Sample.active_curriculum = true
  /\ from_json DiscoveryProgram_cls "p1" Sample.payload Sample.world
     = (inr {| version := 1; loaded := 1000; uuid := "p1";
               title := VStr "Master of Examples"; url := VNone;
               active_curriculum_uuid := VStr "c-new";
               course_runs := [Sample.record_a; Sample.record_b1; Sample.record_b2] |},
        Sample.world)
  /\ length (flattened_course_runs Sample.active_curriculum) = 3%nat.
Proof.
  split; [reflexivity|]. split; [reflexivity|]. split; [reflexivity|].
  split; [reflexivity|]. split; [|reflexivity].
  exact (from_json_first_active_curriculum DiscoveryProgram_cls "p1" Sample.payload
           [Sample.retired_curriculum] Sample.active_curriculum [] Sample.world
           eq_refl eq_refl eq_refl eq_refl eq_refl).
Defined.

Lemma from_json_accepts_shaped_payload_witness :
  payload_shaped Sample.payload = true
  /\ fst (from_json DiscoveryProgram_cls "p1" Sample.payload Sample.world) = inr Sample.program
  /\ field "marketing_url" Sample.payload = VNone.
Proof.
  split; [reflexivity|].
  destruct (from_json_accepts_shaped_payload DiscoveryProgram_cls "p1" Sample.payload
              Sample.world eq_refl) as (Hparsed & Habsent & _).
  split; [exact Hparsed|].
  exact (proj1 (Habsent "marketing_url" eq_refl)).
Defined.

Lemma find_course_run_first_match_witness :
  find_course_run Sample.program "ext-B-1" = Some Sample.record_b1
  /\ exists before after,
       course_runs Sample.program = (before ++ Sample.record_b1 :: after)%list
       /\ matches "ext-B-1" Sample.record_b1
       /\ Forall (fun r => ~ matches "ext-B-1" r) before.
Proof.
  split; [reflexivity|].
  exact (proj1 (find_course_run_first_match Sample.program "ext-B-1")
           Sample.record_b1 eq_refl).
Defined.

Lemma course_keys_project_found_run_witness :
  find_course_run Sample.program "ext-B-1" = Some Sample.record_b1
  /\ get_course_key Sample.program "ext-B-1" = VStr "course-v1:B+1"
  /\ get_external_course_key Sample.program "ext-B-1" = VStr "ext-B-1".
Proof.
  split; [reflexivity|].
  exact (proj1 (proj2 (course_keys_project_found_run Sample.program "ext-B-1"))
           Sample.record_b1 eq_refl).
Defined.

(** A miss that fetches, then a second call ten minutes later, with no
    client and no authentication service: one invocation of the fetcher. *)
Lemma get_serves_cache_or_fetches_witness :
  sample_get DiscoveryProgram_cls "p1" (Some Sample.client) Sample.world
  = (inr Sample.program, Sample.warm_world)
  /\ within_ttl Sample.PROGRAM_CACHE_TIMEOUT 600
  /\ (length (fetches (snd (sample_get DiscoveryProgram_cls "p1" None
                              (later 600 Sample.no_service Sample.warm_world))))
      <= length (fetches Sample.world) + 1)%nat
  /\ sample_get DiscoveryProgram_cls "p1" None Sample.warm_world
     = (inr Sample.program, Sample.warm_world).
Proof.
  assert (Hget : sample_get DiscoveryProgram_cls "p1" (Some Sample.client) Sample.world
                 = (inr Sample.program, Sample.warm_world)) by (vm_compute; reflexivity).
  assert (Hd : within_ttl Sample.PROGRAM_CACHE_TIMEOUT 600) by (simpl; lia).
  pose proof (get_serves_cache_or_fetches Sample.DISCOVERY_BASE_URL Sample.LMS_BASE_URL
                Sample.PROGRAM_CACHE_KEY_TPL Sample.PROGRAM_CACHE_TIMEOUT DiscoveryProgram_cls
                "p1" (Some Sample.client) Sample.world) as (_ & _ & Htwice).
  pose proof (get_serves_cache_or_fetches Sample.DISCOVERY_BASE_URL Sample.LMS_BASE_URL
                Sample.PROGRAM_CACHE_KEY_TPL Sample.PROGRAM_CACHE_TIMEOUT DiscoveryProgram_cls
                "p1" None Sample.warm_world) as (Hhit & _ & _).
  split; [exact Hget|]. split; [exact Hd|].
  split; [exact (Htwice _ _ 600 Sample.no_service None Hget Hd)|].
  apply Hhit; vm_compute; reflexivity.
Defined.

(** The remote service answers 404, or with a document that is no program:
    the exception comes out and the cache stays empty. *)
Lemma get_failure_leaves_cache_witness :
  cache_miss (sample_key "p1") (class_version DiscoveryProgram_cls) Sample.world
  /\ sample_read "p1" (Some (Sample.failing_client 404)) Sample.world
     = (inl Http404, add_fetch "p1" Sample.world)
  /\ sample_get DiscoveryProgram_cls "p1" (Some (Sample.failing_client 404)) Sample.world
     = (inl Http404, add_fetch "p1" Sample.world)
  /\ cache (add_fetch "p1" Sample.world) = cache Sample.world
  /\ sample_get DiscoveryProgram_cls "p1" (Some Sample.garbled_client) Sample.world
     = (inl TypeError, add_fetch "p1" Sample.world).
Proof.
  assert (Hmiss : cache_miss (sample_key "p1") (class_version DiscoveryProgram_cls)
                    Sample.world) by exact I.
  pose proof (get_failure_leaves_cache Sample.DISCOVERY_BASE_URL Sample.LMS_BASE_URL
                Sample.PROGRAM_CACHE_KEY_TPL Sample.PROGRAM_CACHE_TIMEOUT DiscoveryProgram_cls
                "p1" (Some (Sample.failing_client 404)) Sample.world) as [_ Hfail].
  pose proof (get_failure_leaves_cache Sample.DISCOVERY_BASE_URL Sample.LMS_BASE_URL
                Sample.PROGRAM_CACHE_KEY_TPL Sample.PROGRAM_CACHE_TIMEOUT DiscoveryProgram_cls
                "p1" (Some Sample.garbled_client) Sample.world) as [_ Hgarbled].
  destruct (Hfail Hmiss) as [Hfetch _]. destruct (Hgarbled Hmiss) as [_ Hparse].
  assert (Hread : sample_read "p1" (Some (Sample.failing_client 404)) Sample.world
                  = (inl Http404, add_fetch "p1" Sample.world)) by (vm_compute; reflexivity).
  split; [exact Hmiss|]. split; [exact Hread|].
  split; [exact (proj1 (Hfetch _ _ Hread))|].
  split; [exact (proj2 (Hfetch _ _ Hread))|].
  refine (proj1 (Hparse (VDict [("curricula", VInt 3)]) (add_fetch "p1" Sample.world)
                   TypeError (add_fetch "p1" Sample.world) _ _)); vm_compute; reflexivity.
Defined.

(** The entry stored by version 1 is not served to version 2, although its
    timeout has not run out; and after [Invalidate] the fetcher is invoked
    again. *)
Lemma get_after_invalidate_or_version_bump_witness :
  sample_get DiscoveryProgram_cls "p1" (Some Sample.client) Sample.world
  = (inr Sample.program, Sample.warm_world)
  /\ class_version Sample.bumped_cls <> class_version DiscoveryProgram_cls
  /\ sample_get Sample.bumped_cls "p1" (Some Sample.client)
       (later 600 Sample.no_service Sample.warm_world)
     = sample_load_and_store Sample.bumped_cls "p1" (Some Sample.client)
         (later 600 Sample.no_service Sample.warm_world)
  /\ fetches (snd (sample_get Sample.bumped_cls "p1" (Some Sample.client)
                     (later 600 Sample.no_service Sample.warm_world)))
     = ["p1"; "p1"].
Proof.
  assert (Hget : sample_get DiscoveryProgram_cls "p1" (Some Sample.client) Sample.world
                 = (inr Sample.program, Sample.warm_world)) by (vm_compute; reflexivity).
  assert (Hbump : class_version Sample.bumped_cls <> class_version DiscoveryProgram_cls)
    by discriminate.
  pose proof (get_after_invalidate_or_version_bump Sample.DISCOVERY_BASE_URL
                Sample.LMS_BASE_URL Sample.PROGRAM_CACHE_KEY_TPL Sample.PROGRAM_CACHE_TIMEOUT
                Sample.bumped_cls "p1" (Some Sample.client) Sample.warm_world) as [_ Hver].
  split; [exact Hget|]. split; [exact Hbump|].
  exact (Hver DiscoveryProgram_cls (Some Sample.client) Sample.world Sample.program 600
           Sample.no_service Hget Hbump).
Defined.

Lemma parsed_version_is_current_witness :
  cache_miss (sample_key "p1") (class_version DiscoveryProgram_cls) Sample.world
  /\ sample_get DiscoveryProgram_cls "p1" (Some Sample.client) Sample.world
     = (inr Sample.program, Sample.warm_world)
  /\ within_ttl Sample.PROGRAM_CACHE_TIMEOUT 3599
  /\ version Sample.program = class_version DiscoveryProgram_cls
  /\ sample_get DiscoveryProgram_cls "p1" None (later 3599 Sample.no_service Sample.warm_world)
     = (inr Sample.program, later 3599 Sample.no_service Sample.warm_world).
Proof.
  assert (Hmiss : cache_miss (sample_key "p1") (class_version DiscoveryProgram_cls)
                    Sample.world) by exact I.
  assert (Hget : sample_get DiscoveryProgram_cls "p1" (Some Sample.client) Sample.world
                 = (inr Sample.program, Sample.warm_world)) by (vm_compute; reflexivity).
  assert (Hd : within_ttl Sample.PROGRAM_CACHE_TIMEOUT 3599) by (simpl; lia).
  pose proof (parsed_version_is_current Sample.DISCOVERY_BASE_URL Sample.LMS_BASE_URL
                Sample.PROGRAM_CACHE_KEY_TPL Sample.PROGRAM_CACHE_TIMEOUT DiscoveryProgram_cls
                "p1" (Some Sample.client) Sample.world) as [_ Hnext].
  destruct (Hnext Sample.program Sample.warm_world 3599 Sample.no_service None Hmiss Hget Hd)
    as (Hver & _ & _ & Hhit).
  split; [exact Hmiss|]. split; [exact Hget|]. split; [exact Hd|].
  split; [exact Hver|exact Hhit].
Defined.

(** ** The fetcher and HTTP statuses *)

(** A 4xx or 5xx answer makes [read_from_discovery] raise: Http404 for a 404,
    the HTTPError of [raise_for_status] for any other status. *)
Lemma read_from_discovery_http_error (DISCOVERY_BASE_URL LMS_BASE_URL program_uuid : string)
    (client : Client) (response : Response) (w : World) :
  request client "GET" (program_url DISCOVERY_BASE_URL program_uuid) = inr response ->
  (400 <= status_code response < 600)%Z ->
  read_from_discovery DISCOVERY_BASE_URL LMS_BASE_URL program_uuid (Some client) w
  = (inl (if (status_code response =? 404)%Z then Http404
          else HTTPError (status_code response)),
     add_fetch program_uuid w).
Proof.
  intros Hreq [Hlo Hhi].
  unfold read_from_discovery, try_except_HTTPError, _make_request, raise_for_status,
    bind, lift, ret, raise.
  simpl. rewrite Hreq.
  assert (H2 : ((200 <=? status_code response) && (status_code response <? 300))%Z = false).
  { apply andb_false_iff. right. apply Z.ltb_ge. lia. }
  assert (H4 : ((400 <=? status_code response) && (status_code response <? 600))%Z = true).
  { apply andb_true_iff. split; [apply Z.leb_le|apply Z.ltb_lt]; lia. }
  rewrite H2, H4. unfold HTTP_404_NOT_FOUND.
  destruct (status_code response =? 404)%Z; reflexivity.
Qed.

(** A 2xx answer with a JSON body is what [read_from_discovery] returns. *)
Lemma read_from_discovery_success (DISCOVERY_BASE_URL LMS_BASE_URL program_uuid : string)
    (client : Client) (response : Response) (data : pyval) (w : World) :
  request client "GET" (program_url DISCOVERY_BASE_URL program_uuid) = inr response ->
  (200 <= status_code response < 300)%Z ->
  json_body response = Some data ->
  read_from_discovery DISCOVERY_BASE_URL LMS_BASE_URL program_uuid (Some client) w
  = (inr data, add_fetch program_uuid w).
Proof.
  intros Hreq [Hlo Hhi] Hbody.
  unfold read_from_discovery, try_except_HTTPError, _make_request, response_json,
    bind, lift, ret, raise.
  simpl. rewrite Hreq.
  assert (H2 : ((200 <=? status_code response) && (status_code response <? 300))%Z = true).
  { apply andb_true_iff. split; [apply Z.leb_le|apply Z.ltb_lt]; lia. }
  rewrite H2, Hbody. reflexivity.
Qed.

Lemma read_from_discovery_http_error_witness :
  request (Sample.failing_client 503) "GET"
    (program_url Sample.DISCOVERY_BASE_URL "p1")
  = inr {| status_code := 503; json_body := None |}
  /\ sample_read "p1" (Some (Sample.failing_client 503)) Sample.world
     = (inl (HTTPError 503), add_fetch "p1" Sample.world).
Proof.
  split; [reflexivity|].
  apply (read_from_discovery_http_error Sample.DISCOVERY_BASE_URL Sample.LMS_BASE_URL "p1"
           (Sample.failing_client 503) {| status_code := 503; json_body := None |}
           Sample.world); [reflexivity|simpl; lia].
Defined.

(** * Further properties of data.py *)

(** ** Course keys, both ways *)

Lemma matches_identifier (course_id : string) (r : DiscoveryCourseRun) :
  matches course_id r -> course_id ∈ (str_of (key r) ++ str_of (external_key r))%list.
Proof.
  intros [H|H]; rewrite H; simpl.
  - apply list_elem_of_here.
  - apply elem_of_app. right. apply list_elem_of_here.
Qed.

Lemma find_in_course_runs_unique (course_id : string) (runs : list DiscoveryCourseRun)
    (r : DiscoveryCourseRun) :
  NoDup (identifiers runs) ->
  r ∈ runs ->
  matches course_id r ->
  find_in_course_runs course_id runs = Some r.
Proof.
  induction runs as [|r0 runs IH]; simpl; intros Hnodup Hin Hm.
  - inversion Hin.
  - unfold identifiers in Hnodup. simpl in Hnodup.
    apply NoDup_app in Hnodup as (Hhead & Hdisjoint & Hrest).
    destruct (py_eq_str course_id (key r0) || py_eq_str course_id (external_key r0))
      eqn:Htest.
    + apply matches_test in Htest.
      apply elem_of_cons in Hin as [->|Hin]; [reflexivity|].
      exfalso. apply (Hdisjoint course_id (matches_identifier _ _ Htest)).
      unfold identifiers. apply list_elem_of_In, in_flat_map. exists r.
      split; [apply list_elem_of_In, Hin|apply list_elem_of_In, matches_identifier, Hm].
    + apply elem_of_cons in Hin as [->|Hin].
      * apply matches_test in Hm. congruence.
      * apply IH; assumption.
Qed.

(** When no string is the key or external key of two course runs, or both of
    one, a course run with a key and an external key is found by either, and
    each of the two functions gives the one from the other. *)
Theorem course_key_round_trip (self : DiscoveryProgram) (r : DiscoveryCourseRun)
    (k e : string) :
  NoDup (identifiers (course_runs self)) ->
  r ∈ course_runs self ->
  key r = VStr k ->
  external_key r = VStr e ->
  get_external_course_key self k = VStr e
  /\ get_course_key self e = VStr k
  /\ get_course_key self (k) = VStr k
  /\ get_external_course_key self e = VStr e.
Proof.
  intros Hnodup Hin Hk He.
  assert (Hfk : find_course_run self k = Some r)
    by (apply find_in_course_runs_unique; [assumption..|left; exact Hk]).
  assert (Hfe : find_course_run self e = Some r)
    by (apply find_in_course_runs_unique; [assumption..|right; exact He]).
  unfold get_external_course_key, get_course_key. rewrite Hfk, Hfe. auto.
Qed.

(** ** Parsing, then looking up *)

Lemma find_in_course_runs_member (course_id : string) (runs : list DiscoveryCourseRun)
    (r : DiscoveryCourseRun) :
  r ∈ runs -> matches course_id r ->
  exists found, find_in_course_runs course_id runs = Some found /\ matches course_id found.
Proof.
  intros Hin Hm.
  destruct (find_in_course_runs course_id runs) as [found|] eqn:Hfind.
  - exists found. split; [reflexivity|].
    apply find_in_course_runs_some in Hfind as (_ & _ & _ & Hfound & _). exact Hfound.
  - apply find_in_course_runs_none in Hfind.
    rewrite Forall_forall in Hfind. exfalso. exact (Hfind r Hin Hm).
Qed.

(** Every course run of the active curriculum of a payload can be looked up,
    in the instance the parser returns, by its key and by its external key. *)
Theorem parsed_course_run_is_found (cls : Class) (program_uuid : string)
    (program_data curriculum course course_run : pyval) (course_id : string) (w : World) :
  payload_shaped program_data = true ->
  List.find is_active (array_field "curricula" program_data) = Some curriculum ->
  course ∈ array_field "courses" curriculum ->
  course_run ∈ array_field "course_runs" course ->
  field "key" course_run = VStr course_id \/ field "external_key" course_run = VStr course_id ->
  exists p found,
    fst (from_json cls program_uuid program_data w) = inr p
    /\ find_course_run p course_id = Some found
    /\ matches course_id found.
Proof.
  intros Hshaped Hchosen Hcourse Hrun Hid.
  rewrite from_json_shaped by assumption. simpl.
  eexists. 
  assert (Hmember : course_run_record course_run
                    ∈ course_runs (described_program cls program_uuid program_data (clock w))).
  { unfold described_program. simpl. rewrite Hchosen. unfold flattened_course_runs.
    apply list_elem_of_In, in_flat_map. exists course.
    split; [apply list_elem_of_In, Hcourse|].
    apply in_map, list_elem_of_In, Hrun. }
  destruct (find_in_course_runs_member course_id _ _ Hmember Hid) as (found & Hfind & Hm).
  exists found. split; [reflexivity|]. split; assumption.
Qed.

(** ** What the parser raises *)

Lemma py_get_raises (d : pyval) (k : string) (dflt : pyval) (e : exn) :
  py_get d k dflt = inl e -> e = AttributeError.
Proof. destruct d; simpl; intros [=]; auto. Qed.

Lemma py_iter_raises (v : pyval) (e : exn) : py_iter v = inl e -> e = TypeError.
Proof. destruct v; simpl; intros [=]; auto. Qed.

Lemma next_active_raises (curricula : list pyval) (e : exn) :
  next_active curricula = inl e -> e = AttributeError.
Proof.
  induction curricula as [|c curricula IH]; simpl; [discriminate|].
  destruct (py_get c "is_active" VNone) as [e0|v] eqn:Hget; simpl.
  - intros [= <-]. eapply py_get_raises, Hget.
  - destruct (truthy v); [discriminate|exact IH].
Qed.

Lemma make_course_run_raises (course_run : pyval) (e : exn) :
  make_course_run course_run = inl e -> e = AttributeError.
Proof.
  destruct course_run; simpl; intros [=]; auto.
Qed.

Lemma runs_of_course_runs_raises (items : list pyval) (e : exn) :
  runs_of_course_runs items = inl e -> e = AttributeError.
Proof.
  induction items as [|r items IH]; simpl; [discriminate|].
  destruct (make_course_run r) as [e0|x] eqn:Hr; simpl.
  - intros [= <-]. eapply make_course_run_raises, Hr.
  - destruct (runs_of_course_runs items); simpl; [|discriminate].
    intros [= <-]. apply IH. reflexivity.
Qed.

Lemma runs_of_courses_raises (courses : list pyval) (e : exn) :
  runs_of_courses courses = inl e -> e = AttributeError \/ e = TypeError.
Proof.
  induction courses as [|c courses IH]; simpl; [discriminate|].
  destruct (py_get c "course_runs" (VList [])) as [e0|v] eqn:Hget; simpl.
  { intros [= <-]. left. eapply py_get_raises, Hget. }
  destruct (py_iter v) as [e0|items] eqn:Hiter; simpl.
  { intros [= <-]. right. eapply py_iter_raises, Hiter. }
  destruct (runs_of_course_runs items) as [e0|runs] eqn:Hruns; simpl.
  { intros [= <-]. left. eapply runs_of_course_runs_raises, Hruns. }
  destruct (runs_of_courses courses); simpl; [|discriminate].
  intros [= <-]. apply IH. reflexivity.
Qed.

(** Whatever the payload, the parser raises nothing but AttributeError and
    TypeError, and when it raises it has logged nothing. *)
Theorem from_json_raises_attribute_or_type_error (cls : Class) (program_uuid : string)
    (program_data : pyval) (w w' : World) (e : exn) :
  from_json cls program_uuid program_data w = (inl e, w') ->
  (e = AttributeError \/ e = TypeError) /\ w' = w.
Proof.
  intros H. split; [|eapply from_json_err, H].
  revert H. unfold from_json, bind, lift, logger_exception, DiscoveryProgram_init.
  destruct (py_get program_data "title" VNone) as [e0|t] eqn:H1.
  { intros [= <- _]. left. eapply py_get_raises, H1. }
  destruct (py_get program_data "marketing_url" VNone) as [e0|m] eqn:H2.
  { intros [= <- _]. left. eapply py_get_raises, H2. }
  destruct (py_get program_data "curricula" (VList [])) as [e0|cs] eqn:H3.
  { intros [= <- _]. left. eapply py_get_raises, H3. }
  destruct (py_iter cs) as [e0|items] eqn:H4.
  { intros [= <- _]. right. eapply py_iter_raises, H4. }
  destruct (next_active items) as [e0|[c|]] eqn:H5.
  { intros [= <- _]. left. eapply next_active_raises, H5. }
  - destruct (py_get c "uuid" VNone) as [e0|u] eqn:H6.
    { intros [= <- _]. left. eapply py_get_raises, H6. }
    destruct (py_get c "courses" (VList [])) as [e0|courses] eqn:H7.
    { intros [= <- _]. left. eapply py_get_raises, H7. }
    destruct (py_iter courses) as [e0|cl] eqn:H8.
    { intros [= <- _]. right. eapply py_iter_raises, H8. }
    destruct (runs_of_courses cl) as [e0|runs] eqn:H9.
    { intros [= <- _]. eapply runs_of_courses_raises, H9. }
    discriminate.
  - discriminate.
Qed.

(** ** More on the cache *)

Section CacheMore.

Variable DISCOVERY_BASE_URL : string.
Variable LMS_BASE_URL : string.
Variable PROGRAM_CACHE_KEY_TPL : string.
Variable PROGRAM_CACHE_TIMEOUT : option Z.

Local Abbreviation program_cache_key := (program_cache_key PROGRAM_CACHE_KEY_TPL).
Local Abbreviation read_from_discovery := (read_from_discovery DISCOVERY_BASE_URL LMS_BASE_URL).
Local Abbreviation load_from_discovery := (load_from_discovery DISCOVERY_BASE_URL LMS_BASE_URL).
Local Abbreviation load_and_store :=
  (load_and_store DISCOVERY_BASE_URL LMS_BASE_URL PROGRAM_CACHE_KEY_TPL PROGRAM_CACHE_TIMEOUT).
Local Abbreviation get :=
  (get DISCOVERY_BASE_URL LMS_BASE_URL PROGRAM_CACHE_KEY_TPL PROGRAM_CACHE_TIMEOUT).
Local Abbreviation cache_keyed := (cache_keyed PROGRAM_CACHE_KEY_TPL).

(** What [get] leaves behind, in both outcomes of both branches. *)
Lemma get_world (cls : Class) (program_uuid : string) (client : option Client) (w : World) :
  let w' := snd (get cls program_uuid client w) in
  clock w' = clock w /\ oauth w' = oauth w
  /\ (cache w' = cache w
      \/ exists p,
           fst (get cls program_uuid client w) = inr p
           /\ uuid p = program_uuid
           /\ cache w'
              = <[program_cache_key program_uuid :=
                    {| entry_value := p;
                       entry_expires := (fun d => clock w + d)%Z <$> PROGRAM_CACHE_TIMEOUT |}]>
                  (cache w)).
Proof.
  simpl. rewrite get_unfold.
  assert (Hload :
    let w' := snd (load_and_store cls program_uuid client w) in
    clock w' = clock w /\ oauth w' = oauth w
    /\ (cache w' = cache w
        \/ exists p,
             fst (load_and_store cls program_uuid client w) = inr p
             /\ uuid p = program_uuid
             /\ cache w'
                = <[program_cache_key program_uuid :=
                      {| entry_value := p;
                         entry_expires := (fun d => clock w + d)%Z <$> PROGRAM_CACHE_TIMEOUT |}]>
                    (cache w))).
  { simpl. rewrite load_and_store_run.
    destruct (load_from_discovery cls program_uuid client w) as [[e|p] w1] eqn:Hl.
    - apply load_from_discovery_err in Hl as [-> _]. simpl. auto.
    - apply load_from_discovery_ok in Hl as (data & _ & Hparse).
      apply from_json_ok in Hparse as (_ & Hu & _ & Hc & Hk & _ & Ho).
      simpl in *. rewrite Hk, Ho, Hc. split; [reflexivity|]. split; [reflexivity|].
      right. exists p. auto. }
  destruct (cache_lookup _ w) as [q|]; [|exact Hload].
  destruct (version q =? class_version cls)%Z; [|exact Hload].
  simpl. auto.
Qed.

(** [get] writes under the key of its program and nowhere else: every other
    entry of the cache is as it was, and so is the clock. *)
Theorem get_touches_only_its_key (cls : Class) (program_uuid : string)
    (client : option Client) (w : World) (k : string) :
  k <> program_cache_key program_uuid ->
  cache (snd (get cls program_uuid client w)) !! k = cache w !! k
  /\ clock (snd (get cls program_uuid client w)) = clock w.
Proof.
  intros Hk. destruct (get_world cls program_uuid client w) as (Hclock & _ & Hcache).
  split; [|exact Hclock].
  destruct Hcache as [-> | (p & _ & _ & ->)]; [reflexivity|].
  apply lookup_insert_ne. congruence.
Qed.

(** When every entry of the cache sits under the key of the program it
    holds, it is so after [get], and the instance [get] returns has the key
    of the program asked for. *)
Theorem get_keeps_cache_keyed (cls : Class) (program_uuid : string)
    (client : option Client) (w : World) :
  cache_keyed w ->
  cache_keyed (snd (get cls program_uuid client w))
  /\ forall p,
      fst (get cls program_uuid client w) = inr p ->
      program_cache_key (uuid p) = program_cache_key program_uuid.
Proof.
  intros Hkeyed. split.
  - destruct (get_world cls program_uuid client w) as (_ & _ & Hcache).
    intros k e. destruct Hcache as [-> | (p & _ & Hu & ->)]; [apply Hkeyed|].
    destruct (decide (k = program_cache_key program_uuid)) as [->|Hne].
    + rewrite lookup_insert_eq. intros [= <-]. simpl. rewrite Hu. reflexivity.
    + rewrite lookup_insert_ne by congruence. apply Hkeyed.
  - intros p. rewrite get_unfold.
    destruct (cache_lookup (program_cache_key program_uuid) w) as [q|] eqn:Hlook.
    + destruct (version q =? class_version cls)%Z.
      * simpl. intros [= <-]. unfold cache_lookup in Hlook.
        destruct (cache w !! program_cache_key program_uuid) as [e|] eqn:He; [|discriminate].
        destruct (has_expired (clock w) e); [discriminate|]. injection Hlook as <-.
        symmetry. exact (Hkeyed _ _ He).
      * rewrite load_and_store_run.
        destruct (load_from_discovery cls program_uuid client w) as [[e|p'] w1] eqn:Hl;
          simpl; [discriminate|]. intros [= <-].
        apply load_from_discovery_ok in Hl as (data & _ & Hparse).
        apply from_json_ok in Hparse as (_ & -> & _). reflexivity.
    + rewrite load_and_store_run.
      destruct (load_from_discovery cls program_uuid client w) as [[e|p'] w1] eqn:Hl;
        simpl; [discriminate|]. intros [= <-].
      apply load_from_discovery_ok in Hl as (data & _ & Hparse).
      apply from_json_ok in Hparse as (_ & -> & _). reflexivity.
Qed.

(** Once the timeout of an entry just stored has run out, the entry is gone
    for [get], which invokes the fetcher again. *)
Theorem get_after_timeout_fetches (cls : Class) (program_uuid : string)
    (client client' : option Client) (w w1 : World) (p : DiscoveryProgram) (t d : Z)
    (oauth' : string -> res (Client * bool)) :
  PROGRAM_CACHE_TIMEOUT = Some t ->
  cache_miss (program_cache_key program_uuid) (class_version cls) w ->
  get cls program_uuid client w = (inr p, w1) ->
  (t <= d)%Z ->
  cache_lookup (program_cache_key program_uuid) (later d oauth' w1) = None
  /\ get cls program_uuid client' (later d oauth' w1)
     = load_and_store cls program_uuid client' (later d oauth' w1)
  /\ fetches (snd (get cls program_uuid client' (later d oauth' w1)))
     = (fetches w1 ++ [program_uuid])%list.
Proof.
  intros Ht Hmiss Hget Hd.
  apply get_ok_entry in Hget as (_ & e & Hentry & _ & Hstored).
  destruct (Hstored Hmiss) as [-> Hclock].
  assert (Hgone : cache_lookup (program_cache_key program_uuid) (later d oauth' w1) = None).
  { unfold cache_lookup, later, has_expired. simpl. rewrite Hentry, Ht. simpl.
    destruct (Z.leb_spec (clock w + t) (clock w1 + d)); [reflexivity|lia]. }
  assert (Hmiss' : cache_miss (program_cache_key program_uuid) (class_version cls)
                     (later d oauth' w1))
    by (unfold cache_miss; rewrite Hgone; exact I).
  split; [exact Hgone|]. rewrite get_miss by exact Hmiss'. split; [reflexivity|].
  rewrite load_and_store_fetches. reflexivity.
Qed.

End CacheMore.

(** An answer whose status is neither 2xx nor 4xx or 5xx (a redirect that was
    not followed, a 304) makes [_make_request] return [None], and
    [read_from_discovery] raise AttributeError on it. *)
Theorem read_from_discovery_other_status (DISCOVERY_BASE_URL LMS_BASE_URL program_uuid : string)
    (client : Client) (response : Response) (w : World) :
  request client "GET" (program_url DISCOVERY_BASE_URL program_uuid) = inr response ->
  (status_code response < 200 \/ 300 <= status_code response < 400
   \/ 600 <= status_code response)%Z ->
  read_from_discovery DISCOVERY_BASE_URL LMS_BASE_URL program_uuid (Some client) w
  = (inl AttributeError, add_fetch program_uuid w).
Proof.
  intros Hreq Hstatus.
  unfold read_from_discovery, try_except_HTTPError, _make_request, raise_for_status,
    response_json, bind, lift, ret, raise.
  simpl. rewrite Hreq.
  assert (H2 : ((200 <=? status_code response) && (status_code response <? 300))%Z = false).
  { apply andb_false_iff. destruct (Z.leb_spec 200 (status_code response)); [right|left; reflexivity].
    apply Z.ltb_ge. lia. }
  assert (H4 : ((400 <=? status_code response) && (status_code response <? 600))%Z = false).
  { apply andb_false_iff. destruct (Z.leb_spec 400 (status_code response)); [right|left; reflexivity].
    apply Z.ltb_ge. lia. }
  rewrite H2, H4. reflexivity.
Qed.

(** A 2xx answer whose body is no JSON document makes [read_from_discovery]
    raise the ValueError of [.json()]; nothing of it is an HTTPError, so no
    Http404 comes of it. *)
Lemma read_from_discovery_not_json (DISCOVERY_BASE_URL LMS_BASE_URL program_uuid : string)
    (client : Client) (response : Response) (w : World) :
  request client "GET" (program_url DISCOVERY_BASE_URL program_uuid) = inr response ->
  (200 <= status_code response < 300)%Z ->
  json_body response = None ->
  read_from_discovery DISCOVERY_BASE_URL LMS_BASE_URL program_uuid (Some client) w
  = (inl ValueError, add_fetch program_uuid w).
Proof.
  intros Hreq [Hlo Hhi] Hbody.
  unfold read_from_discovery, try_except_HTTPError, _make_request, response_json,
    bind, lift, ret, raise.
  simpl. rewrite Hreq.
  assert (H2 : ((200 <=? status_code response) && (status_code response <? 300))%Z = true).
  { apply andb_true_iff. split; [apply Z.leb_le|apply Z.ltb_lt]; lia. }
  rewrite H2, Hbody. reflexivity.
Qed.

(** ** URLs and cache keys *)

(** For a key template made of a text, the field [{uuid}] and a text, both
    texts without a brace, opening or closing, the key of a program is the
    first text, the uuid and the second text, whatever the uuid holds; so two
    programs have the same key only when they have the same uuid. *)
Theorem program_cache_key_of_template (before after program_uuid : string) :
  no_brace before = true ->
  no_brace after = true ->
  program_cache_key (before +:+ "{uuid}" +:+ after) program_uuid
  = before +:+ program_uuid +:+ after
  /\ forall other,
      program_cache_key (before +:+ "{uuid}" +:+ after) other
      = program_cache_key (before +:+ "{uuid}" +:+ after) program_uuid ->
      other = program_uuid.
Proof.
  intros Hb Ha.
  assert (Hkey : forall u, program_cache_key (before +:+ "{uuid}" +:+ after) u
                           = before +:+ u +:+ after).
  { intros u. unfold program_cache_key.
    exact (str_replace_field "uuid}" u before after Hb Ha). }
  split; [apply Hkey|].
  intros other. rewrite !Hkey. intros H.
  apply String.app_inj in H. eapply append_inj_l, H.
Qed.

(** For a base URL without a brace, opening or closing, the URL of a program
    is the base, one slash unless the base is empty or ends with one, the
    path [api/v1/programs/], the uuid and a slash. *)
Theorem program_url_closed_form (base program_uuid : string) :
  no_brace base = true ->
  program_url base program_uuid
  = with_slash base +:+ "api/v1/programs/" +:+ program_uuid +:+ "/".
Proof.
  intros Hbase.
  assert (Hjoin : urljoin base "api/v1/programs/{}/"
                  = with_slash base +:+ "api/v1/programs/{}/").
  { unfold urljoin, with_slash.
    change (String.prefix "/" "api/v1/programs/{}/") with false. cbv iota.
    destruct (String.eqb base ""); [reflexivity|].
    destruct (String.eqb _ "/"); [reflexivity|].
    rewrite append_assoc. reflexivity. }
  assert (Hslash : no_brace (with_slash base) = true).
  { unfold with_slash. destruct (String.eqb base ""); [reflexivity|].
    destruct (String.eqb _ "/"); [exact Hbase|].
    apply no_brace_append; [exact Hbase|reflexivity]. }
  unfold program_url. rewrite Hjoin.
  pose proof (str_replace_field "}" program_uuid (with_slash base +:+ "api/v1/programs/") "/"
                (no_brace_append (with_slash base) "api/v1/programs/" Hslash eq_refl)
                eq_refl) as H.
  rewrite !append_assoc in H. exact H.
Qed.

(** * The request helpers *)

Section HelperProperties.

Variable LMS_BASE_URL : string.
Variable w : World.

Local Abbreviation make_request := (Lms._make_request LMS_BASE_URL w).
Local Abbreviation results_loop := (Lms.results_loop LMS_BASE_URL w).
Local Abbreviation responses_loop := (Lms.responses_loop LMS_BASE_URL w).
Local Abbreviation batch_loop := (Lms.batch_loop LMS_BASE_URL w).
Local Abbreviation _get_all_paginated_results :=
  (Lms._get_all_paginated_results LMS_BASE_URL w).
Local Abbreviation _get_all_paginated_responses :=
  (Lms._get_all_paginated_responses LMS_BASE_URL w).
Local Abbreviation _do_batched_lms_write := (Lms._do_batched_lms_write LMS_BASE_URL w).

(** What [_make_request] does with a client that answers. *)
Lemma make_request_answered (method : string) (url : pyval) (client : Lms.Session)
    (json_ : option (list pyval)) (tr : list Lms.Request) (response : Response) :
  method ∈ http_methods ->
  Lms.respond client tr
    {| Lms.req_method := method; Lms.req_url := url; Lms.req_json := json_ |}
  = inr response ->
  make_request method url (Some client) json_ tr
  = (if status_2xx response then inr (Some response)
     else if status_4xx_5xx response then inl (Lms.HTTPErrorFor response)
          else inr None,
     (tr ++ [{| Lms.req_method := method; Lms.req_url := url; Lms.req_json := json_ |}])%list).
Proof.
  intros Hm Hr. unfold Lms._make_request.
  rewrite bool_decide_eq_true_2 by exact Hm. simpl.
  unfold Lms.tbind, Lms.tret, Lms.send. rewrite Hr.
  unfold status_2xx, status_4xx_5xx.
  destruct ((200 <=? status_code response) && (status_code response <? 300))%Z;
    [reflexivity|].
  destruct ((400 <=? status_code response) && (status_code response <? 600))%Z;
    reflexivity.
Qed.

Lemma GET_is_a_method : "GET" ∈ http_methods.
Proof. apply list_elem_of_here. Qed.

Lemma serves_head (client : Lms.Session) (tr : list Lms.Request) (p : Page)
    (rest : list Page) :
  serves client tr (p :: rest) ->
  Lms.respond client tr (page_request p) = inr (page_response p)
  /\ serves client (tr ++ [page_request p])%list rest.
Proof.
  intros H. split.
  - specialize (H 0%nat p eq_refl). simpl in H. rewrite app_nil_r in H. exact H.
  - intros i q Hq. specialize (H (S i) q Hq). simpl in H.
    rewrite <- app_assoc. exact H.
Qed.

Lemma results_loop_S (fuel : nat) (client : Lms.Session) (next_url : pyval)
    (results : list pyval) (tr : list Lms.Request) :
  results_loop (S fuel) client next_url results tr
  = if negb (truthy next_url) then Some (inr results, tr)
    else
      match make_request "GET" next_url (Some client) None tr with
      | (inl e, tr') => Some (inl e, tr')
      | (inr r, tr') =>
          match Lms.json_of r with
          | inl e => Some (inl e, tr')
          | inr response_data =>
              match Lms.py_getitem response_data "results" with
              | inl e => Some (inl e, tr')
              | inr page =>
                  match py_iter page with
                  | inl e => Some (inl (Lms.Raised e), tr')
                  | inr page_items =>
                      match Lms.get_next response_data with
                      | inl e => Some (inl e, tr')
                      | inr next =>
                          results_loop fuel client next (results ++ page_items)%list tr'
                      end
                  end
              end
          end
      end.
Proof. reflexivity. Qed.

Lemma results_page_inv (p : Page) :
  results_page p = true ->
  truthy (page_url p) = true
  /\ status_2xx (page_response p) = true
  /\ exists doc,
       json_body (page_response p) = Some doc
       /\ Lms.py_getitem doc "results" = inr (VList (page_results p))
       /\ Lms.get_next doc = inr (page_next p).
Proof.
  unfold results_page, page_results, page_next, page_document.
  intros [[Htruthy H2xx]%andb_prop Hdoc]%andb_prop.
  split; [exact Htruthy|]. split; [exact H2xx|].
  destruct (json_body (page_response p)) as [doc|]; [|discriminate].
  exists doc. split; [reflexivity|].
  destruct doc as [| | | | |fields]; try discriminate.
  unfold Lms.py_getitem, Lms.get_next, py_get, array_field, field.
  destruct (dict_lookup "results" fields) as [[| | | |items|]|]; try discriminate.
  split; [reflexivity|]. destruct (dict_lookup "next" fields); reflexivity.
Qed.

(** Over pages of results that follow one another, the loop gathers the
    results and goes on from the [next] of the last page. *)
Lemma results_loop_chain (client : Lms.Session) (pages : list Page) :
  forall (first last : pyval) (results : list pyval) (tr : list Lms.Request) (fuel : nat),
    forallb results_page pages = true ->
    chain first pages last ->
    serves client tr pages ->
    results_loop (length pages + fuel) client first results tr
    = results_loop fuel client last (results ++ concat (map page_results pages))%list
        (tr ++ map page_request pages)%list.
Proof.
  induction pages as [|p rest IH]; intros first last results tr fuel Hshaped Hchain Hserves.
  - simpl in *. subst last. rewrite !app_nil_r. reflexivity.
  - simpl in Hshaped. apply andb_prop in Hshaped as [Hp Hrest].
    destruct Hchain as [Hurl Hchain]. apply serves_head in Hserves as [Hanswer Hserves].
    apply results_page_inv in Hp as (Htruthy & H2xx & doc & Hbody & Hresults & Hnext).
    cbn [length Nat.add]. rewrite results_loop_S.
    rewrite <- Hurl, Htruthy. cbn [negb].
    rewrite (make_request_answered "GET" (page_url p) client None tr (page_response p)
               GET_is_a_method Hanswer).
    rewrite H2xx. unfold Lms.json_of. rewrite Hbody, Hresults. cbn [py_iter].
    rewrite Hnext.
    change {| Lms.req_method := "GET"; Lms.req_url := page_url p; Lms.req_json := None |}
      with (page_request p).
    rewrite (IH _ last (results ++ page_results p)%list (tr ++ [page_request p])%list fuel
               Hrest Hchain Hserves).
    cbn [map concat]. rewrite <- !app_assoc. reflexivity.
Qed.


(** A page without [results] makes the call raise KeyError: the results of
    the pages before it are lost. *)
Theorem paginated_results_missing_key (client : Lms.Session) (url broken : pyval)
    (pages : list Page) (response : Response) (fields : list (string * pyval))
    (tr : list Lms.Request) (fuel : nat) :
  forallb results_page pages = true ->
  chain url pages broken ->
  serves client tr pages ->
  truthy broken = true ->
  Lms.respond client (tr ++ map page_request pages)%list (get_request broken)
  = inr response ->
  status_2xx response = true ->
  json_body response = Some (VDict fields) ->
  dict_lookup "results" fields = None ->
  (length pages < fuel)%nat ->
  _get_all_paginated_results fuel url (Some client) tr
  = Some (inl (Lms.KeyError "results"),
          (tr ++ map page_request pages ++ [get_request broken])%list).
Proof.
  intros Hshaped Hchain Hserves Htruthy Hanswer H2xx Hbody Hmissing Hfuel.
  unfold Lms._get_all_paginated_results, Lms.tret.
  replace fuel with (length pages + S (fuel - S (length pages)))%nat by lia.
  rewrite (results_loop_chain client pages url broken [] tr _ Hshaped Hchain Hserves).
  rewrite results_loop_S, Htruthy. cbn [negb].
  rewrite (make_request_answered "GET" broken client None _ response GET_is_a_method Hanswer).
  rewrite H2xx. unfold Lms.json_of. rewrite Hbody.
  unfold Lms.py_getitem. rewrite Hmissing. rewrite <- app_assoc. reflexivity.
Qed.

(** A page that names itself as [next] keeps the loop going for ever: no
    amount of fuel gives a result. *)
Theorem paginated_results_cycle (client : Lms.Session) (p : Page) :
  results_page p = true ->
  page_next p = page_url p ->
  (forall tr, Lms.respond client tr (page_request p) = inr (page_response p)) ->
  forall (fuel : nat) (results : list pyval) (tr : list Lms.Request),
    results_loop fuel client (page_url p) results tr = None.
Proof.
  intros Hp Hself Hanswer fuel.
  induction fuel as [|fuel IH]; intros results tr; [reflexivity|].
  assert (Hstep := results_loop_chain client [p] (page_url p) (page_next p) results tr fuel).
  cbn [length Nat.add] in Hstep. rewrite Hstep.
  - rewrite Hself. apply IH.
  - simpl. rewrite Hp. reflexivity.
  - split; reflexivity.
  - intros [|i] q Hq; simpl in Hq; [|discriminate]. injection Hq as <-. apply Hanswer.
Qed.

Lemma responses_loop_S (fuel : nat) (client : Lms.Session) (expected_error_codes : list Z)
    (next_url : pyval) (responses : list (option Response)) (tr : list Lms.Request) :
  responses_loop (S fuel) client expected_error_codes next_url responses tr
  = if negb (truthy next_url) then Some (inr responses, tr)
    else
      let '(outcome, tr') := make_request "GET" next_url (Some client) None tr in
      let handled :=
        match outcome with
        | inr response => inr response
        | inl e =>
            match Lms.caught_HTTPError e with
            | Some response =>
                if bool_decide (status_code response ∈ expected_error_codes)
                then inr (Some response)
                else inl e
            | None => inl e
            end
        end in
      match handled with
      | inl e => Some (inl e, tr')
      | inr response =>
          match Lms.json_of response with
          | inl e => Some (inl e, tr')
          | inr data =>
              match Lms.get_next data with
              | inl e => Some (inl e, tr')
              | inr next =>
                  responses_loop fuel client expected_error_codes next
                    (responses ++ [response])%list tr'
              end
          end
      end.
Proof. reflexivity. Qed.

(** Over accepted pages that follow one another, the loop gathers the
    responses and goes on from the [next] of the last page. *)
Lemma responses_loop_chain (client : Lms.Session) (expected : list Z) (pages : list Page) :
  forall (first last : pyval) (responses : list (option Response)) (tr : list Lms.Request)
         (fuel : nat),
    forallb (accepted_page expected) pages = true ->
    chain first pages last ->
    serves client tr pages ->
    responses_loop (length pages + fuel) client expected first responses tr
    = responses_loop fuel client expected last
        (responses ++ map (fun p => Some (page_response p)) pages)%list
        (tr ++ map page_request pages)%list.
Proof.
  induction pages as [|p rest IH]; intros first last responses tr fuel Hshaped Hchain Hserves.
  - simpl in *. subst last. rewrite !app_nil_r. reflexivity.
  - simpl in Hshaped. apply andb_prop in Hshaped as [Hp Hrest].
    destruct Hchain as [Hurl Hchain]. apply serves_head in Hserves as [Hanswer Hserves].
    unfold accepted_page in Hp.
    apply andb_prop in Hp as [[Htruthy Hdict]%andb_prop Hstatus].
    cbn [length Nat.add]. rewrite responses_loop_S.
    rewrite <- Hurl, Htruthy. cbn [negb].
    rewrite (make_request_answered "GET" (page_url p) client None tr (page_response p)
               GET_is_a_method Hanswer).
    change {| Lms.req_method := "GET"; Lms.req_url := page_url p; Lms.req_json := None |}
      with (page_request p).
    assert (Hjson : Lms.json_of (Some (page_response p)) = inr (page_document p)
                    /\ Lms.get_next (page_document p) = inr (page_next p)).
    { unfold page_next, page_document in *. unfold Lms.json_of.
      destruct (json_body (page_response p)) as [doc|]; [|discriminate].
      destruct doc as [| | | | |fields]; try discriminate.
      split; [reflexivity|]. unfold Lms.get_next, py_get, field.
      destruct (dict_lookup "next" fields); reflexivity. }
    destruct Hjson as [Hjson Hnext].
    assert (Hgo : responses_loop (length rest + fuel) client expected (page_next p)
                    (responses ++ [Some (page_response p)])%list (tr ++ [page_request p])%list
                  = responses_loop fuel client expected last
                      (responses ++ map (fun p => Some (page_response p)) (p :: rest))%list
                      (tr ++ map page_request (p :: rest))%list).
    { rewrite (IH _ last _ _ fuel Hrest Hchain Hserves).
      cbn [map]. rewrite <- !app_assoc. reflexivity. }
    destruct (status_2xx (page_response p)) eqn:H2xx.
    + cbv zeta. rewrite Hjson, Hnext. exact Hgo.
    + simpl in Hstatus. apply andb_prop in Hstatus as [H4xx Hexpected].
      rewrite H4xx. cbv zeta. cbn [Lms.caught_HTTPError]. rewrite Hexpected.
      rewrite Hjson, Hnext. exact Hgo.
Qed.

(** The responses of a paginated endpoint come back in the order of the
    requests, one request a page; a page answered with an error status that
    is among the expected codes is kept like any other, and its body names
    the next page. *)
Theorem paginated_responses_in_order (client : Lms.Session) (url last : pyval)
    (expected_error_codes : option (list Z)) (pages : list Page) (tr : list Lms.Request)
    (fuel : nat) :
  forallb (accepted_page (default [] expected_error_codes)) pages = true ->
  chain url pages last ->
  truthy last = false ->
  serves client tr pages ->
  (length pages < fuel)%nat ->
  _get_all_paginated_responses fuel url (Some client) expected_error_codes tr
  = Some (inr (map (fun p => Some (page_response p)) pages),
          (tr ++ map page_request pages)%list).
Proof.
  intros Hshaped Hchain Hlast Hserves Hfuel.
  unfold Lms._get_all_paginated_responses, Lms.tret.
  replace fuel with (length pages + S (fuel - S (length pages)))%nat by lia.
  rewrite (responses_loop_chain client _ pages url last [] tr _ Hshaped Hchain Hserves).
  rewrite responses_loop_S, Hlast. reflexivity.
Qed.

(** An error status that is not among the expected codes, and with no codes
    given any error status, makes the call raise the HTTPError of that
    response: the responses gathered before are lost. *)
Theorem paginated_responses_unexpected_error (client : Lms.Session) (url failing : pyval)
    (expected_error_codes : option (list Z)) (pages : list Page) (response : Response)
    (tr : list Lms.Request) (fuel : nat) :
  forallb (accepted_page (default [] expected_error_codes)) pages = true ->
  chain url pages failing ->
  serves client tr pages ->
  truthy failing = true ->
  Lms.respond client (tr ++ map page_request pages)%list (get_request failing)
  = inr response ->
  status_4xx_5xx response = true ->
  status_code response ∉ default [] expected_error_codes ->
  (length pages < fuel)%nat ->
  _get_all_paginated_responses fuel url (Some client) expected_error_codes tr
  = Some (inl (Lms.HTTPErrorFor response),
          (tr ++ map page_request pages ++ [get_request failing])%list).
Proof.
  intros Hshaped Hchain Hserves Htruthy Hanswer H4xx Hunexpected Hfuel.
  unfold Lms._get_all_paginated_responses, Lms.tret.
  replace fuel with (length pages + S (fuel - S (length pages)))%nat by lia.
  rewrite (responses_loop_chain client _ pages url failing [] tr _ Hshaped Hchain Hserves).
  rewrite responses_loop_S, Htruthy. cbn [negb].
  rewrite (make_request_answered "GET" failing client None _ response GET_is_a_method Hanswer).
  assert (H2xx : status_2xx response = false).
  { unfold status_2xx, status_4xx_5xx in *.
    apply andb_prop in H4xx as [Hlo%Z.leb_le _].
    apply andb_false_iff. right. apply Z.ltb_ge. lia. }
  rewrite H2xx, H4xx. cbv zeta. cbn [Lms.caught_HTTPError].
  rewrite bool_decide_eq_false_2 by exact Hunexpected.
  rewrite <- app_assoc. reflexivity.
Qed.

End HelperProperties.

(** ** Batched writes *)

Lemma py_range_positive (stop step : Z) :
  (0 < step)%Z ->
  Lms.py_range 0 stop step
  = inr (map (fun j => (Z.of_nat j * step)%Z) (seq 0 (Z.to_nat ((stop + step - 1) / step)))).
Proof.
  intros Hstep. unfold Lms.py_range.
  destruct (Z.eqb_spec step 0); [lia|].
  destruct (Z.ltb_spec 0 step); [|lia].
  f_equal. rewrite Z.sub_0_r. apply map_ext. intros j. lia.
Qed.

Lemma py_slice_chunk (items : list pyval) (k : Z) (j : nat) :
  (0 < k)%Z ->
  Lms.py_slice items (Z.of_nat j * k) (Z.of_nat j * k + k)
  = take (Z.to_nat k) (drop (j * Z.to_nat k) items).
Proof.
  intros Hk. unfold Lms.py_slice, Lms.slice_bound, Lms.len.
  assert (Hi : (0 <= Z.of_nat j * k)%Z) by nia.
  destruct (Z.ltb_spec (Z.of_nat j * k) 0); [lia|].
  destruct (Z.ltb_spec (Z.of_nat j * k + k) 0); [lia|].
  assert (HjK : Z.of_nat (j * Z.to_nat k) = (Z.of_nat j * k)%Z) by nia.
  destruct (Z.le_gt_cases (Z.of_nat (length items)) (Z.of_nat j * k)) as [Hout|Hin].
  - rewrite !Z.min_r by lia. rewrite Z.sub_diag. simpl.
    rewrite (drop_ge items (j * Z.to_nat k)) by lia. rewrite take_nil. reflexivity.
  - rewrite (Z.min_l (Z.of_nat j * k)) by lia.
    replace (Z.to_nat (Z.of_nat j * k)) with (j * Z.to_nat k)%nat by lia.
    destruct (Z.le_gt_cases (Z.of_nat j * k + k) (Z.of_nat (length items))) as [Hfull|Hpart].
    + rewrite Z.min_l by lia. f_equal. lia.
    + rewrite Z.min_r by lia.
      rewrite !take_ge; [reflexivity|rewrite length_drop; lia|rewrite length_drop; lia].
Qed.

Lemma concat_chunks (items : list pyval) (K c : nat) :
  concat (map (fun j => take K (drop (j * K) items)) (seq 0 c)) = take (c * K) items.
Proof.
  induction c as [|c IH]; [reflexivity|].
  rewrite seq_S, map_app, concat_app, IH. simpl.
  rewrite app_nil_r, take_take_drop. f_equal. lia.
Qed.

(** The number of batches and where the last one starts. *)
Lemma batch_count (n k : Z) :
  (0 <= n)%Z -> (0 < k)%Z ->
  let c := ((n + k - 1) / k)%Z in
  (0 <= c /\ n <= c * k /\ (c - 1) * k < n)%Z.
Proof.
  intros Hn Hk c.
  pose proof (Z.div_mod (n + k - 1) k ltac:(lia)) as Hdm.
  pose proof (Z.mod_pos_bound (n + k - 1) k Hk) as Hmod.
  fold c in Hdm. nia.
Qed.

Section BatchProperties.

Variable LMS_BASE_URL : string.
Variable w : World.

Local Abbreviation make_request := (Lms._make_request LMS_BASE_URL w).
Local Abbreviation batch_loop := (Lms.batch_loop LMS_BASE_URL w).
Local Abbreviation _do_batched_lms_write := (Lms._do_batched_lms_write LMS_BASE_URL w).

Lemma batch_loop_cons (method : string) (url : pyval) (items : list pyval) (k : Z)
    (client : Lms.Session) (i : Z) (rest : list Z) (responses : list (option Response))
    (tr : list Lms.Request) :
  batch_loop method url items k client (i :: rest) responses tr
  = match make_request method url (Some client) (Some (Lms.py_slice items i (i + k))) tr with
    | (inr response, tr') =>
        batch_loop method url items k client rest (responses ++ [response])%list tr'
    | (inl e, tr') =>
        match Lms.caught_HTTPError e with
        | Some response =>
            batch_loop method url items k client rest (responses ++ [Some response])%list tr'
        | None => (inl e, tr')
        end
    end.
Proof. reflexivity. Qed.

(** What [_make_request] does with a client that raises. *)
Lemma make_request_raised (method : string) (url : pyval) (client : Lms.Session)
    (json_ : option (list pyval)) (tr : list Lms.Request) (e : Lms.raised) :
  method ∈ http_methods ->
  Lms.respond client tr
    {| Lms.req_method := method; Lms.req_url := url; Lms.req_json := json_ |}
  = inl e ->
  make_request method url (Some client) json_ tr
  = (inl e,
     (tr ++ [{| Lms.req_method := method; Lms.req_url := url; Lms.req_json := json_ |}])%list).
Proof.
  intros Hm Hr. unfold Lms._make_request.
  rewrite bool_decide_eq_true_2 by exact Hm. simpl.
  unfold Lms.tbind, Lms.tret, Lms.send. rewrite Hr. reflexivity.
Qed.

(** As long as the client answers or raises an HTTPError, the loop goes
    through the starts it is given, with one request each, and appends for
    each what the client answered to that request: the response, be its
    status an error, and nothing for a status that is neither 2xx nor 4xx or
    5xx, for which [_make_request] returns nothing. *)
Lemma batch_loop_answers (method : string) (url : pyval) (items : list pyval) (k : Z)
    (client : Lms.Session) (bound : nat) (pre : list Z) :
  method ∈ http_methods ->
  (forall h r, (length h < bound)%nat ->
               match Lms.respond client h r with
               | inr _ => True
               | inl e => is_Some (Lms.caught_HTTPError e)
               end) ->
  forall (responses : list (option Response)) (tr : list Lms.Request),
    (length tr + length pre <= bound)%nat ->
    exists rs,
      length rs = length pre
      /\ (forall i start,
            pre !! i = Some start ->
            match Lms.respond client
                    (tr ++ map (fun i => write_request method url (Lms.py_slice items i (i + k)))
                           (take i pre))%list
                    (write_request method url (Lms.py_slice items start (start + k))) with
            | inr response =>
                rs !! i = Some (if status_2xx response || status_4xx_5xx response
                                then Some response else None)
            | inl e =>
                exists response,
                  Lms.caught_HTTPError e = Some response /\ rs !! i = Some (Some response)
            end)
      /\ forall rest,
          batch_loop method url items k client (pre ++ rest) responses tr
          = batch_loop method url items k client rest (responses ++ rs)%list
              (tr ++ map (fun i => write_request method url (Lms.py_slice items i (i + k)))
                     pre)%list.
Proof.
  intros Hm Hanswers. induction pre as [|i pre IH]; intros responses tr Hbound.
  - exists []. split; [reflexivity|]. split; [intros j start Hj; discriminate|].
    intros rest. simpl. rewrite !app_nil_r. reflexivity.
  - simpl in Hbound.
    pose proof (Hanswers tr (write_request method url (Lms.py_slice items i (i + k)))
                  ltac:(lia)) as Hanswer.
    assert (Hlen : (length (tr ++ [write_request method url (Lms.py_slice items i (i + k))])
                    + length pre <= bound)%nat)
      by (rewrite length_app; simpl; lia).
    assert (Hstep : forall (x : option Response) (rs : list (option Response)),
               match Lms.respond client tr
                       (write_request method url (Lms.py_slice items i (i + k))) with
               | inr response =>
                   x = (if status_2xx response || status_4xx_5xx response
                        then Some response else None)
               | inl e =>
                   exists response, Lms.caught_HTTPError e = Some response /\ x = Some response
               end ->
               (forall j start,
                   pre !! j = Some start ->
                   match Lms.respond client
                           ((tr ++ [write_request method url (Lms.py_slice items i (i + k))])
                            ++ map (fun i => write_request method url
                                               (Lms.py_slice items i (i + k)))
                                 (take j pre))%list
                           (write_request method url (Lms.py_slice items start (start + k))) with
                   | inr response =>
                       rs !! j = Some (if status_2xx response || status_4xx_5xx response
                                       then Some response else None)
                   | inl e =>
                       exists response,
                         Lms.caught_HTTPError e = Some response
                         /\ rs !! j = Some (Some response)
                   end) ->
               forall j start,
                 (i :: pre) !! j = Some start ->
                 match Lms.respond client
                         (tr ++ map (fun i => write_request method url
                                                (Lms.py_slice items i (i + k)))
                                (take j (i :: pre)))%list
                         (write_request method url (Lms.py_slice items start (start + k))) with
                 | inr response =>
                     (x :: rs) !! j = Some (if status_2xx response || status_4xx_5xx response
                                            then Some response else None)
                 | inl e =>
                     exists response,
                       Lms.caught_HTTPError e = Some response
                       /\ (x :: rs) !! j = Some (Some response)
                 end).
    { intros x rs Hhead Htail [|j] start Hj.
      - injection Hj as <-. cbn [take map]. rewrite app_nil_r.
        destruct (Lms.respond client tr
                    (write_request method url (Lms.py_slice items i (i + k)))) as [e|response].
        + destruct Hhead as (response & Hcaught & ->). exists response. split; [exact Hcaught|].
          reflexivity.
        + rewrite Hhead. reflexivity.
      - cbn [take map]. specialize (Htail j start Hj).
        rewrite <- app_assoc in Htail. exact Htail. }
    destruct (Lms.respond client tr (write_request method url (Lms.py_slice items i (i + k))))
      as [e|response] eqn:Hr.
    + destruct Hanswer as [caught Hcaught].
      destruct (IH (responses ++ [Some caught])%list _ Hlen) as (rs & Hrs & Hpoint & Hloop).
      exists (Some caught :: rs). split; [simpl; lia|]. split.
      { apply Hstep; [|exact Hpoint]. exists caught. split; [exact Hcaught|reflexivity]. }
      intros rest. cbn [app]. rewrite batch_loop_cons.
      rewrite (make_request_raised method url client _ tr e Hm Hr).
      rewrite Hcaught. rewrite Hloop. cbn [map]. rewrite <- !app_assoc. reflexivity.
    + pose proof (make_request_answered LMS_BASE_URL w method url client _ tr response Hm Hr)
        as Hmake.
      destruct (status_2xx response).
      * destruct (IH (responses ++ [Some response])%list _ Hlen) as (rs & Hrs & Hpoint & Hloop).
        exists (Some response :: rs). split; [simpl; lia|]. split.
        { apply Hstep; [reflexivity|exact Hpoint]. }
        intros rest. cbn [app]. rewrite batch_loop_cons, Hmake, Hloop.
        cbn [map]. rewrite <- !app_assoc. reflexivity.
      * destruct (status_4xx_5xx response).
        -- destruct (IH (responses ++ [Some response])%list _ Hlen)
             as (rs & Hrs & Hpoint & Hloop).
           exists (Some response :: rs). split; [simpl; lia|]. split.
           { apply Hstep; [reflexivity|exact Hpoint]. }
           intros rest. cbn [app]. rewrite batch_loop_cons, Hmake.
           cbn [Lms.caught_HTTPError]. rewrite Hloop.
           cbn [map]. rewrite <- !app_assoc. reflexivity.
        -- destruct (IH (responses ++ [None])%list _ Hlen) as (rs & Hrs & Hpoint & Hloop).
           exists (None :: rs). split; [simpl; lia|]. split.
           { apply Hstep; [reflexivity|exact Hpoint]. }
           intros rest. cbn [app]. rewrite batch_loop_cons, Hmake, Hloop.
           cbn [map]. rewrite <- !app_assoc. reflexivity.
Qed.

Lemma batch_loop_app (method : string) (url : pyval) (items : list pyval) (k : Z)
    (client : Lms.Session) (bound : nat) (pre : list Z) :
  method ∈ http_methods ->
  (forall h r, (length h < bound)%nat ->
               match Lms.respond client h r with
               | inr _ => True
               | inl e => is_Some (Lms.caught_HTTPError e)
               end) ->
  forall (responses : list (option Response)) (tr : list Lms.Request),
    (length tr + length pre <= bound)%nat ->
    exists rs,
      length rs = length pre
      /\ forall rest,
          batch_loop method url items k client (pre ++ rest) responses tr
          = batch_loop method url items k client rest (responses ++ rs)%list
              (tr ++ map (fun i => write_request method url (Lms.py_slice items i (i + k)))
                     pre)%list.
Proof.
  intros Hm Hanswers responses tr Hbound.
  destruct (batch_loop_answers method url items k client bound pre Hm Hanswers responses tr
              Hbound) as (rs & Hrs & _ & Hloop).
  exists rs. split; [exact Hrs|exact Hloop].
Qed.

Lemma chunks_of_starts (items : list pyval) (k : Z) (c : nat) :
  (0 < k)%Z ->
  map (fun i => Lms.py_slice items i (i + k)) (map (fun j => (Z.of_nat j * k)%Z) (seq 0 c))
  = map (fun j => take (Z.to_nat k) (drop (j * Z.to_nat k) items)) (seq 0 c).
Proof.
  intros Hk. rewrite map_map. apply map_ext. intros j. apply py_slice_chunk, Hk.
Qed.

(** With a batch size above zero and a client that answers or raises an
    HTTPError, every item is sent once and in order: the bodies of the
    requests, put end to end, are the items; every body has at least one
    item and at most the batch size, and every body but the last has exactly
    the batch size.  There is one entry returned a request, in the order of
    the requests, and it is what the client answered to that request after
    the ones before it: the response itself when its status is 2xx, 4xx or
    5xx, the response of the HTTPError when the client raised one, and
    nothing ([None]) for a response of any other status. *)
Theorem batched_write_partitions_items (method : string) (url : pyval) (items : list pyval)
    (k : Z) (client : Lms.Session) (tr : list Lms.Request) :
  method ∈ http_methods ->
  (0 < k)%Z ->
  answers client ->
  exists responses batches,
    _do_batched_lms_write method url items k (Some client) tr
    = (inr responses, (tr ++ map (write_request method url) batches)%list)
    /\ concat batches = items
    /\ length responses = length batches
    /\ Z.of_nat (length batches) = ((Lms.len items + k - 1) / k)%Z
    /\ (forall i b,
          batches !! i = Some b ->
          (0 < length b <= Z.to_nat k)%nat
          /\ ((S i < length batches)%nat -> length b = Z.to_nat k))
    /\ forall i b,
        batches !! i = Some b ->
        match Lms.respond client (tr ++ map (write_request method url) (take i batches))%list
                (write_request method url b) with
        | inr response =>
            responses !! i = Some (if status_2xx response || status_4xx_5xx response
                                   then Some response else None)
        | inl e =>
            exists response,
              Lms.caught_HTTPError e = Some response
              /\ responses !! i = Some (Some response)
        end.
Proof.
  intros Hm Hk Hanswers.
  pose proof (batch_count (Lms.len items) k ltac:(unfold Lms.len; lia) Hk) as (Hc0 & Hcn & Hcl).
  set (c := Z.to_nat ((Lms.len items + k - 1) / k)) in *.
  assert (Hc : Z.of_nat c = ((Lms.len items + k - 1) / k)%Z) by (unfold c; lia).
  set (starts := map (fun j => (Z.of_nat j * k)%Z) (seq 0 c)).
  destruct (batch_loop_answers method url items k client (length tr + length starts) starts Hm
              (fun h r _ => Hanswers h r) [] tr ltac:(lia)) as (rs & Hrs & Hpoint & Hloop).
  exists rs, (map (fun i => Lms.py_slice items i (i + k)) starts).
  split; [|split; [|split; [|split; [|split]]]].
  - unfold Lms._do_batched_lms_write, Lms.tbind, Lms.tret.
    rewrite py_range_positive by exact Hk. fold c. fold starts.
    rewrite <- (app_nil_r starts) at 1. rewrite Hloop. simpl.
    rewrite map_map. reflexivity.
  - unfold starts. rewrite chunks_of_starts by exact Hk.
    rewrite concat_chunks. apply take_ge. unfold Lms.len in *. nia.
  - rewrite Hrs, length_map. reflexivity.
  - unfold starts. rewrite !length_map, length_seq. exact Hc.
  - unfold starts. rewrite chunks_of_starts by exact Hk.
    rewrite !length_map, length_seq. intros i b Hb.
    apply list_lookup_fmap_Some in Hb as (j & Hb & Hj).
    apply lookup_seq in Hj as [-> Hi]. simpl in Hb. subst b.
    rewrite length_take, length_drop. unfold Lms.len in *. split; [nia|]. intros Hnext. nia.
  - intros i b Hb.
    apply list_lookup_fmap_Some in Hb as (start & -> & Hstart).
    specialize (Hpoint i start Hstart).
    rewrite firstn_map, map_map. exact Hpoint.
Qed.


(** When the client raises something that is no HTTPError at the request of
    index [j], the call raises it: the batches up to that one have been sent,
    and the responses to those before it are lost. *)
Theorem batched_write_aborts (method : string) (url : pyval) (items : list pyval) (k : Z)
    (client : Lms.Session) (j : nat) (e : Lms.raised) :
  method ∈ http_methods ->
  (0 < k)%Z ->
  (Z.of_nat j * k < Lms.len items)%Z ->
  (forall h r, (length h < j)%nat ->
               match Lms.respond client h r with
               | inr _ => True
               | inl e' => is_Some (Lms.caught_HTTPError e')
               end) ->
  (forall h r, length h = j -> Lms.respond client h r = inl e) ->
  Lms.caught_HTTPError e = None ->
  exists batches,
    _do_batched_lms_write method url items k (Some client) []
    = (inl e, map (write_request method url) batches)
    /\ length batches = S j
    /\ concat batches = take (S j * Z.to_nat k) items.
Proof.
  intros Hm Hk Hj Hbefore Hraise Hcaught.
  pose proof (batch_count (Lms.len items) k ltac:(unfold Lms.len; lia) Hk) as (Hc0 & Hcn & Hcl).
  set (c := Z.to_nat ((Lms.len items + k - 1) / k)) in *.
  assert (Hjc : (j < c)%nat) by (unfold c; nia).
  set (f := fun j => (Z.of_nat j * k)%Z).
  set (slice := fun i => Lms.py_slice items i (i + k)).
  assert (Hsplit : map f (seq 0 c) = (map f (seq 0 j) ++ f j :: map f (seq (S j) (c - S j)))%list).
  { replace c with (j + S (c - S j))%nat at 1 by lia.
    rewrite seq_app, map_app. reflexivity. }
  destruct (batch_loop_app method url items k client j (map f (seq 0 j)) Hm Hbefore [] []
              ltac:(rewrite length_map, length_seq; simpl; lia)) as (rs & Hrs & Hloop).
  exists (map slice (map f (seq 0 (S j)))).
  split; [|split].
  - unfold Lms._do_batched_lms_write, Lms.tbind, Lms.tret.
    rewrite py_range_positive by exact Hk. fold c. fold f. rewrite Hsplit, Hloop.
    rewrite batch_loop_cons.
    rewrite (make_request_raised method url client _ _ e Hm)
      by (apply Hraise; simpl; rewrite !length_map, length_seq; reflexivity).
    rewrite Hcaught. rewrite seq_S, !map_app. simpl. rewrite !map_map. reflexivity.
  - rewrite !length_map, length_seq. reflexivity.
  - unfold slice, f. rewrite chunks_of_starts by exact Hk. apply concat_chunks.
Qed.

End BatchProperties.

(** * The further statements on the sample data *)

Lemma read_from_discovery_other_status_witness :
  request (Sample.failing_client 302) "GET" (program_url Sample.DISCOVERY_BASE_URL "p1")
  = inr {| status_code := 302; json_body := None |}
  /\ read_from_discovery Sample.DISCOVERY_BASE_URL Sample.LMS_BASE_URL "p1"
       (Some (Sample.failing_client 302)) Sample.world
     = (inl AttributeError, add_fetch "p1" Sample.world).
Proof.
  split; [reflexivity|].
  apply (read_from_discovery_other_status Sample.DISCOVERY_BASE_URL Sample.LMS_BASE_URL "p1"
           (Sample.failing_client 302) {| status_code := 302; json_body := None |}
           Sample.world); [reflexivity|simpl; lia].
Defined.

Lemma from_json_raises_attribute_or_type_error_witness :
  from_json DiscoveryProgram_cls "p1" (VDict [("curricula", VInt 3)]) Sample.world
  = (inl TypeError, Sample.world)
  /\ (TypeError = AttributeError \/ TypeError = TypeError)
  /\ Sample.world = Sample.world.
Proof.
  split; [reflexivity|].
  exact (from_json_raises_attribute_or_type_error DiscoveryProgram_cls "p1"
           (VDict [("curricula", VInt 3)]) Sample.world Sample.world TypeError eq_refl).
Defined.

Lemma course_key_round_trip_witness :
  NoDup (identifiers (course_runs Sample.program))
  /\ Sample.record_b1 ∈ course_runs Sample.program
  /\ get_external_course_key Sample.program "course-v1:B+1" = VStr "ext-B-1"
  /\ get_course_key Sample.program "ext-B-1" = VStr "course-v1:B+1"
  /\ get_course_key Sample.program "course-v1:B+1" = VStr "course-v1:B+1"
  /\ get_external_course_key Sample.program "ext-B-1" = VStr "ext-B-1".
Proof.
  assert (Hnodup : NoDup (identifiers (course_runs Sample.program)))
    by (apply (bool_decide_unpack _); vm_compute; exact I).
  assert (Hin : Sample.record_b1 ∈ course_runs Sample.program)
    by (apply list_elem_of_further, list_elem_of_here).
  split; [exact Hnodup|]. split; [exact Hin|].
  exact (course_key_round_trip Sample.program Sample.record_b1 "course-v1:B+1" "ext-B-1"
           Hnodup Hin eq_refl eq_refl).
Defined.

Lemma parsed_course_run_is_found_witness :
  payload_shaped Sample.payload = true
  /\ exists p found,
       fst (from_json DiscoveryProgram_cls "p1" Sample.payload Sample.world) = inr p
       /\ find_course_run p "ext-B-2" = Some found
       /\ matches "ext-B-2" found.
Proof.
  split; [reflexivity|].
  apply (parsed_course_run_is_found DiscoveryProgram_cls "p1" Sample.payload
           Sample.active_curriculum
           (VDict [("course_runs", VList [Sample.run_b1; Sample.run_b2])]) Sample.run_b2
           "ext-B-2" Sample.world).
  - reflexivity.
  - reflexivity.
  - apply list_elem_of_further, list_elem_of_here.
  - apply list_elem_of_further, list_elem_of_here.
  - right. reflexivity.
Defined.

Lemma program_cache_key_of_template_witness :
  no_brace "program:" = true
  /\ program_cache_key "program:{uuid}" "p1" = "program:p1"
  /\ forall other,
      program_cache_key "program:{uuid}" other = program_cache_key "program:{uuid}" "p1" ->
      other = "p1".
Proof.
  split; [reflexivity|].
  exact (program_cache_key_of_template "program:" "" "p1" eq_refl eq_refl).
Defined.

Lemma program_url_closed_form_witness :
  no_brace "https://discovery.example" = true
  /\ program_url "https://discovery.example" "p1"
     = "https://discovery.example/api/v1/programs/p1/"
  /\ program_url "https://discovery.example/" "p1"
     = "https://discovery.example/api/v1/programs/p1/".
Proof.
  split; [reflexivity|]. split.
  - exact (program_url_closed_form "https://discovery.example" "p1" eq_refl).
  - exact (program_url_closed_form "https://discovery.example/" "p1" eq_refl).
Defined.

Lemma warm_world_keyed : cache_keyed Sample.PROGRAM_CACHE_KEY_TPL Sample.warm_world.
Proof.
  intros k e Hk. unfold Sample.warm_world in Hk. cbn [cache] in Hk.
  apply lookup_singleton_Some in Hk as [<- <-]. reflexivity.
Qed.

Lemma get_touches_only_its_key_witness :
  "program:p1" <> program_cache_key Sample.PROGRAM_CACHE_KEY_TPL "p2"
  /\ cache (snd (sample_get DiscoveryProgram_cls "p2" (Some Sample.client) Sample.warm_world))
     !! "program:p1"
     = cache Sample.warm_world !! "program:p1"
  /\ clock (snd (sample_get DiscoveryProgram_cls "p2" (Some Sample.client) Sample.warm_world))
     = clock Sample.warm_world.
Proof.
  assert (Hne : "program:p1" <> program_cache_key Sample.PROGRAM_CACHE_KEY_TPL "p2")
    by discriminate.
  split; [exact Hne|].
  exact (get_touches_only_its_key Sample.DISCOVERY_BASE_URL Sample.LMS_BASE_URL
           Sample.PROGRAM_CACHE_KEY_TPL Sample.PROGRAM_CACHE_TIMEOUT DiscoveryProgram_cls "p2"
           (Some Sample.client) Sample.warm_world "program:p1" Hne).
Defined.

Lemma get_keeps_cache_keyed_witness :
  cache_keyed Sample.PROGRAM_CACHE_KEY_TPL Sample.warm_world
  /\ cache_keyed Sample.PROGRAM_CACHE_KEY_TPL
       (snd (sample_get DiscoveryProgram_cls "p2" (Some Sample.client) Sample.warm_world))
  /\ forall p,
      fst (sample_get DiscoveryProgram_cls "p2" (Some Sample.client) Sample.warm_world) = inr p ->
      program_cache_key Sample.PROGRAM_CACHE_KEY_TPL (uuid p)
      = program_cache_key Sample.PROGRAM_CACHE_KEY_TPL "p2".
Proof.
  split; [exact warm_world_keyed|].
  exact (get_keeps_cache_keyed Sample.DISCOVERY_BASE_URL Sample.LMS_BASE_URL
           Sample.PROGRAM_CACHE_KEY_TPL Sample.PROGRAM_CACHE_TIMEOUT DiscoveryProgram_cls "p2"
           (Some Sample.client) Sample.warm_world warm_world_keyed).
Defined.

Lemma get_after_timeout_fetches_witness :
  Sample.PROGRAM_CACHE_TIMEOUT = Some 3600
  /\ sample_get DiscoveryProgram_cls "p1" (Some Sample.client) Sample.world
     = (inr Sample.program, Sample.warm_world)
  /\ cache_lookup (sample_key "p1") (later 3600 Sample.no_service Sample.warm_world) = None
  /\ fetches (snd (sample_get DiscoveryProgram_cls "p1" (Some Sample.client)
                     (later 3600 Sample.no_service Sample.warm_world)))
     = ["p1"; "p1"].
Proof.
  assert (Hget : sample_get DiscoveryProgram_cls "p1" (Some Sample.client) Sample.world
                 = (inr Sample.program, Sample.warm_world)) by (vm_compute; reflexivity).
  destruct (get_after_timeout_fetches Sample.DISCOVERY_BASE_URL Sample.LMS_BASE_URL
              Sample.PROGRAM_CACHE_KEY_TPL Sample.PROGRAM_CACHE_TIMEOUT DiscoveryProgram_cls
              "p1" (Some Sample.client) (Some Sample.client) Sample.world Sample.warm_world
              Sample.program 3600 3600 Sample.no_service eq_refl I Hget ltac:(lia))
    as (Hgone & _ & Hfetch).
  split; [reflexivity|]. split; [exact Hget|]. split; [exact Hgone|exact Hfetch].
Defined.

Local Abbreviation sample_results :=
  (Lms._get_all_paginated_results Sample.LMS_BASE_URL Sample.world).

Local Abbreviation sample_responses :=
  (Lms._get_all_paginated_responses Sample.LMS_BASE_URL Sample.world).

Local Abbreviation sample_write :=
  (Lms._do_batched_lms_write Sample.LMS_BASE_URL Sample.world).

Lemma two_pages_serves (first second : Page) :
  page_url first = VStr LmsSample.first_url ->
  page_url second = VStr LmsSample.second_url ->
  serves (LmsSample.two_pages (page_response first) (page_response second)) []
    [first; second].
Proof.
  intros H1 H2 [|[|i]] p Hp; simpl in Hp; try discriminate; injection Hp as <-;
    unfold page_request; simpl; [rewrite H1|rewrite H2]; reflexivity.
Qed.


Lemma paginated_results_missing_key_witness :
  chain (VStr LmsSample.first_url) [LmsSample.first_page] (VStr LmsSample.second_url)
  /\ dict_lookup "results" [("count", VInt 0)] = None
  /\ sample_results 3 (VStr LmsSample.first_url)
       (Some (LmsSample.two_pages (page_response LmsSample.first_page)
                LmsSample.bare_response)) []
     = Some (inl (Lms.KeyError "results"),
             [get_request (VStr LmsSample.first_url);
              get_request (VStr LmsSample.second_url)]).
Proof.
  assert (Hchain : chain (VStr LmsSample.first_url) [LmsSample.first_page]
                     (VStr LmsSample.second_url)) by (repeat split).
  assert (Hserves : serves (LmsSample.two_pages (page_response LmsSample.first_page)
                              LmsSample.bare_response) [] [LmsSample.first_page]).
  { intros [|i] p Hp; simpl in Hp; try discriminate. injection Hp as <-. reflexivity. }
  split; [exact Hchain|]. split; [reflexivity|].
  exact (paginated_results_missing_key Sample.LMS_BASE_URL Sample.world _
           (VStr LmsSample.first_url) (VStr LmsSample.second_url) [LmsSample.first_page]
           LmsSample.bare_response [("count", VInt 0)] [] 3
           eq_refl Hchain Hserves eq_refl eq_refl eq_refl eq_refl eq_refl ltac:(simpl; lia)).
Defined.

Lemma paginated_results_cycle_witness :
  results_page LmsSample.looping_page = true
  /\ page_next LmsSample.looping_page = page_url LmsSample.looping_page
  /\ Lms.results_loop Sample.LMS_BASE_URL Sample.world 1000
       (LmsSample.two_pages (page_response LmsSample.looping_page) LmsSample.bare_response)
       (VStr LmsSample.first_url) [] []
     = None.
Proof.
  split; [reflexivity|]. split; [reflexivity|].
  exact (paginated_results_cycle Sample.LMS_BASE_URL Sample.world
           (LmsSample.two_pages (page_response LmsSample.looping_page) LmsSample.bare_response)
           LmsSample.looping_page eq_refl eq_refl (fun tr => eq_refl) 1000 [] []).
Defined.

(** A first page answered with 404, which is expected: kept, and followed. *)
Lemma paginated_responses_in_order_witness :
  forallb (accepted_page [404]) [LmsSample.missing_page; LmsSample.last_page] = true
  /\ sample_responses 3 (VStr LmsSample.first_url)
       (Some (LmsSample.two_pages (page_response LmsSample.missing_page)
                (page_response LmsSample.last_page))) (Some [404]) []
     = Some (inr [Some (page_response LmsSample.missing_page);
                  Some (page_response LmsSample.last_page)],
             [get_request (VStr LmsSample.first_url);
              get_request (VStr LmsSample.second_url)]).
Proof.
  assert (Hchain : chain (VStr LmsSample.first_url)
                     [LmsSample.missing_page; LmsSample.last_page] VNone)
    by (repeat split).
  split; [vm_compute; reflexivity|].
  refine (paginated_responses_in_order Sample.LMS_BASE_URL Sample.world _
            (VStr LmsSample.first_url) VNone (Some [404])
            [LmsSample.missing_page; LmsSample.last_page] [] 3
            _ Hchain eq_refl
            (two_pages_serves LmsSample.missing_page LmsSample.last_page eq_refl eq_refl)
            ltac:(simpl; lia)).
  vm_compute. reflexivity.
Defined.

(** The same first page when no error code is expected: the call raises. *)
Lemma paginated_responses_unexpected_error_witness :
  status_4xx_5xx (page_response LmsSample.missing_page) = true
  /\ sample_responses 3 (VStr LmsSample.first_url)
       (Some (LmsSample.two_pages (page_response LmsSample.missing_page)
                (page_response LmsSample.last_page))) None []
     = Some (inl (Lms.HTTPErrorFor (page_response LmsSample.missing_page)),
             [get_request (VStr LmsSample.first_url)]).
Proof.
  split; [reflexivity|].
  refine (paginated_responses_unexpected_error Sample.LMS_BASE_URL Sample.world
            (LmsSample.two_pages (page_response LmsSample.missing_page)
               (page_response LmsSample.last_page))
            (VStr LmsSample.first_url) (VStr LmsSample.first_url) None []
            (page_response LmsSample.missing_page) [] 3
            eq_refl eq_refl _ eq_refl eq_refl eq_refl _ ltac:(simpl; lia)).
  - intros i p Hp. destruct i; discriminate.
  - simpl. apply not_elem_of_nil.
Defined.

Lemma uneven_answers : answers LmsSample.uneven.
Proof. intros tr r. exact I. Qed.

(** Five items in batches of two, through a client that accepts the first
    request, refuses the second with a 409 and answers the third with a 304:
    three requests, of two, two and one item, and three entries, the second
    the response of the error and the third nothing. *)
Lemma batched_write_partitions_items_witness :
  "POST" ∈ http_methods
  /\ answers LmsSample.uneven
  /\ sample_write "POST" LmsSample.write_url LmsSample.items 2 (Some LmsSample.uneven) []
     = (inr [Some {| status_code := 201; json_body := None |};
             Some {| status_code := 409; json_body := None |};
             None],
        [write_request "POST" LmsSample.write_url [VStr "a"; VStr "b"];
         write_request "POST" LmsSample.write_url [VStr "c"; VStr "d"];
         write_request "POST" LmsSample.write_url [VStr "e"]])
  /\ exists responses batches,
       sample_write "POST" LmsSample.write_url LmsSample.items 2 (Some LmsSample.uneven) []
       = (inr responses, ([] ++ map (write_request "POST" LmsSample.write_url) batches)%list)
       /\ concat batches = LmsSample.items
       /\ length responses = length batches
       /\ Z.of_nat (length batches) = ((Lms.len LmsSample.items + 2 - 1) / 2)%Z
       /\ (forall i b,
             batches !! i = Some b ->
             (0 < length b <= Z.to_nat 2)%nat
             /\ ((S i < length batches)%nat -> length b = Z.to_nat 2))
       /\ forall i b,
           batches !! i = Some b ->
           match Lms.respond LmsSample.uneven
                   ([] ++ map (write_request "POST" LmsSample.write_url) (take i batches))%list
                   (write_request "POST" LmsSample.write_url b) with
           | inr response =>
               responses !! i = Some (if status_2xx response || status_4xx_5xx response
                                      then Some response else None)
           | inl e =>
               exists response,
                 Lms.caught_HTTPError e = Some response
                 /\ responses !! i = Some (Some response)
           end.
Proof.
  assert (Hm : "POST" ∈ http_methods) by (apply list_elem_of_further, list_elem_of_here).
  split; [exact Hm|]. split; [exact uneven_answers|]. split; [vm_compute; reflexivity|].
  exact (batched_write_partitions_items Sample.LMS_BASE_URL Sample.world "POST"
           LmsSample.write_url LmsSample.items 2 LmsSample.uneven [] Hm ltac:(lia)
           uneven_answers).
Defined.


(** The connection fails at the second of three batches: the first two
    batches have been sent, and the call raises. *)
Lemma batched_write_aborts_witness :
  Lms.caught_HTTPError LmsSample.connection_reset = None
  /\ exists batches,
       sample_write "POST" LmsSample.write_url LmsSample.items 2 (Some LmsSample.flaky) []
       = (inl LmsSample.connection_reset,
          map (write_request "POST" LmsSample.write_url) batches)
       /\ length batches = 2%nat
       /\ concat batches = take (2 * Z.to_nat 2) LmsSample.items.
Proof.
  assert (Hm : "POST" ∈ http_methods) by (apply list_elem_of_further, list_elem_of_here).
  split; [reflexivity|].
  refine (batched_write_aborts Sample.LMS_BASE_URL Sample.world "POST" LmsSample.write_url
            LmsSample.items 2 LmsSample.flaky 1 LmsSample.connection_reset Hm ltac:(lia)
            ltac:(vm_compute; reflexivity) _ _ eq_refl).
  - intros h r Hh. simpl. destruct h; [exact I|simpl in Hh; lia].
  - intros h r Hh. simpl. rewrite Hh. reflexivity.
Defined.

(** ** The two models of [_make_request] *)

(** On a client that answers by method and URL, and without a JSON body, the
    model of [_make_request] that keeps the response of an HTTPError does
    what the model of the first part does. *)
Lemma make_request_models_agree (LMS_BASE_URL : string) (w : World) (method url : string)
    (client : option Client) (tr : list Lms.Request) :
  same_outcome
    (fst (Lms._make_request LMS_BASE_URL w method (VStr url)
            (Lms.session_of_client <$> client) None tr))
    (fst (_make_request LMS_BASE_URL method url client w)).
Proof.
  unfold Lms._make_request, _make_request, Lms.default_client, _get_client,
    raise_for_status, Lms.tbind, Lms.tret, Lms.traise, Lms.send, bind, lift, ret, raise.
  destruct (negb (bool_decide (method ∈ http_methods))); [reflexivity|].
  destruct client as [c|]; simpl.
  - destruct (request c method url) as [e|response]; simpl;
      [destruct e; reflexivity|].
    destruct ((200 <=? status_code response) && (status_code response <? 300))%Z;
      [reflexivity|].
    destruct ((400 <=? status_code response) && (status_code response <? 600))%Z;
      reflexivity.
  - destruct (oauth w LMS_BASE_URL) as [e|[c []]]; simpl; try (destruct e; reflexivity);
      try reflexivity.
    destruct (request c method url) as [e|response]; simpl;
      [destruct e; reflexivity|].
    destruct ((200 <=? status_code response) && (status_code response <? 300))%Z;
      [reflexivity|].
    destruct ((400 <=? status_code response) && (status_code response <? 600))%Z;
      reflexivity.
Qed.
